(** * trialwatch: the multi-source ingestion pipeline

    A shallow embedding of [ctgov.py] (data model, retrying fetcher,
    paginated walker, batch upsert writer, orchestrator), of the fetcher of
    [ctis.py] and of the export harvester of [ctis_harvester.py], followed by
    the properties of the specification that these functions decide. *)

From Stdlib Require Import ZArith Lia Ascii String.
From stdpp Require Import base option list strings gmap pretty.

Set Warnings "-register-all".

Local Open Scope string_scope.
Local Open Scope list_scope.
Local Open Scope Z_scope.

(** ** Python values and control effects *)

Module Py.

(** The exception classes that the modelled code can see. *)
Inductive exn : Type :=
| ConnectionError      (* requests: transport failure, timeout, reset *)
| HTTPError (status : Z)
| JSONDecodeError
| RetryError           (* tenacity: attempts exhausted *)
| ValidationError      (* pydantic *)
| ValueError
| TypeError
| AttributeError
| DatabaseError        (* psycopg *)
| AutomationError      (* playwright *)
| UploadError.         (* boto3 *)

(** A call either returns a value or raises. *)
Inductive res (A : Type) : Type :=
| Ok (a : A)
| Raise (e : exn).
Arguments Ok {A} a.
Arguments Raise {A} e.

Definition raises {A} (r : res A) : bool :=
  match r with Ok _ => false | Raise _ => true end.

(** JSON documents as [json.loads] produces them: objects are [dict]s. *)
Inductive json : Type :=
| JNull
| JBool (b : bool)
| JNum (n : Z)
| JStr (s : string)
| JArr (l : list json)
| JObj (m : gmap string json).

(** Truth value of a string, as in [if s:]. *)
Definition truthy_str (s : string) : bool :=
  match s with EmptyString => false | _ => true end.

(** Truth value of an optional string ([None] and [""] are false). *)
Definition truthy_opt (o : option string) : bool :=
  match o with Some s => truthy_str s | None => false end.

(** Truth value of a decoded JSON value. *)
Definition truthy (j : json) : bool :=
  match j with
  | JNull => false
  | JBool b => b
  | JNum n => negb (n =? 0)
  | JStr s => truthy_str s
  | JArr l => match l with [] => false | _ => true end
  | JObj m => negb (bool_decide (dom m = (∅ : gset string)))
  end.

(** [a or b] on optional strings. *)
Definition or_opt (a b : option string) : option string :=
  if truthy_opt a then a else b.

(** The one-character strings of [s], as [for c in s] enumerates them. *)
Fixpoint chars (s : string) : list string :=
  match s with
  | EmptyString => []
  | String c rest => String c EmptyString :: chars rest
  end.

(** [for x in v]: lists give their items, strings their characters, dicts
    their keys; the other JSON values are not iterable. *)
Definition iterate (v : json) : res (list json) :=
  match v with
  | JArr l => Ok l
  | JStr s => Ok (JStr <$> chars s)
  | JObj m => Ok (JStr <$> (map_to_list m).*1)
  | JNull | JBool _ | JNum _ => Raise TypeError
  end.

(** [sep.join(parts)]. *)
Fixpoint join (sep : string) (parts : list string) : string :=
  match parts with
  | [] => ""
  | [p] => p
  | p :: rest => p +:+ sep +:+ join sep rest
  end.

(** [s.strip()] for the ASCII white space. *)
Definition is_space (c : ascii) : bool :=
  let n := nat_of_ascii c in
  ((9 <=? n)%nat && (n <=? 13)%nat) || (28 <=? n)%nat && (n <=? 32)%nat.

Fixpoint lstrip (s : string) : string :=
  match s with
  | String c rest => if is_space c then lstrip rest else s
  | EmptyString => EmptyString
  end.

Fixpoint rstrip (s : string) : string :=
  match s with
  | EmptyString => EmptyString
  | String c rest =>
      match rstrip rest with
      | EmptyString => if is_space c then EmptyString else String c EmptyString
      | r => String c r
      end
  end.

Definition strip (s : string) : string := rstrip (lstrip s).

(** *** Computations on a state that return or raise *)

Definition io (S A : Type) : Type := S -> res A * S.

Definition ret {S A} (a : A) : io S A := fun s => (Ok a, s).

Definition bind {S A B} (c : io S A) (k : A -> io S B) : io S B :=
  fun s =>
    match c s with
    | (Ok a, s') => k a s'
    | (Raise e, s') => (Raise e, s')
    end.

(** [try: body / except Exception: handler]. *)
Definition try_except {S A} (body : io S A) (handler : io S A) : io S A :=
  fun s =>
    match body s with
    | (Ok a, s') => (Ok a, s')
    | (Raise _, s') => handler s'
    end.

(** [try: body / finally: cleanup]; an exception of [cleanup] replaces the
    outcome of [body]. *)
Definition try_finally {S A} (body : io S A) (cleanup : io S unit) : io S A :=
  fun s =>
    match body s with
    | (r, s') =>
        match cleanup s' with
        | (Ok _, s'') => (r, s'')
        | (Raise e, s'') => (Raise e, s'')
        end
    end.

Notation "'let!' x ':=' c 'in' k" := (bind c (fun x => k))
  (at level 10, x name, c at level 100, k at level 200, only parsing).
Notation "c >> k" := (bind c (fun _ => k))
  (at level 80, right associativity, only parsing).

End Py.
Export Py.

(** ** [datetime] values

    A [datetime] is its wall-clock reading in microseconds together with the
    UTC offset when it is timezone-aware ([tzinfo] present). *)

Module Datetime.

Record t : Type := mk { wall : Z; utcoffset : option Z }.

(** [a < b]: two naive values compare by wall-clock reading, two aware
    values by instant; Python refuses to order a naive and an aware value. *)
Definition lt (a b : t) : res bool :=
  match utcoffset a, utcoffset b with
  | None, None => Ok (wall a <? wall b)
  | Some oa, Some ob => Ok (wall a - oa <? wall b - ob)
  | _, _ => Raise TypeError
  end.

(** [datetime.now()] when the system clock reads [clock]: a naive value. *)
Definition now (clock : Z) : t := mk clock None.

End Datetime.

(** ** Data models of [ctgov.py] (pydantic) *)

Module Pydantic.

(** Monadic map over a list, stopping at the first failure. *)
Fixpoint traverse {A B} (f : A -> res B) (l : list A) : res (list B) :=
  match l with
  | [] => Ok []
  | x :: rest =>
      match f x with
      | Ok y => match traverse f rest with
                | Ok ys => Ok (y :: ys)
                | Raise e => Raise e
                end
      | Raise e => Raise e
      end
  end.

(** A value for a field of type [str]. *)
Definition as_str (v : json) : res string :=
  match v with JStr s => Ok s | _ => Raise ValidationError end.

(** A value for a field of type [BaseModel]: a dict, validated by [sub]. *)
Definition as_model {A} (sub : gmap string json -> res A) (v : json) : res A :=
  match v with JObj m => sub m | _ => Raise ValidationError end.

(** [name: str = Field(alias=key)]. *)
Definition required {A} (conv : json -> res A) (m : gmap string json) (key : string)
  : res A :=
  match m !! key with
  | Some v => conv v
  | None => Raise ValidationError
  end.

(** [name: Optional[T] = Field(alias=key, default=None)]. *)
Definition optional {A} (conv : json -> res A) (m : gmap string json) (key : string)
  : res (option A) :=
  match m !! key with
  | None | Some JNull => Ok None
  | Some v => match conv v with Ok a => Ok (Some a) | Raise e => Raise e end
  end.

(** [name: List[T] = Field(default_factory=list)]. *)
Definition list_field {A} (conv : json -> res A) (m : gmap string json) (key : string)
  : res (list A) :=
  match m !! key with
  | None => Ok []
  | Some (JArr l) => traverse conv l
  | Some _ => Raise ValidationError
  end.

End Pydantic.

Module IdentificationModule.
Import Pydantic.

Record t : Type := mk {
  nct_id : string;
  brief_title : option string;
  official_title : option string
}.

Definition title (self : t) : option string :=
  or_opt (brief_title self) (official_title self).

Definition validate (m : gmap string json) : res t :=
  match required as_str m "nctId", optional as_str m "briefTitle",
        optional as_str m "officialTitle" with
  | Ok i, Ok b, Ok o => Ok (mk i b o)
  | _, _, _ => Raise ValidationError
  end.

End IdentificationModule.

Module DesignModule.
Import Pydantic.

Record t : Type := mk { phases : list string }.

Definition validate (m : gmap string json) : res t :=
  match list_field as_str m "phases" with
  | Ok p => Ok (mk p)
  | Raise e => Raise e
  end.

End DesignModule.

Module StatusModule.
Import Pydantic.

Record t : Type := mk {
  overall_status : string;
  last_changed_date : option string
}.

Definition validate (m : gmap string json) : res t :=
  match required as_str m "overallStatus", optional as_str m "lastChangedDate" with
  | Ok s, Ok d => Ok (mk s d)
  | _, _ => Raise ValidationError
  end.

End StatusModule.

Module ConditionsModule.
Import Pydantic.

Record t : Type := mk { conditions : list string }.

Definition validate (m : gmap string json) : res t :=
  match list_field as_str m "conditions" with
  | Ok c => Ok (mk c)
  | Raise e => Raise e
  end.

End ConditionsModule.

Module Location.
Import Pydantic.

Record t : Type := mk { country : option string }.

Definition validate (m : gmap string json) : res t :=
  match optional as_str m "country" with
  | Ok c => Ok (mk c)
  | Raise e => Raise e
  end.

End Location.

Module ContactsLocationsModule.
Import Pydantic.

Record t : Type := mk { locations : list Location.t }.

Definition validate (m : gmap string json) : res t :=
  match list_field (as_model Location.validate) m "locations" with
  | Ok l => Ok (mk l)
  | Raise e => Raise e
  end.

End ContactsLocationsModule.

Module ProtocolSection.
Import Pydantic.

Record t : Type := mk {
  identification_module : IdentificationModule.t;
  design_module : option DesignModule.t;
  status_module : StatusModule.t;
  conditions_module : option ConditionsModule.t;
  contacts_locations_module : option ContactsLocationsModule.t
}.

Definition validate (m : gmap string json) : res t :=
  match required (as_model IdentificationModule.validate) m "identificationModule",
        optional (as_model DesignModule.validate) m "designModule",
        required (as_model StatusModule.validate) m "statusModule",
        optional (as_model ConditionsModule.validate) m "conditionsModule",
        optional (as_model ContactsLocationsModule.validate) m "contactsLocationsModule"
  with
  | Ok i, Ok d, Ok s, Ok c, Ok l => Ok (mk i d s c l)
  | _, _, _, _, _ => Raise ValidationError
  end.

End ProtocolSection.

Module ApiStudy.
Import Pydantic.

Record t : Type := mk { protocol_section : ProtocolSection.t }.

(** [ApiStudy.model_validate(raw)]. *)
Definition model_validate (raw : json) : res t :=
  match raw with
  | JObj m =>
      match required (as_model ProtocolSection.validate) m "protocolSection" with
      | Ok p => Ok (mk p)
      | Raise e => Raise e
      end
  | _ => Raise ValidationError
  end.

End ApiStudy.

(** ** The unified record *)

Module Trial.

Record t : Type := mk {
  id : string;
  title : option string;
  phases : list string;
  status : string;
  conditions : list string;
  countries : list string;
  last_changed : option Datetime.t;
  raw : json
}.

(** [v.endswith("Z")]. *)
Fixpoint endswith_Z (v : string) : bool :=
  match v with
  | EmptyString => false
  | String c EmptyString => bool_decide (c = "Z"%char)
  | String _ rest => endswith_Z rest
  end.

(** [v.replace("Z", "+00:00")]: every occurrence is replaced. *)
Fixpoint replace_Z (v : string) : string :=
  match v with
  | EmptyString => EmptyString
  | String c rest =>
      if bool_decide (c = "Z"%char) then "+00:00" +:+ replace_Z rest
      else String c (replace_Z rest)
  end.

Section WithParser.

(** [datetime.fromisoformat] of the standard library; [None] stands for its
    [ValueError]. The development holds for every such parser. *)
Variable fromisoformat : string -> option Datetime.t.

(** The [last_changed] validator ([mode="before"]). *)
Definition _parse_dt (v : option string) : option Datetime.t :=
  match v with
  | Some s => fromisoformat (if endswith_Z s then replace_Z s else s)
  | None => None
  end.

(** [list(set(countries))]. *)
Definition dedup_set (l : list string) : list string :=
  elements (list_to_set l : gset string).

Definition from_api (api : ApiStudy.t) (raw : json) : t :=
  let p := ApiStudy.protocol_section api in
  let countries :=
    match ProtocolSection.contacts_locations_module p with
    | Some clm =>
        omap (fun loc =>
                if truthy_opt (Location.country loc) then Location.country loc
                else None)
             (ContactsLocationsModule.locations clm)
    | None => []
    end in
  let phases :=
    match ProtocolSection.design_module p with
    | Some dm => DesignModule.phases dm
    | None => []
    end in
  let conditions :=
    match ProtocolSection.conditions_module p with
    | Some cm => ConditionsModule.conditions cm
    | None => []
    end in
  mk (IdentificationModule.nct_id (ProtocolSection.identification_module p))
     (IdentificationModule.title (ProtocolSection.identification_module p))
     phases
     (StatusModule.overall_status (ProtocolSection.status_module p))
     conditions
     (dedup_set countries)
     (_parse_dt (StatusModule.last_changed_date (ProtocolSection.status_module p)))
     raw.

End WithParser.

End Trial.

(** ** Retrying with exponential backoff (tenacity) *)

Module Tenacity.

Record policy : Type := mk {
  multiplier : Z;
  wait_min : Z;
  wait_max : Z;
  stop_after_attempt : nat
}.

(** [wait_exponential(multiplier, min, max)] after attempt [attempt_number]
    (counted from 1), in seconds. *)
Definition wait_exponential (p : policy) (attempt_number : nat) : Z :=
  Z.max (Z.max 0 (wait_min p))
        (Z.min (multiplier p * 2 ^ (Z.of_nat attempt_number - 1)) (wait_max p)).

Section Retry.

Context {S A : Type}.
Variable p : policy.
(** What the decorated function does in one call. *)
Variable attempt : S -> res A * S.
(** The pause between two attempts. *)
Variable sleep : Z -> S -> S.

(** [left] attempts remain, the next one has number [k]. The exception of a
    failed attempt is dropped: another attempt follows whatever it was, and
    after the last one [RetryError] is raised. *)
Fixpoint attempts_from (left : nat) (k : nat) (s : S) : res A * S :=
  match left with
  | O => (Raise RetryError, s)
  | Datatypes.S left' =>
      match attempt s with
      | (Ok a, s') => (Ok a, s')
      | (Raise _, s') =>
          match left' with
          | O => (Raise RetryError, s')
          | _ => attempts_from left' (Datatypes.S k) (sleep (wait_exponential p k) s')
          end
      end
  end.

Definition retry (s : S) : res A * S :=
  attempts_from (stop_after_attempt p) 1%nat s.

End Retry.

End Tenacity.

(** ** The network, as the client sees it *)

Module Requests.

(** What one GET meets: no answer at all (time-out, reset, refused), or a
    response with its status and its body ([None]: a body that is not JSON). *)
Inductive reply : Type :=
| Unreachable
| Response (status_code : Z) (body : option json).

Inductive event : Type :=
| Sent (url : string) (params : gmap string json)
| Backoff (seconds : Z)        (* tenacity's pause before the next attempt *)
| Throttle.                    (* [time.sleep] between two pages *)

(** The replies that the successive requests will meet, in order (when they
    run out the server has stopped answering), and what the client did. *)
Record net : Type := mk {
  script : list reply;
  log : list event
}.

Definition record (e : event) (n : net) : net :=
  mk (script n) (log n ++ [e]).

(** [requests.get(url, params=params, timeout=30)]. *)
Definition get (url : string) (params : gmap string json) (n : net)
  : res (Z * option json) * net :=
  match script n with
  | [] => (Raise ConnectionError, mk [] (log n ++ [Sent url params]))
  | Unreachable :: rest =>
      (Raise ConnectionError, mk rest (log n ++ [Sent url params]))
  | Response st body :: rest =>
      (Ok (st, body), mk rest (log n ++ [Sent url params]))
  end.

(** [resp.raise_for_status()]. *)
Definition raise_for_status (resp : Z * option json) : res unit :=
  let st := fst resp in
  if (400 <=? st) && (st <? 600) then Raise (HTTPError st) else Ok tt.

(** [resp.json()]. *)
Definition json_body (resp : Z * option json) : res json :=
  match snd resp with
  | Some j => Ok j
  | None => Raise JSONDecodeError
  end.

(** The body of both fetchers: GET, check the status, decode. *)
Definition fetch_once (url : string) (params : gmap string json) (n : net)
  : res json * net :=
  match get url params n with
  | (Ok resp, n') =>
      match raise_for_status resp with
      | Ok _ => (json_body resp, n')
      | Raise e => (Raise e, n')
      end
  | (Raise e, n') => (Raise e, n')
  end.

Definition is_sent (e : event) : bool :=
  match e with Sent _ _ => true | _ => false end.

(** Number of requests sent so far. *)
Definition requests_sent (n : net) : nat :=
  length (List.filter is_sent (log n)).

(** A reply that makes an attempt fail: no answer, a status from 400 to
    599, or a body that does not decode. *)
Definition failing (r : reply) : bool :=
  match r with
  | Unreachable => true
  | Response st body =>
      ((400 <=? st) && (st <? 600)) || match body with None => true | Some _ => false end
  end.

(** The status is a client error other than 429 (rate limit). *)
Definition permanent (st : Z) : bool :=
  (400 <=? st) && (st <? 500) && negb (st =? 429).

(** The pause that tenacity makes between two attempts. *)
Definition pause (secs : Z) : net -> net := record (Backoff secs).

End Requests.

(** ** The database, as [db_client.PSQLWrapper] and psycopg present it *)

Module Db.

(** The calls made on the wrapper and on its connection. *)
Inductive op : Type :=
| Connect | Cursor | Executemany | Execute | Commit | Rollback | Close.

(** A row of [clinical_trials], without its key [nct_id]. *)
Record row : Type := Row {
  title : option string;
  status : string;
  phase : option string;
  conditions : list string;
  locations : list string;
  last_updated : Datetime.t;
  source : string;
  url : string
}.

Inductive event : Type :=
| Call (o : op) (ok : bool).

(** The surroundings of a run: [faults o n] tells whether call [o], made at
    step [n], fails; [clock n] is the reading of the system clock at step
    [n]. *)
Record env : Type := Env {
  faults : op -> nat -> bool;
  clock : nat -> Z
}.

(** The state of the database and of the run: [table] holds the committed
    rows by [nct_id], [txn] the rows as the open transaction sees them. *)
Record state : Type := mk {
  tick : nat;
  table : gmap string row;
  txn : gmap string row;
  log : list event
}.

(** Computations of the writer. *)
Definition M (A : Type) : Type := io state A.

Definition set_txn (f : gmap string row -> gmap string row) (s : state) : state :=
  mk (tick s) (table s) (f (txn s)) (log s).

(** What the transaction holds becomes the committed state. *)
Definition publish (s : state) : state :=
  mk (tick s) (txn s) (txn s) (log s).

(** The transaction is discarded. *)
Definition discard (s : state) : state :=
  mk (tick s) (table s) (table s) (log s).

(** [ON CONFLICT (nct_id) DO UPDATE SET ...]: every column is overwritten. *)
Definition upsert (v : string * row) (t : gmap string row) : gmap string row :=
  <[v.1 := v.2]> t.

(** [ON CONFLICT (nct_id) DO NOTHING]. *)
Definition insert_or_ignore (v : string * row) (t : gmap string row)
  : gmap string row :=
  match t !! v.1 with
  | Some _ => t
  | None => <[v.1 := v.2]> t
  end.

(** One step passes. *)
Definition bump (s : state) : state := mk (S (tick s)) (table s) (txn s) (log s).

Section WithEnv.

Variable e : env.

(** One call: it takes one step and is logged with its outcome. *)
Definition call (o : op) (effect : state -> state) : M unit :=
  fun s =>
    let ok := negb (faults e o (tick s)) in
    let s' := mk (S (tick s)) (table s) (txn s) (log s ++ [Call o ok]) in
    if ok then (Ok tt, effect s') else (Raise DatabaseError, s').

(** [PSQLWrapper.connect()]: every exception is caught and reported as
    [False]. A new connection sees the committed rows. *)
Definition connect : M bool :=
  try_except (call Connect discard >> ret true) (ret false).

Definition cursor : M unit := call Cursor id.

(** [cur.executemany(upsert, values_list)]: one upsert per tuple, in order. *)
Definition executemany (values_list : list (string * row)) : M unit :=
  call Executemany (set_txn (fun t => foldl (fun t v => upsert v t) t values_list)).

(** [cur.execute(insert_or_ignore, params)]. *)
Definition execute (params : string * row) : M unit :=
  call Execute (set_txn (insert_or_ignore params)).

Definition commit : M unit := call Commit publish.

Definition rollback : M unit := call Rollback discard.

(** [PSQLWrapper.close()], on a wrapper that holds a connection. *)
Definition close : M unit := call Close discard.

(** [datetime.now()]: reading the clock takes one step. *)
Definition now : M Datetime.t :=
  fun s => (Ok (Datetime.now (clock e (tick s))), bump s).

End WithEnv.

End Db.

(** ** [ctgov.py]: fetcher and walker *)

Module Ctgov.
Import Requests.

(** What a generator gives its consumer: the items it yields, in order, and
    then either exhaustion ([failure = None]) or an exception. *)
Record stream (A : Type) : Type := Stream {
  yielded : list A;
  failure : option exn
}.
Arguments Stream {A} yielded failure.
Arguments yielded {A} s.
Arguments failure {A} s.

(** [@retry(wait=wait_exponential(multiplier=1, min=2, max=10),
            stop=stop_after_attempt(5))]. *)
Definition _get_policy : Tenacity.policy := Tenacity.mk 1 2 10 5.

Definition fields : string :=
  join "," ["NCTId"; "BriefTitle"; "OfficialTitle"; "OverallStatus";
            "Phase"; "Condition"; "LastUpdatePostDate"].

Section Walker.

(** The endpoint ([CTG_ENDPOINT], read from the environment). *)
Variable CTG_ENDPOINT : string.
Variable fromisoformat : string -> option Datetime.t.

Definition _get (params : gmap string json) (n : net) : res json * net :=
  Tenacity.retry _get_policy (fetch_once CTG_ENDPOINT params) pause n.

(** [phase and phase not in [p.strip() for p in trial.phases]]. *)
Definition phase_excluded (phase : option string) (trial : Trial.t) : bool :=
  match phase with
  | Some ph => truthy_str ph && negb (bool_decide (ph ∈ strip <$> Trial.phases trial))
  | None => false
  end.

(** [dt_since and trial.last_changed and trial.last_changed < dt_since];
    the comparison is evaluated only when both dates are present. *)
Definition since_excluded (dt_since : option Datetime.t) (trial : Trial.t) : res bool :=
  match dt_since, Trial.last_changed trial with
  | Some cutoff, Some changed => Datetime.lt changed cutoff
  | _, _ => Ok false
  end.

(** The [for raw in ...] loop over one page. *)
Fixpoint page_items (phase : option string) (dt_since : option Datetime.t)
    (studies : list json) : stream Trial.t :=
  match studies with
  | [] => Stream [] None
  | raw :: rest =>
      match ApiStudy.model_validate raw with
      | Raise e => Stream [] (Some e)
      | Ok api =>
          let trial := Trial.from_api fromisoformat api raw in
          if phase_excluded phase trial then page_items phase dt_since rest
          else
            match since_excluded dt_since trial with
            | Raise e => Stream [] (Some e)
            | Ok true => page_items phase dt_since rest
            | Ok false =>
                let s := page_items phase dt_since rest in
                Stream (trial :: yielded s) (failure s)
            end
      end
  end.

(** The [while True] loop; [fuel] bounds the number of pages. *)
Fixpoint walk (fuel : nat) (phase : option string) (dt_since : option Datetime.t)
    (params : gmap string json) (page_token : json) (n : net)
  : option (stream Trial.t * net) :=
  match fuel with
  | O => None
  | S fuel' =>
      let params :=
        if truthy page_token then <["pageToken" := page_token]> params else params in
      match _get params n with
      | (Raise e, n1) => Some (Stream [] (Some e), n1)
      | (Ok (JObj data), n1) =>
          match iterate (default (JArr []) (data !! "studies")) with
          | Raise e => Some (Stream [] (Some e), n1)
          | Ok studies =>
              let page := page_items phase dt_since studies in
              match failure page with
              | Some e => Some (page, n1)
              | None =>
                  let page_token := default JNull (data !! "nextPageToken") in
                  if negb (truthy page_token) then Some (page, n1)
                  else
                    match walk fuel' phase dt_since params page_token
                               (record Throttle n1) with
                    | Some (more, n2) =>
                        Some (Stream (yielded page ++ yielded more) (failure more), n2)
                    | None => None
                    end
              end
          end
      | (Ok _, n1) => Some (Stream [] (Some AttributeError), n1)
      end
  end.

(** [get_trials(condition, phase, since, page_size)], run to the end of the
    stream. Every page consumes at least one scripted reply, so one unit of
    fuel per reply, and one more, is enough ([get_trials_total]). *)
Definition get_trials (condition : string) (phase since : option string)
    (page_size : Z) (n : net) : option (stream Trial.t * net) :=
  let params : gmap string json :=
    <["query.cond" := JStr condition]>
      (<["pageSize" := JStr (pretty page_size)]>
         (<["fields" := JStr fields]> (<["format" := JStr "json"]> ∅))) in
  if truthy_opt since then
    match fromisoformat (default "" since) with
    | None => Some (Stream [] (Some ValueError), n)
    | Some dt => walk (S (length (script n))) phase (Some dt) params JNull n
    end
  else walk (S (length (script n))) phase None params JNull n.

(** A response body whose page the loop goes through without raising, and
    which names a next page. *)
Definition passes_on (phase : option string) (dt_since : option Datetime.t)
    (body : gmap string json) (studies : list json) : Prop :=
  body !! "studies" = Some (JArr studies)
  /\ failure (page_items phase dt_since studies) = None
  /\ truthy (default JNull (body !! "nextPageToken")) = true.

End Walker.

(** *** The batch upsert writer *)

Import Db.

Section Writer.

Variable e : env.


(** [trial.last_changed or datetime.now()]: the clock is read only when the
    record has no date. *)
Definition last_updated_value (trial : Trial.t) : M Datetime.t :=
  match Trial.last_changed trial with
  | Some d => ret d
  | None => now e
  end.

(** The row that a parameter tuple describes, given its time stamp. *)
Definition row_of (trial : Trial.t) (stamp : Datetime.t) : row :=
  let phases_str :=
    match Trial.phases trial with
    | [] => None
    | ps => Some (join ", " ps)
    end in
  Row (Trial.title trial) (Trial.status trial) phases_str
      (Trial.conditions trial) (Trial.countries trial) stamp
      "clinicaltrials.gov"
      ("https://clinicaltrials.gov/study/" +:+ Trial.id trial).

(** The parameter tuple of one record (the same in both paths). *)
Definition values_of (trial : Trial.t) : M (string * row) :=
  let! stamp := last_updated_value trial in
  ret (Trial.id trial, row_of trial stamp).

Fixpoint values_list_of (trials : list Trial.t) : M (list (string * row)) :=
  match trials with
  | [] => ret []
  | trial :: rest =>
      let! values := values_of trial in
      let! more := values_list_of rest in
      ret (values :: more)
  end.

(** The body of the outer [try]. *)
Definition batch_insert (trials : list Trial.t) : M Z :=
  let! values_list := values_list_of trials in
  cursor e >>
  executemany e values_list >>
  commit e >>
  ret (Z.of_nat (length trials)).

(** The body of the inner [try], for one record. *)
Definition single_insert (trial : Trial.t) : M unit :=
  let! params := values_of trial in
  cursor e >>
  execute e params >>
  commit e.

(** The fallback loop; the inner handler rolls back and goes on. *)
Fixpoint fallback (trials : list Trial.t) (saved_count : Z) : M Z :=
  match trials with
  | [] => ret saved_count
  | trial :: rest =>
      let! saved_count' :=
        try_except (single_insert trial >> ret (saved_count + 1))
                   (rollback e >> ret saved_count) in
      fallback rest saved_count'
  end.

Definition save_trials_to_db (trials : list Trial.t) : M Z :=
  match trials with
  | [] => ret 0
  | _ =>
      let! connected := connect e in
      if negb connected then ret 0
      else
        try_finally
          (try_except (batch_insert trials)
                      (rollback e >> fallback trials 0))
          (close e)
  end.

(** *** The orchestrator *)

(** The [except Exception] block of [get_trials_and_save], entered with the
    buffer and the total as they are when the exception arrives. *)
Definition rescue (batch : list Trial.t) (total_saved : Z) : M Z :=
  match batch with
  | [] => ret total_saved
  | _ =>
      let! saved := save_trials_to_db batch in
      ret (total_saved + saved)
  end.

(** The code after the [for] loop, inside the [try]. *)
Definition flush_rest (batch : list Trial.t) (total_saved : Z) : M Z :=
  match batch with
  | [] => ret total_saved
  | _ =>
      try_except (let! saved := save_trials_to_db batch in ret (total_saved + saved))
                 (rescue batch total_saved)
  end.

(** The [for trial in get_trials(...)] loop over what the walker yields.
    A writer call that raises inside the loop leaves the buffer as it is
    and enters the handler. So does the progress line after a write: it
    computes [count // batch_size], which raises [ZeroDivisionError] when
    [batch_size] is zero, before the buffer is cleared. *)
Fixpoint consume (items : list Trial.t) (ending : option exn)
    (max_trials batch_size : Z) (batch : list Trial.t) (count total_saved : Z)
  : M Z :=
  match items with
  | [] =>
      match ending with
      | Some _ => rescue batch total_saved
      | None => flush_rest batch total_saved
      end
  | trial :: rest =>
      let batch := batch ++ [trial] in
      let count := count + 1 in
      if batch_size <=? Z.of_nat (length batch) then
        fun s =>
          match save_trials_to_db batch s with
          | (Ok saved, s') =>
              if batch_size =? 0 then rescue batch (total_saved + saved) s'
              else if max_trials <=? count then flush_rest [] (total_saved + saved) s'
              else consume rest ending max_trials batch_size [] count
                           (total_saved + saved) s'
          | (Raise _, s') => rescue batch total_saved s'
          end
      else if max_trials <=? count then flush_rest batch total_saved
      else consume rest ending max_trials batch_size batch count total_saved
  end.

Variable CTG_ENDPOINT : string.
Variable fromisoformat : string -> option Datetime.t.

(** [get_trials_and_save]. The walker is a generator: the loop pulls its
    items one by one and the [break] stops pulling, so only the items up to
    the break, and the ending when the loop gets there, are seen. *)
Definition get_trials_and_save (condition : string) (phase since : option string)
    (page_size max_trials batch_size : Z) (n : net) (s : state)
  : option (res Z * state) :=
  match get_trials CTG_ENDPOINT fromisoformat condition phase since page_size n with
  | Some (trials, _) =>
      Some (consume (yielded trials) (failure trials) max_trials batch_size [] 0 0 s)
  | None => None
  end.

End Writer.

(** *** What the orchestrator amounts to *)

(** The batches that the loop of [get_trials_and_save] hands to the writer
    when nothing stops it: the buffer is handed over as soon as it holds
    [batch_size] records, and what is left at the end is handed over too. *)
Fixpoint batches_from (batch_size : Z) (buffer items : list Trial.t)
  : list (list Trial.t) :=
  match items with
  | [] => match buffer with [] => [] | _ => [buffer] end
  | trial :: rest =>
      let buffer' := buffer ++ [trial] in
      if batch_size <=? Z.of_nat (length buffer')
      then buffer' :: batches_from batch_size [] rest
      else batches_from batch_size buffer' rest
  end.

(** Handing the batches to the writer one after the other and adding up what
    it reports. *)
Fixpoint write_all (e : env) (batches : list (list Trial.t)) (total_saved : Z) : M Z :=
  match batches with
  | [] => ret total_saved
  | batch :: more =>
      let! saved := save_trials_to_db e batch in
      write_all e more (total_saved + saved)
  end.

End Ctgov.

(** ** [ctis.py]: the fetcher *)

Module Ctis.
Import Requests.

Definition BASE_URL : string := "https://api.euclinicaltrials.eu/public/v1/trials".

(** [@retry(wait=wait_exponential(multiplier=1, min=1, max=10),
            stop=stop_after_attempt(3))]. *)
Definition _fetch_page_policy : Tenacity.policy := Tenacity.mk 1 1 10 3.

Definition _fetch_page (params : gmap string json) (n : net) : res json * net :=
  Tenacity.retry _fetch_page_policy (fetch_once BASE_URL params) pause n.

End Ctis.

(** ** [ctis_harvester.py]: the export harvester *)

Module CtisHarvester.

Record date : Type := Date { year : Z; month : Z; day : Z }.

Definition pad2 (n : Z) : string :=
  if n <? 10 then "0" +:+ pretty n else pretty n.

Definition pad4 (n : Z) : string :=
  if n <? 10 then "000" +:+ pretty n
  else if n <? 100 then "00" +:+ pretty n
  else if n <? 1000 then "0" +:+ pretty n
  else pretty n.

(** [d.format("YYYY-MM-DD")]. *)
Definition format_iso (d : date) : string :=
  pad4 (year d) +:+ "-" +:+ pad2 (month d) +:+ "-" +:+ pad2 (day d).

(** [d.format("DD/MM/YYYY")]. *)
Definition format_ui (d : date) : string :=
  pad2 (day d) +:+ "/" +:+ pad2 (month d) +:+ "/" +:+ pad4 (year d).

(** A [pathlib.Path]: directory and file name. *)
Record path : Type := Path { parent : string; name : string }.

Definition path_str (p : path) : string := parent p +:+ "/" +:+ name p.

(** Who is called: the browser automation, the file system, the storage
    service. *)
Inductive callee : Type := Playwright | Filesystem | Boto.

Inductive event : Type :=
| BrowserLaunched
| ContextOpened
| PageOpened
| Navigated (url : string)
| Clicked (selector : string)
| Filled (selector text : string)
| Pressed (selector key : string)
| DownloadExpected
| DownloadReceived
| DownloadSaved (tmp : string)
| BrowserClosed
| PlaywrightStopped
| Renamed (src dst : string)
| Uploaded (local bucket key : string)
| Failed (c : callee)          (* a call to [c] that raised *)
| Backoff (seconds : Z).

(** The events that involve the browser, failed calls included. *)
Definition is_browser (e : event) : bool :=
  match e with
  | Renamed _ _ | Uploaded _ _ _ | Backoff _ => false
  | Failed Playwright => true
  | Failed _ => false
  | _ => true
  end.

(** The reference that [generate_presigned_url("get_object", ...)] is asked
    for: the object and the life time. *)
Record presigned : Type := Presigned {
  bucket : string;
  key : string;
  expires_in : Z
}.

(** The URL that [generate_presigned_url] returns: the reference it was
    asked for, signed at the moment of the call. The date, the expiry and
    the signature that the URL carries depend on that moment, so two calls
    at different moments return different URLs for the same object. *)
Record signed_url : Type := Signed {
  asked : presigned;
  signed_at : nat
}.

(** The surroundings of a run: [faults c n] tells whether the call to [c]
    made at step [n] fails; [yesterday] is what [pendulum.yesterday()]
    returns during the run; [download_tmp] is where the browser stores a
    finished download; [S3_BUCKET] is read from the environment. *)
Record env : Type := Env {
  faults : callee -> nat -> bool;
  yesterday : date;
  download_tmp : string;
  S3_BUCKET : string
}.

(** [files] are the paths that exist. *)
Record state : Type := mk {
  tick : nat;
  files : gset string;
  log : list event
}.

Definition M (A : Type) : Type := io state A.

Definition failure_of (c : callee) : exn :=
  match c with
  | Playwright => AutomationError
  | Filesystem => ValueError
  | Boto => UploadError
  end.

Definition note (ev : event) (s : state) : state :=
  mk (tick s) (files s) (log s ++ [ev]).

Definition SEARCH_URL : string :=
  "https://euclinicaltrials.eu/search-for-clinical-trials".

Section Harvest.

Variable e : env.

(** One call to [c]: it takes one step; when it succeeds [ev] is logged and
    [effect] applied to the file system, when it fails the failure is
    logged. *)
Definition call (c : callee) (ev : event) (effect : gset string -> gset string)
  : M unit :=
  fun s =>
    if faults e c (tick s)
    then (Raise (failure_of c), mk (S (tick s)) (files s) (log s ++ [Failed c]))
    else (Ok tt, mk (S (tick s)) (effect (files s)) (log s ++ [ev])).

Definition today_path : path :=
  Path "/tmp" ("ctis_" +:+ format_iso (yesterday e) +:+ ".csv").

(** [s3.generate_presigned_url("get_object", Params=..., ExpiresIn=...)]:
    computed by the client, at the current step. *)
Definition generate_presigned_url (reference : presigned) : M signed_url :=
  fun s => (Ok (Signed reference (tick s)), s).

Definition upload_to_s3 (local_path : path) : M signed_url :=
  let key := "raw/" +:+ name local_path in
  call Boto (Uploaded (path_str local_path) (S3_BUCKET e) key) id >>
  generate_presigned_url (Presigned (S3_BUCKET e) key (7 * 24 * 3600)).

(** [with page.expect_download(timeout=...) as dl_info:]. In the async API
    [expect_download] returns an object that is an asynchronous context
    manager only; the plain [with] statement raises whenever it is reached
    ([TypeError]; [AttributeError] before Python 3.11). *)
Definition expect_download : M unit :=
  fun s => (Raise TypeError, mk (S (tick s)) (files s) (log s ++ [Failed Playwright])).

(** The browser session of one attempt, up to [browser.close()]. The
    request listener only assigns a local variable that nothing reads. The
    steps after [expect_download] are those of the source; they are never
    reached. *)
Definition session (out_path : path) : M unit :=
  call Playwright BrowserLaunched id >>
  call Playwright ContextOpened id >>
  call Playwright PageOpened id >>
  call Playwright (Navigated SEARCH_URL) id >>
  call Playwright (Clicked "button:has-text('Advanced filters')") id >>
  call Playwright (Clicked "label:has-text('Last updated')") id >>
  call Playwright (Filled "input[placeholder='DD/MM/YYYY']" (format_ui (yesterday e))) id >>
  call Playwright (Pressed "input[placeholder='DD/MM/YYYY']" "Enter") id >>
  expect_download >>
  call Playwright (Clicked "button:has-text('Download CSV')") id >>
  call Playwright DownloadReceived id >>
  call Playwright (DownloadSaved (download_tmp e)) (fun fs => {[download_tmp e]} ∪ fs) >>
  call Filesystem (Renamed (download_tmp e) (path_str out_path))
       (fun fs => {[path_str out_path]} ∪ fs ∖ {[download_tmp e]}) >>
  call Playwright BrowserClosed id.

(** One call of the body of [run]. The [async with] block stops playwright
    on every way out. *)
Definition run_once : M signed_url :=
  fun s =>
    let out_path := today_path in
    if bool_decide (path_str out_path ∈ files s) then upload_to_s3 out_path s
    else
      match session out_path s with
      | (Ok _, s1) => upload_to_s3 out_path (note PlaywrightStopped s1)
      | (Raise x, s1) => (Raise x, note PlaywrightStopped s1)
      end.

(** [@retry(wait=wait_exponential(multiplier=2, min=4, max=30),
            stop=stop_after_attempt(3))]. *)
Definition run_policy : Tenacity.policy := Tenacity.mk 2 4 30 3.

Definition run : M signed_url :=
  Tenacity.retry run_policy run_once (fun secs => note (Backoff secs)).

End Harvest.

(** *** Notions for the properties *)

(** The browser events of a log. *)
Definition browser_events (l : list event) : list event := List.filter is_browser l.

(** The reference for which [run] has the URL signed that it returns: the
    artifact of the target date. *)
Definition artifact_reference (e : env) : presigned :=
  Presigned (S3_BUCKET e) ("raw/" +:+ name (today_path e)) (7 * 24 * 3600).

Definition artifact (e : env) : string := path_str (today_path e).

End CtisHarvester.

(** ** Sample inputs *)

Module Samples.
Import Requests Ctgov.

(** A source payload with the two required modules and a design module. *)
Definition study (nct_id : string) (phases : list string) : json :=
  JObj (<["protocolSection" := JObj (
    <["identificationModule" := JObj (<["nctId" := JStr nct_id]> ∅)]>
    (<["statusModule" := JObj (<["overallStatus" := JStr "RECRUITING"]> ∅)]>
    (<["designModule" := JObj (<["phases" := JArr (JStr <$> phases)]> ∅)]> ∅)))]> ∅).

(** A unified record without a date. *)
Definition undated (nct_id : string) : Trial.t :=
  Trial.mk nct_id (Some "A study") ["PHASE2"] "RECRUITING" ["Diabetes"] ["PL"]
           None (JObj ∅).

(** An empty database before the first step. *)
Definition fresh : Db.state := Db.mk 0 ∅ ∅ [].

(** The clock advances by one unit per step. *)
Definition ticking (n : nat) : Z := 1000 + Z.of_nat n.

(** A database on which nothing fails. *)
Definition healthy : Db.env := Db.Env (fun _ _ => false) ticking.

(** A server that cannot be reached. *)
Definition unreachable : Db.env :=
  Db.Env (fun o _ => match o with Db.Connect => true | _ => false end) ticking.

(** A connection that drops during the batch statement: the statement fails
    and so does the rollback that follows. *)
Definition dropped : Db.env :=
  Db.Env (fun o _ => match o with
                     | Db.Executemany | Db.Execute | Db.Commit | Db.Rollback => true
                     | _ => false
                     end) ticking.

(** A database that refuses every statement but keeps the connection. *)
Definition refusing : Db.env :=
  Db.Env (fun o _ => match o with
                     | Db.Executemany | Db.Execute => true
                     | _ => false
                     end) ticking.

(** A database that refuses the batch statement only. *)
Definition batch_refusing : Db.env :=
  Db.Env (fun o _ => match o with Db.Executemany => true | _ => false end) ticking.

(** A payload with only the two required fields. *)
Definition minimal (nct_id status : string) : json :=
  JObj (<["protocolSection" := JObj (
    <["identificationModule" := JObj (<["nctId" := JStr nct_id]> ∅)]>
    (<["statusModule" := JObj (<["overallStatus" := JStr status]> ∅)]> ∅))]> ∅).

(** A payload whose identification module has a title and no [nctId]. *)
Definition nameless : json :=
  JObj (<["protocolSection" := JObj (
    <["identificationModule" := JObj (<["briefTitle" := JStr "No id"]> ∅)]>
    (<["statusModule" := JObj (<["overallStatus" := JStr "RECRUITING"]> ∅)]> ∅))]> ∅).

(** A payload that names a condition twice and has three locations in two
    countries. *)
Definition repetitive : json :=
  JObj (<["protocolSection" := JObj (
    <["identificationModule" := JObj (<["nctId" := JStr "NCT07"]> ∅)]>
    (<["statusModule" := JObj (<["overallStatus" := JStr "COMPLETED"]> ∅)]>
    (<["conditionsModule" := JObj (
         <["conditions" := JArr (JStr <$> ["Diabetes"; "Diabetes"])]> ∅)]>
    (<["contactsLocationsModule" := JObj (
         <["locations" := JArr [JObj (<["country" := JStr "PL"]> ∅);
                                JObj (<["country" := JStr "DE"]> ∅);
                                JObj (<["country" := JStr "PL"]> ∅)]]> ∅)]> ∅))))]> ∅).

(** A payload whose date does not parse. *)
Definition misdated : json :=
  JObj (<["protocolSection" := JObj (
    <["identificationModule" := JObj (<["nctId" := JStr "NCT09"]> ∅)]>
    (<["statusModule" := JObj (
         <["overallStatus" := JStr "RECRUITING"]>
         (<["lastChangedDate" := JStr "yesterday"]> ∅))]> ∅))]> ∅).

(** A payload dated in UTC ("Zulu") time. *)
Definition zulu_dated : json :=
  JObj (<["protocolSection" := JObj (
    <["identificationModule" := JObj (<["nctId" := JStr "NCT10"]> ∅)]>
    (<["statusModule" := JObj (
         <["overallStatus" := JStr "RECRUITING"]>
         (<["lastChangedDate" := JStr "2025-01-01T00:00:00Z"]> ∅))]> ∅))]> ∅).

(** What validation makes of [misdated]. *)
Definition misdated_api : ApiStudy.t :=
  ApiStudy.mk
    (ProtocolSection.mk (IdentificationModule.mk "NCT09" None None) None
                        (StatusModule.mk "RECRUITING" (Some "yesterday")) None None).

(** A response body with one page of studies and no cursor. *)
Definition page (studies : list json) : json :=
  JObj (<["studies" := JArr studies]> ∅).

(** A server that serves the given bodies, one per request. *)
Definition serving (bodies : list json) : net :=
  Requests.mk ((fun body => Response 200 (Some body)) <$> bodies) [].

(** The three records of scenario B. *)
Definition scenario_B : list json :=
  [study "NCT-A" ["Phase 1"]; study "NCT-B" ["Phase 2"; "Phase 3"]; study "NCT-C" []].

(** A parser that knows two dates (wall-clock microseconds since 1970). *)
Definition calendar (v : string) : option Datetime.t :=
  if bool_decide (v = "2025-07-01") then Some (Datetime.mk 1751328000000000 None)
  else if bool_decide (v = "2025-01-01T00:00:00+00:00")
       then Some (Datetime.mk 1735689600000000 (Some 0))
       else None.

Definition ENDPOINT : string := "https://clinicaltrials.gov/api/v2/studies".

(** A response body with one page of studies and the cursor "X". *)
Definition page_then (studies : list json) : gmap string json :=
  <["studies" := JArr studies]> (<["nextPageToken" := JStr "X"]> ∅).

(** A page with two good records followed by one without native id. *)
Definition broken_page : json :=
  page [study "NCT-A" ["Phase 1"]; study "NCT-B" ["Phase 2"]; nameless].

(** A server that answers 404 once and then serves an empty page. *)
Definition flaky_404 : net :=
  Requests.mk [Response 404 (Some JNull); Response 200 (Some (JObj ∅))] [].

(** A server that answers 404 to every request. *)
Definition always_404 : net :=
  Requests.mk (replicate 8 (Response 404 (Some JNull))) [].




End Samples.

(** ** Notions for further properties *)

Module Notions.

(** The pauses, in seconds, that tenacity made according to a log of the
    network. *)
Definition backoffs (l : list Requests.event) : list Z :=
  omap (fun ev => match ev with Requests.Backoff secs => Some secs | _ => None end) l.

(** The number of pauses between pages ([time.sleep(_SLEEP)]) in a log. *)
Definition throttles (l : list Requests.event) : nat :=
  length (List.filter (fun ev => match ev with Requests.Throttle => true | _ => false end) l).

(** The cursor that each request of a log carries, if any. *)
Definition tokens_sent (l : list Requests.event) : list (option json) :=
  omap (fun ev => match ev with
                  | Requests.Sent _ params => Some (params !! "pageToken")
                  | _ => None
                  end) l.

(** The cursor that a response body names. *)
Definition cursor (body : gmap string json) : json :=
  default JNull (body !! "nextPageToken").

(** The bodies of a list of pages, served with status 200, as replies. *)
Definition served (pages : list (gmap string json * list json)) : list Requests.reply :=
  (fun page => Requests.Response 200 (Some (JObj page.1))) <$> pages.

(** The parameters of the first request of [get_trials]. *)
Definition first_params (condition : string) (page_size : Z) : gmap string json :=
  <["query.cond" := JStr condition]>
    (<["pageSize" := JStr (pretty page_size)]>
       (<["fields" := JStr Ctgov.fields]> (<["format" := JStr "json"]> ∅))).

(** The cutoff that [get_trials] works with: none for a [since] that is
    absent or empty, the parsed date otherwise. *)
Definition cutoff_is (fromisoformat : string -> option Datetime.t)
    (since : option string) (dt_since : option Datetime.t) : Prop :=
  (truthy_opt since = false /\ dt_since = None)
  \/ (truthy_opt since = true /\ exists d, fromisoformat (default "" since) = Some d
                                           /\ dt_since = Some d).

(** The cursor that the next request will carry. *)
Definition next_token (params : gmap string json) (page_token : json) : option json :=
  (if truthy page_token then <["pageToken" := page_token]> params else params)
    !! "pageToken".

(** Whether a string starts with white space. *)
Definition starts_space (s : string) : bool :=
  match s with
  | String c _ => is_space c
  | EmptyString => false
  end.

(** Whether a string ends with white space. *)
Fixpoint ends_space (s : string) : bool :=
  match s with
  | EmptyString => false
  | String c EmptyString => is_space c
  | String _ rest => ends_space rest
  end.

(** Whether the letter "Z" occurs in a string. *)
Fixpoint has_Z (s : string) : bool :=
  match s with
  | EmptyString => false
  | String c rest => bool_decide (c = "Z"%char) || has_Z rest
  end.

(** The state after a call has been made and logged, before its effect. *)
Definition logged (o : Db.op) (ok : bool) (s : Db.state) : Db.state :=
  Db.mk (S (Db.tick s)) (Db.table s) (Db.txn s) (Db.log s ++ [Db.Call o ok]).

(** A computation keeps a property of the state, whatever its outcome. *)
Definition keeps {A : Type} (P : Db.state -> Prop) (c : Db.M A) : Prop :=
  forall s, P s -> P (c s).2.

(** The number of connections opened, and of connections closed, according
    to a log of the database. *)
Definition connects (l : list Db.event) : nat :=
  length (List.filter (fun ev => match ev with Db.Call Db.Connect _ => true | _ => false end) l).

Definition closes (l : list Db.event) : nat :=
  length (List.filter (fun ev => match ev with Db.Call Db.Close _ => true | _ => false end) l).

(** Batches of [size] items each, except that the last one may hold fewer
    (but holds one at least). *)
Fixpoint full_but_last {A : Type} (size : nat) (batches : list (list A)) : Prop :=
  match batches with
  | [] => True
  | [batch] => (1 <= length batch <= size)%nat
  | batch :: more => length batch = size /\ full_but_last size more
  end.

End Notions.


(** ** Further sample inputs *)

Module Cases.

(** A database on which no transaction can be committed. *)
Definition uncommitted : Db.env :=
  Db.Env (fun o _ => match o with Db.Commit => true | _ => false end) Samples.ticking.

(** A unified record with a date. *)
Definition dated (nct_id status : string) (wall : Z) : Trial.t :=
  Trial.mk nct_id (Some "A study") ["PHASE2"] status ["Diabetes"] ["PL"]
           (Some (Datetime.mk wall None)) (JObj ∅).

(** A database that holds a row for NCT01 and one for NCT09. *)
Definition stocked : Db.state :=
  Db.mk 0
    (<["NCT01" := Ctgov.row_of (dated "NCT01" "RECRUITING" 100) (Datetime.mk 100 None)]>
       (<["NCT09" := Ctgov.row_of (dated "NCT09" "COMPLETED" 50) (Datetime.mk 50 None)]> ∅))
    ∅ [].

(** An entry of the CTIS source with the two required fields. *)
Definition entry (trial_id status : string) : json :=
  JObj (<["trialId" := JStr trial_id]> (<["trialStatus" := JStr status]> ∅)).

(** A response body of the CTIS source with the given entries. *)
Definition entries_page (items : list json) : gmap string json :=
  <["entries" := JArr items]> ∅.



End Cases.


(** ** [ctis.py]: the data models and the three generators *)

Module CtisApiStudy.
Import Pydantic.

Record t : Type := mk {
  trial_id : string;
  title : option string;
  trial_status : string
}.

(** The fields are read by their aliases; extra fields are ignored. *)
Definition validate (m : gmap string json) : res t :=
  match required as_str m "trialId", optional as_str m "title",
        required as_str m "trialStatus" with
  | Ok i, Ok t, Ok s => Ok (mk i t s)
  | _, _, _ => Raise ValidationError
  end.

Definition model_validate (entry : json) : res t := as_model validate entry.

End CtisApiStudy.

Module UnifiedStudy.

Record t : Type := mk {
  id : string;
  title : option string;
  status : option string;
  source : string;
  raw : json
}.

(** A value for a field of type [Optional[str]]. *)
Definition as_optional_str (v : json) : res (option string) :=
  match v with
  | JNull => Ok None
  | JStr s => Ok (Some s)
  | _ => Raise ValidationError
  end.

End UnifiedStudy.

Module CtisTrials.
Import Requests Ctgov.

Definition RPS : Z := 3.

Definition _create_mock_trial_data : list json :=
  [ JObj (<["trialId" := JStr "EU-2023-001234"]>
          (<["title" := JStr "A Phase II Study of Novel Treatment for Multiple Myeloma"]>
          (<["trialStatus" := JStr "RECRUITING"]> ∅)));
    JObj (<["trialId" := JStr "EU-2023-005678"]>
          (<["title" := JStr "Immunotherapy Approach in Multiple Myeloma Patients"]>
          (<["trialStatus" := JStr "ACTIVE"]> ∅)));
    JObj (<["trialId" := JStr "EU-2022-009876"]>
          (<["title" := JStr "Combination Therapy Study for Relapsed Multiple Myeloma"]>
          (<["trialStatus" := JStr "COMPLETED"]> ∅))) ].

(** Validation of an entry and mapping to the unified model, as both
    [get_trials] and [get_trials_mock] do it. *)
Definition unified_of_entry (source : string) (entry : json) : res UnifiedStudy.t :=
  match CtisApiStudy.model_validate entry with
  | Ok api_study =>
      Ok (UnifiedStudy.mk (CtisApiStudy.trial_id api_study)
                          (CtisApiStudy.title api_study)
                          (Some (CtisApiStudy.trial_status api_study))
                          source entry)
  | Raise e => Raise e
  end.

(** The [for i, entry in enumerate(mock_data)] loop of [get_trials_mock]. *)
Fixpoint mock_loop (i : Z) (entries : list json) (limit : Z) : stream UnifiedStudy.t :=
  match entries with
  | [] => Stream [] None
  | entry :: rest =>
      if limit <=? i then Stream [] None
      else
        match unified_of_entry "EU CTIS (MOCK)" entry with
        | Raise e => Stream [] (Some e)
        | Ok unified_study =>
            let s := mock_loop (i + 1) rest limit in
            Stream (unified_study :: yielded s) (failure s)
        end
  end.

Definition get_trials_mock (condition : string) (limit : Z) : stream UnifiedStudy.t :=
  mock_loop 0 _create_mock_trial_data limit.

(** The [for entry in entries] loop of [get_trials]: what it yields, how it
    ends, and [records_fetched] afterwards. *)
Fixpoint entries_loop (entries : list json) (records_fetched limit : Z)
  : stream UnifiedStudy.t * Z :=
  match entries with
  | [] => (Stream [] None, records_fetched)
  | entry :: rest =>
      if limit <=? records_fetched then (Stream [] None, records_fetched)
      else
        match unified_of_entry "EU CTIS" entry with
        | Raise e => (Stream [] (Some e), records_fetched)
        | Ok unified_study =>
            let '(s, fetched) := entries_loop rest (records_fetched + 1) limit in
            (Stream (unified_study :: yielded s) (failure s), fetched)
        end
  end.

(** The [while records_fetched < limit] loop; [fuel] bounds the number of
    pages. *)
Fixpoint walk (fuel : nat) (condition : string) (limit page_num records_fetched : Z)
    (n : net) : option (stream UnifiedStudy.t * net) :=
  match fuel with
  | O => None
  | S fuel' =>
      if negb (records_fetched <? limit) then Some (Stream [] None, n)
      else
        let params : gmap string json :=
          <["condition" := JStr condition]> (<["page" := JNum page_num]> ∅) in
        match Ctis._fetch_page params n with
        | (Raise e, n1) => Some (Stream [] (Some e), n1)
        | (Ok (JObj data), n1) =>
            let entries := default (JArr []) (data !! "entries") in
            if negb (truthy entries) then Some (Stream [] None, n1)
            else
              match iterate entries with
              | Raise e => Some (Stream [] (Some e), n1)
              | Ok items =>
                  let '(page, fetched) := entries_loop items records_fetched limit in
                  match failure page with
                  | Some e => Some (page, n1)
                  | None =>
                      match walk fuel' condition limit (page_num + 1) fetched
                                 (record Throttle n1) with
                      | Some (more, n2) =>
                          Some (Stream (yielded page ++ yielded more) (failure more), n2)
                      | None => None
                      end
                  end
              end
        | (Ok _, n1) => Some (Stream [] (Some AttributeError), n1)
        end
  end.

(** [get_trials(condition, limit)], run to the end of the stream. Every
    page consumes at least one scripted reply. *)
Definition get_trials (condition : string) (limit : Z) (n : net)
  : option (stream UnifiedStudy.t * net) :=
  walk (S (length (script n))) condition limit 1 0 n.

Definition eu_register_url : string :=
  "https://www.clinicaltrialsregister.eu/ctr-search/rest/studies".

(** [UnifiedStudy(id=study.get("eudract_number", ""), ...)]. *)
Definition unified_of_register (study : json) : res UnifiedStudy.t :=
  match study with
  | JObj m =>
      match Pydantic.as_str (default (JStr "") (m !! "eudract_number")),
            UnifiedStudy.as_optional_str (default (JStr "") (m !! "title")),
            UnifiedStudy.as_optional_str (default (JStr "") (m !! "status")) with
      | Ok i, Ok t, Ok s => Ok (UnifiedStudy.mk i t s "EU Clinical Trials Register" study)
      | _, _, _ => Raise ValidationError
      end
  | _ => Raise AttributeError
  end.

Fixpoint register_items (studies : list json) : stream UnifiedStudy.t :=
  match studies with
  | [] => Stream [] None
  | study :: rest =>
      match unified_of_register study with
      | Raise e => Stream [] (Some e)
      | Ok unified_study =>
          let s := register_items rest in
          Stream (unified_study :: yielded s) (failure s)
      end
  end.

(** The body of the [try] of [get_trials_from_eu_register]. *)
Definition register_body (condition : string) (limit : Z) (n : net)
  : stream UnifiedStudy.t * net :=
  let params : gmap string json :=
    <["query" := JStr condition]>
      (<["page" := JNum 1]> (<["limit" := JNum (Z.min limit 100)]> ∅)) in
  match fetch_once eu_register_url params n with
  | (Raise e, n1) => (Stream [] (Some e), n1)
  | (Ok (JObj data), n1) =>
      match iterate (default (JArr []) (data !! "studies")) with
      | Raise e => (Stream [] (Some e), n1)
      | Ok studies => (register_items studies, n1)
      end
  | (Ok _, n1) => (Stream [] (Some AttributeError), n1)
  end.

(** [except Exception: ... return]: the generator ends where the exception
    arrived. *)
Definition get_trials_from_eu_register (condition : string) (limit : Z) (n : net)
  : stream UnifiedStudy.t * net :=
  let '(s, n1) := register_body condition limit n in
  (Stream (yielded s) None, n1).

End CtisTrials.

(** ** Notions used for [ctis.py] *)

Module CtisNotions.

(** The page numbers that the requests of a log carry. *)
Definition pages_sent (l : list Requests.event) : list (option json) :=
  omap (fun ev => match ev with
                  | Requests.Sent _ params => Some (params !! "page")
                  | _ => None
                  end) l.

(** A response body whose entries are all valid and which has one at
    least. *)
Definition full_page (body : gmap string json) (items : list json) : Prop :=
  body !! "entries" = Some (JArr items) /\ items <> []
  /\ Forall (fun entry => raises (CtisTrials.unified_of_entry "EU CTIS" entry) = false) items.

(** The records of a list of valid entries. *)
Definition records_of (source : string) (items : list json) : list UnifiedStudy.t :=
  omap (fun entry => match CtisTrials.unified_of_entry source entry with
                     | Ok u => Some u
                     | Raise _ => None
                     end) items.

(** The parameters of the request for one page. *)
Definition params_of (condition : string) (page_num : Z) : gmap string json :=
  <["condition" := JStr condition]> (<["page" := JNum page_num]> ∅).

End CtisNotions.


(** ** [lambda_handler.py] *)

Module LambdaHandler.
Import CtisHarvester.

(** The dictionary that the handler returns: the status code and, of the
    body, the reference of the upload or the exception that was caught. *)
Record response : Type := Response {
  statusCode : Z;
  presigned_url : option CtisHarvester.signed_url;
  error : option exn
}.

(** [lambda_handler(event, context)]: [asyncio.run(run())] inside a [try]
    whose handler catches every exception. The event is only echoed. *)
Definition lambda_handler (e : env) : M response :=
  fun s =>
    match run e s with
    | (Ok result, s') => (Ok (Response 200 (Some result) None), s')
    | (Raise x, s') => (Ok (Response 500 None (Some x)), s')
    end.

End LambdaHandler.

(** ** Notions used for the harvester *)

Module HarvestNotions.
Import CtisHarvester.

(** Started in a state with [P], a computation of the harvester ends in a
    state with [Q], whatever its outcome. *)
Definition leads {A : Type} (P Q : state -> Prop) (c : M A) : Prop :=
  forall s, P s -> Q (c s).2.

(** The uploads made according to a log. *)
Definition uploads (l : list event) : list (string * string * string) :=
  omap (fun ev => match ev with
                  | Uploaded local bucket key => Some (local, bucket, key)
                  | _ => None
                  end) l.

(** The pauses, in seconds, that tenacity made between attempts. *)
Definition pauses (l : list event) : list Z :=
  omap (fun ev => match ev with Backoff secs => Some secs | _ => None end) l.

(** The number of times the export was moved into place. *)
Definition renames (l : list event) : nat :=
  length (List.filter (fun ev => match ev with Renamed _ _ => true | _ => false end) l).

(** What the upload of the artifact adds to the log. *)
Definition the_upload (e : env) : string * string * string :=
  (artifact e, S3_BUCKET e, key (artifact_reference e)).

End HarvestNotions.


(** ** Payloads with optional fields removed *)

Module Payloads.

(** The document with the value at [key], if there is one, replaced by its
    image under [f]. *)
Definition at_key (key : string) (f : json -> json) (j : json) : json :=
  match j with
  | JObj m =>
      match m !! key with
      | Some v => JObj (<[key := f v]> m)
      | None => j
      end
  | _ => j
  end.

(** The list with its item number [i], if there is one, replaced by its
    image under [f]. *)
Definition at_index (i : nat) (f : json -> json) (j : json) : json :=
  match j with
  | JArr l => JArr (alter f i l)
  | _ => j
  end.

(** The dictionary without [key]. *)
Definition drop_key (key : string) (j : json) : json :=
  match j with
  | JObj m => JObj (delete key m)
  | _ => j
  end.

(** The optional fields of the source payload: those that the models of
    [ctgov.py] declare with a default. [Country i] is the country of
    location number [i]. *)
Inductive optional_field : Type :=
| BriefTitle
| OfficialTitle
| LastChangedDate
| DesignModuleField
| PhasesField
| ConditionsModuleField
| ConditionsField
| ContactsLocationsModuleField
| LocationsField
| Country (i : nat).

(** The payload without one optional field. *)
Definition without (field : optional_field) (raw : json) : json :=
  at_key "protocolSection"
    (match field with
     | BriefTitle => at_key "identificationModule" (drop_key "briefTitle")
     | OfficialTitle => at_key "identificationModule" (drop_key "officialTitle")
     | LastChangedDate => at_key "statusModule" (drop_key "lastChangedDate")
     | DesignModuleField => drop_key "designModule"
     | PhasesField => at_key "designModule" (drop_key "phases")
     | ConditionsModuleField => drop_key "conditionsModule"
     | ConditionsField => at_key "conditionsModule" (drop_key "conditions")
     | ContactsLocationsModuleField => drop_key "contactsLocationsModule"
     | LocationsField => at_key "contactsLocationsModule" (drop_key "locations")
     | Country i =>
         at_key "contactsLocationsModule"
           (at_key "locations" (at_index i (drop_key "country")))
     end) raw.

(** The validated payload with one optional field at its default. *)
Definition defaulted (field : optional_field) (api : ApiStudy.t) : ApiStudy.t :=
  let p := ApiStudy.protocol_section api in
  let im := ProtocolSection.identification_module p in
  let dm := ProtocolSection.design_module p in
  let sm := ProtocolSection.status_module p in
  let cm := ProtocolSection.conditions_module p in
  let clm := ProtocolSection.contacts_locations_module p in
  ApiStudy.mk
    match field with
    | BriefTitle =>
        ProtocolSection.mk
          (IdentificationModule.mk (IdentificationModule.nct_id im) None
                                   (IdentificationModule.official_title im))
          dm sm cm clm
    | OfficialTitle =>
        ProtocolSection.mk
          (IdentificationModule.mk (IdentificationModule.nct_id im)
                                   (IdentificationModule.brief_title im) None)
          dm sm cm clm
    | LastChangedDate =>
        ProtocolSection.mk im dm (StatusModule.mk (StatusModule.overall_status sm) None)
                           cm clm
    | DesignModuleField => ProtocolSection.mk im None sm cm clm
    | PhasesField =>
        ProtocolSection.mk im ((fun _ => DesignModule.mk []) <$> dm) sm cm clm
    | ConditionsModuleField => ProtocolSection.mk im dm sm None clm
    | ConditionsField =>
        ProtocolSection.mk im dm sm ((fun _ => ConditionsModule.mk []) <$> cm) clm
    | ContactsLocationsModuleField => ProtocolSection.mk im dm sm cm None
    | LocationsField =>
        ProtocolSection.mk im dm sm cm ((fun _ => ContactsLocationsModule.mk []) <$> clm)
    | Country i =>
        ProtocolSection.mk im dm sm cm
          ((fun m => ContactsLocationsModule.mk
                       (alter (fun _ => Location.mk None) i
                              (ContactsLocationsModule.locations m))) <$> clm)
    end.

(** A record that has the date and the phases of another or has lost
    them. *)
Definition degraded (trial trial' : Trial.t) : Prop :=
  (Trial.last_changed trial' = Trial.last_changed trial
   \/ Trial.last_changed trial' = None)
  /\ (Trial.phases trial' = Trial.phases trial \/ Trial.phases trial' = []).

End Payloads.

(** ** Properties of the effects *)

Module PyProps.

Lemma bind_returns {S A B} (c : io S A) (k : A -> io S B) (s s' : S) (b : B) :
  bind c k s = (Ok b, s') -> exists a s1, c s = (Ok a, s1) /\ k a s1 = (Ok b, s').
Proof.
  unfold bind. destruct (c s) as [[a|x] s1]; [eauto|discriminate].
Qed.

End PyProps.

(** ** Properties of the writer *)

Module WriterProps.
Import Db Ctgov.

Section Containment.

Variable e : env.

Lemma call_ok (o : op) (effect : state -> state) (s : state) :
  faults e o (tick s) = false ->
  call e o effect s
  = (Ok tt, effect (mk (S (tick s)) (table s) (txn s) (log s ++ [Call o true]))).
Proof. intros H. unfold call. now rewrite H. Qed.

Lemma call_fails (o : op) (effect : state -> state) (s : state) :
  faults e o (tick s) = true ->
  call e o effect s
  = (Raise DatabaseError, mk (S (tick s)) (table s) (txn s) (log s ++ [Call o false])).
Proof. intros H. unfold call. now rewrite H. Qed.

Lemma connect_returns (s : state) :
  exists b s', connect e s = (Ok b, s').
Proof.
  unfold connect, try_except, bind, ret, call.
  destruct (negb (faults e Connect (tick s))); eauto.
Qed.

Lemma connect_refused (s : state) :
  faults e Connect (tick s) = true -> exists s', connect e s = (Ok false, s').
Proof.
  intros H. unfold connect, try_except, bind, ret. rewrite call_fails by done. eauto.
Qed.

Lemma last_updated_value_returns (trial : Trial.t) (s : state) :
  exists d s', last_updated_value e trial s = (Ok d, s') /\ (tick s <= tick s')%nat /\
               table s' = table s /\ txn s' = txn s.
Proof.
  unfold last_updated_value. destruct (Trial.last_changed trial).
  - exists t, s. unfold ret. repeat split; lia.
  - unfold now. eexists _, _. split; [reflexivity|]. simpl. repeat split; lia.
Qed.

Lemma values_of_returns (trial : Trial.t) (s : state) :
  exists v s', values_of e trial s = (Ok v, s') /\ v.1 = Trial.id trial.
Proof.
  unfold values_of, bind.
  destruct (last_updated_value_returns trial s) as (d & s' & -> & _).
  unfold ret. eauto.
Qed.

Lemma values_list_of_returns (trials : list Trial.t) (s : state) :
  exists vs s', values_list_of e trials s = (Ok vs, s').
Proof.
  revert s. induction trials as [|trial rest IH]; intros s; simpl.
  - unfold ret. eauto.
  - unfold bind.
    destruct (values_of_returns trial s) as (v & s1 & -> & _).
    destruct (IH s1) as (vs & s2 & ->). unfold ret. eauto.
Qed.

(** When the batch path returns, it reports every record of the batch. *)
Lemma batch_insert_count (trials : list Trial.t) (s s' : state) (n : Z) :
  batch_insert e trials s = (Ok n, s') -> n = Z.of_nat (length trials).
Proof.
  unfold batch_insert, bind.
  destruct (values_list_of_returns trials s) as (vs & s1 & ->).
  destruct (cursor e s1) as [[[]|] s2]; [|discriminate].
  destruct (executemany e vs s2) as [[[]|] s3]; [|discriminate].
  destruct (commit e s3) as [[[]|] s4]; [|discriminate].
  unfold ret. congruence.
Qed.

Section Refused.

Hypothesis executemany_fails : forall n, faults e Executemany n = true.
Hypothesis execute_fails : forall n, faults e Execute n = true.

Lemma batch_insert_refused (trials : list Trial.t) (s : state) :
  exists x s', batch_insert e trials s = (Raise x, s').
Proof.
  unfold batch_insert, bind.
  destruct (values_list_of_returns trials s) as (vs & s1 & ->).
  destruct (cursor e s1) as [[[]|] s2]; [|eauto].
  unfold executemany. rewrite call_fails by apply executemany_fails. eauto.
Qed.

Lemma single_insert_refused (trial : Trial.t) (s : state) :
  exists x s', single_insert e trial s = (Raise x, s').
Proof.
  unfold single_insert, bind.
  destruct (values_of_returns trial s) as (v & s1 & -> & _).
  destruct (cursor e s1) as [[[]|] s2]; [|eauto].
  unfold execute. rewrite call_fails by apply execute_fails. eauto.
Qed.

End Refused.

Section Reliable.

(** The two calls that the writer makes outside its [try] blocks. *)
Hypothesis rollback_works : forall n, faults e Rollback n = false.
Hypothesis close_works : forall n, faults e Close n = false.

Lemma rollback_returns (s : state) : exists s', rollback e s = (Ok tt, s').
Proof. unfold rollback. rewrite call_ok by apply rollback_works. eauto. Qed.

Lemma close_returns (s : state) : exists s', close e s = (Ok tt, s').
Proof. unfold close. rewrite call_ok by apply close_works. eauto. Qed.

Lemma fallback_returns (trials : list Trial.t) (k : Z) (s : state) :
  exists n s', fallback e trials k s = (Ok n, s')
               /\ k <= n <= k + Z.of_nat (length trials).
Proof.
  revert k s. induction trials as [|trial rest IH]; intros k s.
  - exists k, s. simpl. unfold ret. split; [done|lia].
  - cbn [fallback]. unfold bind at 1. unfold try_except, bind at 1.
    destruct (single_insert e trial s) as [[[]|x] s1].
    + unfold ret. destruct (IH (k + 1) s1) as (n & s' & -> & Hn).
      exists n, s'. split; [done|]. rewrite length_cons. lia.
    + unfold bind. destruct (rollback_returns s1) as (s2 & ->). unfold ret.
      destruct (IH k s2) as (n & s' & -> & Hn).
      exists n, s'. split; [done|]. rewrite length_cons. lia.
Qed.

Lemma fallback_refused (trials : list Trial.t) (k : Z) (s : state) :
  (forall n, faults e Execute n = true) ->
  exists s', fallback e trials k s = (Ok k, s').
Proof.
  intros Hex. revert s. induction trials as [|trial rest IH]; intros s.
  - exists s. reflexivity.
  - cbn [fallback]. unfold bind at 1. unfold try_except, bind at 1.
    destruct (single_insert_refused Hex trial s) as (x & s1 & ->).
    unfold bind. destruct (rollback_returns s1) as (s2 & ->). unfold ret.
    apply IH.
Qed.

End Reliable.

End Containment.

Lemma save_trials_to_db_nonempty (e : env) (trial : Trial.t) (rest : list Trial.t)
    (s : state) :
  save_trials_to_db e (trial :: rest) s
  = (let! connected := connect e in
     if negb connected then ret 0
     else try_finally
            (try_except (batch_insert e (trial :: rest))
                        (rollback e >> fallback e (trial :: rest) 0))
            (close e)) s.
Proof. reflexivity. Qed.

(** C9. Called with an empty list the writer returns 0 at once: no step is
    taken, no call is logged (no connection opened, no statement executed),
    no row is touched: the state is returned as it was received. *)
Theorem save_trials_to_db_empty (e : env) (s : state) :
  save_trials_to_db e [] s = (Ok 0, s).
Proof. reflexivity. Qed.

(** With a connection whose [rollback] and [close] work, the writer
    returns a count and never raises. *)
Lemma writer_returns (e : env) (trials : list Trial.t) (s : state) :
  (forall n, faults e Rollback n = false) ->
  (forall n, faults e Close n = false) ->
  exists (n : Z) (s' : state),
    save_trials_to_db e trials s = (Ok n, s')
    /\ 0 <= n <= Z.of_nat (length trials)
    /\ (faults e Connect (tick s) = true -> n = 0)
    /\ ((forall k, faults e Executemany k = true) ->
        (forall k, faults e Execute k = true) -> n = 0).
Proof.
  intros Hrb Hcl. destruct trials as [|trial rest].
  - exists 0, s. simpl. unfold ret. repeat split; lia.
  - rewrite save_trials_to_db_nonempty. generalize (trial :: rest) as trials.
    intros trials. unfold bind at 1.
    destruct (connect e s) as [[[|]|x] s1] eqn:Hconn; cbn [negb].
    + (* connected *)
      unfold try_finally, try_except.
      destruct (batch_insert e trials s1) as [[n|x] s2] eqn:Hbatch.
      * destruct (close_returns e Hcl s2) as (s3 & ->).
        exists n, s3. apply batch_insert_count in Hbatch as Hn.
        split; [done|]. split; [lia|]. split.
        -- intros Hc. destruct (connect_refused e s Hc) as (s' & Hs').
           congruence.
        -- intros Hm Hx.
           destruct (batch_insert_refused e Hm trials s1) as (x & s' & Hr).
           congruence.
      * unfold bind.
        destruct (rollback_returns e Hrb s2) as (s3 & ->).
        destruct (fallback_returns e Hrb trials 0 s3) as (n & s4 & Hfb & Hn).
        rewrite Hfb. destruct (close_returns e Hcl s4) as (s5 & ->).
        exists n, s5. split; [done|]. split; [lia|]. split.
        -- intros Hc. destruct (connect_refused e s Hc) as (s' & Hs').
           congruence.
        -- intros Hm Hx.
           destruct (fallback_refused e Hrb trials 0 s3 Hx) as (s' & Hs').
           congruence.
    + (* not connected *)
      unfold ret. exists 0, s1. repeat split; lia.
    + destruct (connect_returns e s) as (b & s' & Hs'). congruence.
Qed.

(** *** What the count counts *)

Section Committed.

Variable e : env.
Hypothesis rollback_works : forall n, faults e Rollback n = false.
Hypothesis close_works : forall n, faults e Close n = false.

Lemma values_of_state (trial : Trial.t) (s : state) :
  exists v s', values_of e trial s = (Ok v, s') /\ v.1 = Trial.id trial
               /\ table s' = table s /\ txn s' = txn s.
Proof.
  unfold values_of, bind.
  destruct (last_updated_value_returns e trial s) as (d & s' & -> & _ & Ht & Hx).
  unfold ret. eexists _, _. repeat split; assumption.
Qed.

Lemma values_list_of_state (trials : list Trial.t) (s : state) :
  exists vs s', values_list_of e trials s = (Ok vs, s')
                /\ vs.*1 = Trial.id <$> trials
                /\ table s' = table s /\ txn s' = txn s.
Proof.
  revert s. induction trials as [|trial rest IH]; intros s; cbn [values_list_of].
  - exists [], s. repeat split.
  - unfold bind at 1.
    destruct (values_of_state trial s) as (v & s1 & -> & Hv & Ht1 & Hx1).
    unfold bind. destruct (IH s1) as (vs & s2 & -> & Hvs & Ht2 & Hx2).
    unfold ret. exists (v :: vs), s2. rewrite !fmap_cons.
    repeat split; congruence.
Qed.

(** The batch path: either every tuple is upserted and committed, or
    nothing is committed. *)
Lemma batch_insert_outcome (trials : list Trial.t) (s : state) :
  (exists vs s', batch_insert e trials s = (Ok (Z.of_nat (length trials)), s')
                 /\ vs.*1 = Trial.id <$> trials
                 /\ table s' = foldl (fun t v => upsert v t) (txn s) vs)
  \/ (exists x s', batch_insert e trials s = (Raise x, s') /\ table s' = table s).
Proof.
  unfold batch_insert, bind.
  destruct (values_list_of_state trials s) as (vs & s1 & -> & Hvs & Ht & Hx).
  unfold cursor, executemany, commit, call, ret.
  destruct (faults e Cursor (tick s1)); cbn [negb id]; [right; eauto|].
  destruct (faults e Executemany _); cbn [negb]; [right; eauto|].
  destruct (faults e Commit _); cbn [negb]; [right; eauto|].
  left. exists vs. eexists. split; [reflexivity|]. split; [exact Hvs|].
  cbn. now rewrite Hx.
Qed.

Lemma batch_insert_healthy (trials : list Trial.t) (s : state) :
  (forall o k, faults e o k = false) ->
  exists s', batch_insert e trials s = (Ok (Z.of_nat (length trials)), s').
Proof.
  intros Hh. unfold batch_insert, bind.
  destruct (values_list_of_state trials s) as (vs & s1 & -> & _).
  unfold cursor, executemany, commit, call, ret. rewrite !Hh. cbn [negb id].
  rewrite !Hh. cbn [negb]. rewrite !Hh. cbn [negb]. eauto.
Qed.

(** One statement of the per-record path: either it is executed and
    committed, or nothing is committed. *)
Lemma single_insert_outcome (trial : Trial.t) (s : state) :
  (exists v s', single_insert e trial s = (Ok tt, s') /\ v.1 = Trial.id trial
                /\ table s' = insert_or_ignore v (txn s) /\ txn s' = table s')
  \/ (exists x s', single_insert e trial s = (Raise x, s') /\ table s' = table s).
Proof.
  unfold single_insert, bind.
  destruct (values_of_state trial s) as (v & s1 & -> & Hv & Ht & Hx).
  unfold cursor, execute, commit, call.
  destruct (faults e Cursor (tick s1)); cbn [negb id]; [right; eauto|].
  destruct (faults e Execute _); cbn [negb]; [right; eauto|].
  destruct (faults e Commit _); cbn [negb]; [right; eauto|].
  left. exists v. eexists. split; [reflexivity|]. split; [exact Hv|].
  cbn. rewrite Hx. split; reflexivity.
Qed.

(** The per-record path counts the statements that it commits. *)
Lemma fallback_committed (trials : list Trial.t) (k : Z) (s : state) :
  txn s = table s ->
  exists n s' (committed : list (string * row)),
    fallback e trials k s = (Ok n, s')
    /\ n = k + Z.of_nat (length committed)
    /\ committed.*1 `sublist_of` (Trial.id <$> trials)
    /\ table s' = foldl (fun t v => insert_or_ignore v t) (table s) committed
    /\ txn s' = table s'.
Proof.
  revert k s. induction trials as [|trial rest IH]; intros k s Htxn.
  - exists k, s, []. cbn. unfold ret. split; [reflexivity|]. split; [lia|].
    split; [constructor|]. split; [reflexivity|exact Htxn].
  - cbn [fallback]. unfold bind at 1, try_except, bind at 1.
    destruct (single_insert_outcome trial s)
      as [(v & s1 & -> & Hv & Ht & Hx)|(x & s1 & -> & Ht)].
    + unfold ret.
      destruct (IH (k + 1) s1 Hx) as (n & s' & committed & -> & Hn & Hsub & Htab & Htx).
      exists n, s', (v :: committed). split; [reflexivity|]. split; [cbn [length]; lia|].
      split; [rewrite !fmap_cons, Hv; now apply sublist_skip|].
      split; [|exact Htx]. cbn [foldl]. rewrite Htab, Ht, Htxn. reflexivity.
    + unfold bind, rollback. rewrite call_ok by apply rollback_works. unfold ret.
      set (s2 := discard _).
      destruct (IH k s2 eq_refl) as (n & s' & committed & -> & Hn & Hsub & Htab & Htx).
      exists n, s', committed. split; [reflexivity|]. split; [exact Hn|].
      split; [rewrite fmap_cons; now apply sublist_cons|].
      split; [|exact Htx]. rewrite Htab. unfold s2. cbn. now rewrite Ht.
Qed.

(** The writer returns the number of the statements that it committed, and
    the table is then what these statements make of it. *)
Lemma writer_committed (trials : list Trial.t) (s : state) :
  exists (n : Z) (s' : state) (committed : list (string * row)),
    save_trials_to_db e trials s = (Ok n, s')
    /\ n = Z.of_nat (length committed)
    /\ committed.*1 `sublist_of` (Trial.id <$> trials)
    /\ (table s' = foldl (fun t v => upsert v t) (table s) committed
        \/ table s' = foldl (fun t v => insert_or_ignore v t) (table s) committed)
    /\ ((forall o k, faults e o k = false) -> n = Z.of_nat (length trials)).
Proof.
  destruct trials as [|trial rest].
  - exists 0, s, []. cbn. unfold ret. split; [reflexivity|]. split; [reflexivity|].
    split; [constructor|]. split; [now left|]. intros _. reflexivity.
  - rewrite save_trials_to_db_nonempty. generalize (trial :: rest) as trials.
    intros trials. unfold bind at 1, connect, try_except, bind at 1, ret at 1, call.
    destruct (faults e Connect (tick s)) eqn:Hconnect; cbn [negb].
    { unfold ret. eexists 0, _, []. split; [reflexivity|]. split; [reflexivity|].
      split; [apply sublist_nil_l|]. split; [now left|].
      intros Hh. rewrite Hh in Hconnect. discriminate. }
    set (s1 := discard _). unfold try_finally, try_except.
    assert (Hs1 : txn s1 = table s /\ table s1 = table s) by (split; reflexivity).
    destruct Hs1 as [Hx1 Ht1]. clearbody s1.
    destruct (batch_insert_outcome trials s1)
      as [(vs & s2 & Hbatch & Hvs & Ht2)|(x & s2 & Hbatch & Ht2)]; rewrite Hbatch.
    + unfold close. rewrite call_ok by apply close_works.
      eexists _, _, vs. split; [reflexivity|].
      split; [rewrite <- (length_fmap fst vs), Hvs, length_fmap; reflexivity|].
      split; [now rewrite Hvs|]. split; [left; cbn; now rewrite Ht2, Hx1|].
      intros _. reflexivity.
    + unfold bind, rollback. rewrite call_ok by apply rollback_works.
      set (s3 := discard _).
      destruct (fallback_committed trials 0 s3 eq_refl)
        as (n & s4 & committed & -> & Hn & Hsub & Htab & Htx).
      unfold close. rewrite call_ok by apply close_works.
      eexists _, _, committed. split; [reflexivity|]. split; [lia|].
      split; [exact Hsub|]. split.
      * right. cbn. rewrite Htab. unfold s3. cbn. now rewrite Ht2, Ht1.
      * intros Hh. destruct (batch_insert_healthy trials s1 Hh) as (s' & Hok).
        congruence.
Qed.

End Committed.

(** C1, as the code has it. Provided that the connection's [rollback] and
    [close] do not raise, the writer returns, for every list of records,
    the number of the statements that it committed: there is a list of
    parameter tuples, one for each of some of the records and in their
    order, that are upserted (batch path) or inserted unless the key is
    there (per-record path) into the table, the table afterwards is the
    table before with exactly these statements applied, and the count is
    their number. The count is thus between 0 and the number of records; it
    is 0 when the connection cannot be established, and 0 when the batch
    statement and every per-record statement fail; it is the number of
    records when nothing fails. *)
Theorem save_trials_to_db_contained (e : env) (trials : list Trial.t) (s : state) :
  (forall n, faults e Rollback n = false) ->
  (forall n, faults e Close n = false) ->
  exists (n : Z) (s' : state) (committed : list (string * row)),
    save_trials_to_db e trials s = (Ok n, s')
    /\ n = Z.of_nat (length committed)
    /\ committed.*1 `sublist_of` (Trial.id <$> trials)
    /\ (table s' = foldl (fun t v => upsert v t) (table s) committed
        \/ table s' = foldl (fun t v => insert_or_ignore v t) (table s) committed)
    /\ 0 <= n <= Z.of_nat (length trials)
    /\ (faults e Connect (tick s) = true -> n = 0)
    /\ ((forall k, faults e Executemany k = true) ->
        (forall k, faults e Execute k = true) -> n = 0)
    /\ ((forall o k, faults e o k = false) -> n = Z.of_nat (length trials)).
Proof.
  intros Hrb Hcl.
  destruct (writer_committed e Hrb Hcl trials s)
    as (n & s' & committed & Hsave & Hn & Hsub & Htable & Hall).
  destruct (writer_returns e trials s Hrb Hcl) as (n' & s'' & Hsave' & Hle & Hconn & Href).
  rewrite Hsave in Hsave'. injection Hsave' as <- <-.
  exists n, s', committed. repeat split; assumption || lia.
Qed.

Lemma save_trials_to_db_contained_witness :
  exists (n : Z) (s' : state) (committed : list (string * row)),
    save_trials_to_db Samples.batch_refusing
      [Cases.dated "NCT01" "COMPLETED" 200; Samples.undated "NCT02"] Cases.stocked
    = (Ok n, s')
    /\ n = Z.of_nat (length committed)
    /\ committed.*1 `sublist_of` ["NCT01"; "NCT02"]
    /\ (table s' = foldl (fun t v => upsert v t) (table Cases.stocked) committed
        \/ table s' = foldl (fun t v => insert_or_ignore v t) (table Cases.stocked)
                        committed)
    /\ 0 <= n <= 2
    /\ (faults Samples.batch_refusing Connect 0 = true -> n = 0)
    /\ ((forall k, faults Samples.batch_refusing Executemany k = true) ->
        (forall k, faults Samples.batch_refusing Execute k = true) -> n = 0)
    /\ ((forall o k, faults Samples.batch_refusing o k = false) -> n = 2).
Proof.
  apply (save_trials_to_db_contained Samples.batch_refusing
           [Cases.dated "NCT01" "COMPLETED" 200; Samples.undated "NCT02"] Cases.stocked);
    intros n; reflexivity.
Defined.

(** C1 as stated fails: when the connection drops during the batch
    statement, the statement fails, the handler's [rollback] fails too, and
    this second exception leaves the writer. Nor is the count always that of
    the records written: on the fallback path a record whose key is there
    already is counted and not written. *)
Lemma save_trials_to_db_can_raise :
  (save_trials_to_db Samples.dropped [Samples.undated "NCT01"] Samples.fresh).1
  = Raise DatabaseError
  /\ (let once :=
        save_trials_to_db Samples.batch_refusing [Samples.undated "NCT01"] Samples.fresh in
      let twice :=
        save_trials_to_db Samples.batch_refusing [Samples.undated "NCT01"] once.2 in
      twice.1 = Ok 1 /\ table twice.2 = table once.2).
Proof. vm_compute. repeat split; reflexivity. Qed.

(** *** Time stamps of records without a date *)



Section Dateless.

Variable e : env.
Variable trial : Trial.t.
Hypothesis dateless : Trial.last_changed trial = None.
Hypothesis connect_works : forall n, faults e Connect n = false.
Hypothesis cursor_works : forall n, faults e Cursor n = false.
Hypothesis commit_works : forall n, faults e Commit n = false.




End Dateless.




End WriterProps.

(** ** Properties of the orchestrator *)

Module OrchestratorProps.
Import Db Ctgov WriterProps.

(** Every record is in exactly one batch, and the order is kept. *)
Lemma concat_batches_from (batch_size : Z) (buffer items : list Trial.t) :
  concat (batches_from batch_size buffer items) = buffer ++ items.
Proof.
  revert buffer. induction items as [|trial rest IH]; intros buffer.
  - destruct buffer; reflexivity.
  - cbn [batches_from].
    destruct (batch_size <=? Z.of_nat (length (buffer ++ [trial]))).
    + cbn [concat]. rewrite IH. cbn [app]. now rewrite <- app_assoc.
    + rewrite IH. now rewrite <- app_assoc.
Qed.

Section Reliable.

Variable e : env.
Hypothesis rollback_works : forall n, faults e Rollback n = false.
Hypothesis close_works : forall n, faults e Close n = false.

Lemma rescue_eq (batch : list Trial.t) (total_saved : Z) (s : state) :
  rescue e batch total_saved s
  = write_all e (batches_from 0 batch []) total_saved s.
Proof. destruct batch; reflexivity. Qed.

Lemma flush_rest_eq (batch : list Trial.t) (total_saved : Z) (s : state) :
  flush_rest e batch total_saved s = rescue e batch total_saved s.
Proof.
  destruct batch as [|trial rest]; [reflexivity|].
  unfold flush_rest, try_except, rescue, bind.
  destruct (writer_returns e (trial :: rest) s rollback_works close_works)
    as (n & s' & -> & _).
  reflexivity.
Qed.


End Reliable.

Section Healthy.

Variable e : env.
Hypothesis nothing_fails : forall o n, faults e o n = false.

(** On a database where nothing fails the writer reports every record. *)
Lemma writer_healthy (trials : list Trial.t) (s : state) :
  exists s', save_trials_to_db e trials s = (Ok (Z.of_nat (length trials)), s').
Proof.
  destruct trials as [|trial rest]; [exists s; reflexivity|].
  rewrite save_trials_to_db_nonempty. generalize (trial :: rest) as trials.
  intros trials.
  unfold bind at 1, connect, try_except, bind at 1, ret at 1.
  rewrite call_ok by apply nothing_fails. cbn [negb].
  unfold try_finally, batch_insert, bind.
  destruct (values_list_of_returns e trials (discard
    (mk (S (tick s)) (table s) (txn s) (log s ++ [Call Connect true]))))
    as (vs & s1 & ->).
  unfold cursor, executemany, commit, close.
  rewrite call_ok by apply nothing_fails. cbn [id].
  rewrite call_ok by apply nothing_fails.
  rewrite call_ok by apply nothing_fails. unfold ret.
  rewrite call_ok by apply nothing_fails. eauto.
Qed.

Lemma write_all_healthy (batches : list (list Trial.t)) (total_saved : Z) (s : state) :
  exists s', write_all e batches total_saved s
             = (Ok (total_saved + Z.of_nat (length (concat batches))), s').
Proof.
  revert total_saved s. induction batches as [|batch more IH]; intros total_saved s.
  - exists s. cbn. unfold ret. do 2 f_equal. lia.
  - cbn [write_all concat]. unfold bind.
    destruct (writer_healthy batch s) as (s1 & ->).
    destruct (IH (total_saved + Z.of_nat (length batch)) s1) as (s2 & ->).
    exists s2. do 2 f_equal. rewrite length_app. lia.
Qed.

End Healthy.




End OrchestratorProps.

(** ** Properties of the fetchers *)

Module FetcherProps.
Import Requests.

Section OneAttempt.

Variable url : string.
Variable params : gmap string json.

Lemma fetch_once_script (n : net) :
  script (fetch_once url params n).2 = drop 1 (script n).
Proof.
  unfold fetch_once, get. destruct (script n) as [|[|st body] rest]; cbn; try done.
  destruct (raise_for_status (st, body)); reflexivity.
Qed.

Lemma fetch_once_log (n : net) :
  log (fetch_once url params n).2 = log n ++ [Sent url params].
Proof.
  unfold fetch_once, get. destruct (script n) as [|[|st body] rest]; cbn; try done.
  destruct (raise_for_status (st, body)); reflexivity.
Qed.

(** An attempt fails exactly when the script is exhausted or its next reply
    is a failing one. *)
Lemma fetch_once_fails (n : net) :
  raises (fetch_once url params n).1
  = match script n with [] => true | r :: _ => failing r end.
Proof.
  unfold fetch_once, get, raise_for_status, json_body, failing.
  destruct (script n) as [|[|st body] rest]; cbn; try done.
  destruct ((400 <=? st) && (st <? 600)); cbn; [done|].
  destruct body; reflexivity.
Qed.

Lemma fetch_once_ok (n n' : net) (j : json) :
  fetch_once url params n = (Ok j, n') ->
  exists st rest, script n = Response st (Some j) :: rest /\ failing (Response st (Some j)) = false.
Proof.
  unfold fetch_once, get, raise_for_status, json_body, failing.
  destruct (script n) as [|[|st body] rest]; cbn; try done.
  destruct ((400 <=? st) && (st <? 600)) eqn:Hst; cbn; [done|].
  destruct body; [|done]. intros [= -> _].
  exists st, rest. split; [done|]. now rewrite Hst.
Qed.

Variable p : Tenacity.policy.

(** Retrying never puts replies back, and a success has consumed one. *)
Lemma attempts_script (left k : nat) (n : net) :
  let out := Tenacity.attempts_from p (fetch_once url params) pause left k n in
  (length (script out.2) <= length (script n))%nat
  /\ (raises out.1 = false -> (length (script out.2) < length (script n))%nat).
Proof.
  revert k n. induction left as [|left IH]; intros k n; cbn zeta.
  - cbn. split; [lia|discriminate].
  - cbn [Tenacity.attempts_from].
    pose proof (fetch_once_script n) as Hs.
    destruct (fetch_once url params n) as [[j|x] n1] eqn:Hf; cbn [fst snd] in *.
    + apply fetch_once_ok in Hf as (st & rest & Hn & _).
      rewrite Hs, Hn. cbn. rewrite drop_0. split; [lia|intros _; lia].
    + assert (Hle : (length (script n1) <= length (script n))%nat).
      { rewrite Hs, length_drop. lia. }
      destruct left as [|left'].
      * cbn. split; [lia|discriminate].
      * specialize (IH (S k) (pause (Tenacity.wait_exponential p k) n1)).
        cbn zeta in IH. destruct IH as [IH1 IH2].
        change (script (pause (Tenacity.wait_exponential p k) n1))
          with (script n1) in IH1, IH2.
        split; [lia|]. intros Hok. specialize (IH2 Hok). lia.
Qed.

End OneAttempt.

Section Counting.

Variable url : string.
Variable params : gmap string json.
Variable p : Tenacity.policy.

Lemma requests_sent_fetch_once (n : net) :
  requests_sent (fetch_once url params n).2 = S (requests_sent n).
Proof.
  unfold requests_sent. rewrite fetch_once_log, List.filter_app, length_app.
  cbn. lia.
Qed.

Lemma requests_sent_pause (secs : Z) (n : net) :
  requests_sent (pause secs n) = requests_sent n.
Proof.
  unfold requests_sent, pause, record. cbn [log].
  rewrite List.filter_app, length_app. cbn. lia.
Qed.

(** A failed attempt that is not the last one is followed by a pause and by
    another attempt, whatever made it fail. *)
Lemma attempts_from_retry (left k : nat) (n : net) :
  raises (fetch_once url params n).1 = true ->
  Tenacity.attempts_from p (fetch_once url params) pause (S (S left)) k n
  = Tenacity.attempts_from p (fetch_once url params) pause (S left) (S k)
      (pause (Tenacity.wait_exponential p k) (fetch_once url params n).2).
Proof.
  intros Hf. cbn [Tenacity.attempts_from].
  destruct (fetch_once url params n) as [[j|x] n1]; [discriminate|reflexivity].
Qed.

(** After [length pre] failed attempts the first good reply is returned. *)
Lemma attempts_from_success (pre : list reply) (st : Z) (j : json) (rest : list reply) :
  Forall (fun r => failing r = true) pre ->
  failing (Response st (Some j)) = false ->
  forall (left k : nat) (n : net),
    script n = pre ++ Response st (Some j) :: rest ->
    (length pre < left)%nat ->
    let out := Tenacity.attempts_from p (fetch_once url params) pause left k n in
    out.1 = Ok j /\ script out.2 = rest
    /\ requests_sent out.2 = (requests_sent n + length pre + 1)%nat.
Proof.
  intros Hpre Hgood. induction Hpre as [|r pre Hr Hpre IH]; intros left k n Hn Hlt.
  - destruct left as [|left]; [cbn in Hlt; lia|]. cbn zeta.
    cbn [Tenacity.attempts_from].
    pose proof (fetch_once_fails url params n) as Hf.
    pose proof (fetch_once_script url params n) as Hs.
    pose proof (requests_sent_fetch_once n) as Hc.
    rewrite Hn in Hf, Hs. cbn [app] in Hf, Hs. rewrite Hgood in Hf.
    destruct (fetch_once url params n) as [[j'|x] n1] eqn:Hfo; [|discriminate].
    apply fetch_once_ok in Hfo as (st' & rest' & Hn' & _).
    rewrite Hn in Hn'. cbn [app] in Hn'. injection Hn' as _ -> _.
    cbn [fst snd] in *. rewrite Hs, Hc. cbn. rewrite drop_0.
    repeat split; lia.
  - destruct left as [|[|left]]; [cbn in Hlt; lia|cbn in Hlt; lia|]. cbn zeta.
    pose proof (fetch_once_fails url params n) as Hf.
    pose proof (fetch_once_script url params n) as Hs.
    pose proof (requests_sent_fetch_once n) as Hc.
    rewrite Hn in Hf, Hs. cbn [app] in Hf, Hs. rewrite Hr in Hf.
    rewrite attempts_from_retry by exact Hf.
    set (n1 := pause (Tenacity.wait_exponential p k) (fetch_once url params n).2).
    assert (Hn1 : script n1 = pre ++ Response st (Some j) :: rest).
    { unfold n1, pause, record. cbn [script]. rewrite Hs. cbn. now rewrite drop_0. }
    destruct (IH (S left) (S k) n1 Hn1) as (H1 & H2 & H3); [cbn in Hlt |- *; lia|].
    split; [exact H1|]. split; [exact H2|].
    rewrite H3. unfold n1. rewrite requests_sent_pause, Hc. cbn. lia.
Qed.

(** When every reply met fails, the request is sent [left] times and
    [RetryError] is raised. *)
Lemma attempts_from_exhausted (left k : nat) (n : net) :
  (0 < left)%nat ->
  Forall (fun r => failing r = true) (take left (script n)) ->
  let out := Tenacity.attempts_from p (fetch_once url params) pause left k n in
  out.1 = Raise RetryError /\ requests_sent out.2 = (requests_sent n + left)%nat.
Proof.
  revert k n. induction left as [|left IH]; intros k n Hpos Hall; [lia|]. cbn zeta.
  pose proof (fetch_once_fails url params n) as Hf.
  pose proof (fetch_once_script url params n) as Hs.
  pose proof (requests_sent_fetch_once n) as Hc.
  assert (Hfail : raises (fetch_once url params n).1 = true).
  { rewrite Hf. destruct (script n) as [|r rest]; [done|].
    cbn in Hall. now inversion Hall. }
  destruct left as [|left].
  - cbn [Tenacity.attempts_from].
    destruct (fetch_once url params n) as [[j|x] n1]; [discriminate|].
    cbn [fst snd] in *. split; [done|lia].
  - rewrite attempts_from_retry by exact Hfail.
    set (n1 := pause (Tenacity.wait_exponential p k) (fetch_once url params n).2).
    assert (Hn1 : script n1 = drop 1 (script n)).
    { unfold n1, pause, record. cbn [script]. exact Hs. }
    destruct (IH (S k) n1) as (H1 & H2); [lia| |].
    + rewrite Hn1. destruct (script n) as [|r rest]; [now rewrite drop_nil, take_nil|].
      cbn in Hall |- *. rewrite drop_0. now inversion Hall.
    + split; [exact H1|]. rewrite H2. unfold n1.
      rewrite requests_sent_pause, Hc. lia.
Qed.

End Counting.

Section Fetchers.

Variable p : Tenacity.policy.
Variable url : string.
Variable params : gmap string json.

(** What a fetcher with policy [p] does on a script that starts with the
    failing replies [pre], followed by a good one. *)
Lemma retry_outcome (n : net) (pre : list reply) (st : Z) (j : json)
    (rest : list reply) :
  (0 < Tenacity.stop_after_attempt p)%nat ->
  Forall (fun r => failing r = true) pre ->
  failing (Response st (Some j)) = false ->
  script n = pre ++ Response st (Some j) :: rest ->
  let out := Tenacity.retry p (fetch_once url params) pause n in
  if decide (length pre < Tenacity.stop_after_attempt p)%nat
  then out.1 = Ok j
       /\ requests_sent out.2 = (requests_sent n + length pre + 1)%nat
  else out.1 = Raise RetryError
       /\ requests_sent out.2 = (requests_sent n + Tenacity.stop_after_attempt p)%nat.
Proof.
  intros Hpos Hpre Hgood Hn out. unfold out, Tenacity.retry.
  destruct (decide (length pre < Tenacity.stop_after_attempt p)%nat) as [Hlt|Hge].
  - destruct (attempts_from_success url params p pre st j rest Hpre Hgood
                (Tenacity.stop_after_attempt p) 1%nat n Hn Hlt) as (H1 & _ & H3).
    split; assumption.
  - apply attempts_from_exhausted; [exact Hpos|].
    rewrite Hn, take_app_le by lia. now apply Forall_take.
Qed.

End Fetchers.

(** C3, as the code has it. Both fetchers treat every failed attempt alike:
    after a 4xx, as after a transport error, a 5xx or a body that does not
    decode, they pause and send the request again. With [k] failing replies
    before the first good one, they return the good one after [k + 1]
    requests when [k] is below the bound (5 for [_get], 3 for
    [_fetch_page]); otherwise they raise [RetryError] after as many requests
    as the bound allows. *)
Theorem fetchers_retry_every_failure (endpoint : string) (params : gmap string json)
    (n : net) (pre : list reply) (st : Z) (j : json) (rest : list reply) :
  Forall (fun r => failing r = true) pre ->
  failing (Response st (Some j)) = false ->
  script n = pre ++ Response st (Some j) :: rest ->
  let got := Ctgov._get endpoint params n in
  let page := Ctis._fetch_page params n in
  (if decide (length pre < 5)%nat
   then got.1 = Ok j /\ requests_sent got.2 = (requests_sent n + length pre + 1)%nat
   else got.1 = Raise RetryError /\ requests_sent got.2 = (requests_sent n + 5)%nat)
  /\ (if decide (length pre < 3)%nat
      then page.1 = Ok j /\ requests_sent page.2 = (requests_sent n + length pre + 1)%nat
      else page.1 = Raise RetryError /\ requests_sent page.2 = (requests_sent n + 3)%nat).
Proof.
  intros Hpre Hgood Hn. split.
  - apply (retry_outcome Ctgov._get_policy endpoint params n pre st j rest);
      [cbn; lia|assumption..].
  - apply (retry_outcome Ctis._fetch_page_policy Ctis.BASE_URL params n pre st j rest);
      [cbn; lia|assumption..].
Qed.

Lemma fetchers_retry_every_failure_witness :
  let got := Ctgov._get "https://clinicaltrials.gov/api/v2/studies" ∅ Samples.flaky_404 in
  let page := Ctis._fetch_page ∅ Samples.flaky_404 in
  (got.1 = Ok (JObj ∅) /\ requests_sent got.2 = 2%nat)
  /\ (page.1 = Ok (JObj ∅) /\ requests_sent page.2 = 2%nat).
Proof.
  apply (fetchers_retry_every_failure "https://clinicaltrials.gov/api/v2/studies" ∅
           Samples.flaky_404 [Response 404 (Some JNull)] 200 (JObj ∅) []).
  - repeat constructor.
  - reflexivity.
  - reflexivity.
Defined.

(** C3 as stated fails: a 404 is not surfaced after one attempt. Followed by
    a good reply it is never surfaced, the second request succeeds; met at
    every attempt it costs five requests ([_get]) or three ([_fetch_page]) and
    what is raised is [RetryError]. *)
Lemma permanent_error_is_retried :
  permanent 404 = true
  /\ (Ctgov._get "https://clinicaltrials.gov/api/v2/studies" ∅ Samples.flaky_404).1
     = Ok (JObj ∅)
  /\ requests_sent
       (Ctgov._get "https://clinicaltrials.gov/api/v2/studies" ∅ Samples.flaky_404).2
     = 2%nat
  /\ (Ctgov._get "https://clinicaltrials.gov/api/v2/studies" ∅ Samples.always_404).1
     = Raise RetryError
  /\ requests_sent
       (Ctgov._get "https://clinicaltrials.gov/api/v2/studies" ∅ Samples.always_404).2
     = 5%nat
  /\ (Ctis._fetch_page ∅ Samples.flaky_404).1 = Ok (JObj ∅)
  /\ log (Ctis._fetch_page ∅ Samples.flaky_404).2
     = [Sent Ctis.BASE_URL ∅; Backoff 1; Sent Ctis.BASE_URL ∅]
  /\ requests_sent (Ctis._fetch_page ∅ Samples.always_404).2 = 3%nat.
Proof. vm_compute. repeat split; reflexivity. Qed.

End FetcherProps.

(** ** Properties of the walker *)

Module WalkerProps.
Import Requests Ctgov FetcherProps.

Section Totality.

Variable CTG_ENDPOINT : string.
Variable fromisoformat : string -> option Datetime.t.

Lemma _get_script (params : gmap string json) (n : net) :
  let out := _get CTG_ENDPOINT params n in
  raises out.1 = false -> (length (script out.2) < length (script n))%nat.
Proof.
  cbn zeta. unfold _get, Tenacity.retry.
  apply (attempts_script CTG_ENDPOINT params _get_policy).
Qed.

(** The loop of the walker ends: one unit of fuel per scripted reply, and
    one more, is enough. *)
Lemma walk_total (fuel : nat) (phase : option string) (dt_since : option Datetime.t)
    (params : gmap string json) (page_token : json) (n : net) :
  (length (script n) < fuel)%nat ->
  is_Some (walk CTG_ENDPOINT fromisoformat fuel phase dt_since params page_token n).
Proof.
  revert params page_token n.
  induction fuel as [|fuel IH]; intros params page_token n Hfuel; [lia|].
  cbn [walk].
  set (params' := if truthy page_token then _ else _).
  pose proof (_get_script params' n) as Hs. cbn zeta in Hs.
  destruct (_get CTG_ENDPOINT params' n) as [[data|x] n1]; [|eauto].
  cbn [fst snd raises] in Hs. specialize (Hs eq_refl).
  destruct data as [| | | | |data]; eauto.
  destruct (iterate _) as [studies|x]; [|eauto].
  destruct (failure (page_items fromisoformat phase dt_since studies)); [eauto|].
  destruct (negb (truthy _)); [eauto|].
  destruct (IH params' (default JNull (data !! "nextPageToken")) (record Throttle n1))
    as [[more n2] ->]; [cbn; lia|eauto].
Qed.

Theorem get_trials_total (condition : string) (phase since : option string)
    (page_size : Z) (n : net) :
  is_Some (get_trials CTG_ENDPOINT fromisoformat condition phase since page_size n).
Proof.
  unfold get_trials. destruct (truthy_opt since).
  - destruct (fromisoformat _); [|eauto]. apply walk_total. lia.
  - apply walk_total. lia.
Qed.

End Totality.

(** *** Parsing *)

Section Parsing.

Variable fromisoformat : string -> option Datetime.t.

Lemma traverse_as_str (cs : list string) :
  Pydantic.traverse Pydantic.as_str (JStr <$> cs) = Ok cs.
Proof.
  induction cs as [|c cs IH]; [reflexivity|].
  cbn [fmap list_fmap Pydantic.traverse Pydantic.as_str] in *.
  now rewrite IH.
Qed.

(** Validation fails with [ValidationError] only. *)
Lemma protocol_section_validate_error (m : gmap string json) (x : exn) :
  ProtocolSection.validate m = Raise x -> x = ValidationError.
Proof.
  unfold ProtocolSection.validate.
  repeat match goal with
         | |- context [match ?r with Ok _ => _ | Raise _ => _ end] => destruct r
         end; congruence.
Qed.

Lemma model_validate_error (raw : json) (x : exn) :
  ApiStudy.model_validate raw = Raise x -> x = ValidationError.
Proof.
  unfold ApiStudy.model_validate, Pydantic.required, Pydantic.as_model.
  destruct raw as [| | | | |m]; try congruence.
  destruct (m !! "protocolSection") as [[| | | | |section]|]; try congruence.
  destruct (ProtocolSection.validate section) eqn:Hv; [congruence|].
  apply protocol_section_validate_error in Hv. congruence.
Qed.

(** A payload whose identification module has no [nctId] is refused. *)
Lemma missing_nct_id_refused (top section im : gmap string json) :
  top !! "protocolSection" = Some (JObj section) ->
  section !! "identificationModule" = Some (JObj im) ->
  im !! "nctId" = None ->
  ApiStudy.model_validate (JObj top) = Raise ValidationError.
Proof.
  intros Htop Hsection Him.
  unfold ApiStudy.model_validate, Pydantic.required. rewrite Htop.
  cbn [Pydantic.as_model].
  destruct (ProtocolSection.validate section) as [p|x] eqn:Hv.
  - exfalso. revert Hv. unfold ProtocolSection.validate, Pydantic.required.
    rewrite Hsection. cbn [Pydantic.as_model].
    unfold IdentificationModule.validate, Pydantic.required. rewrite Him.
    repeat match goal with
           | |- context [match ?r with Ok _ => _ | Raise _ => _ end] => destruct r
           end; congruence.
  - apply protocol_section_validate_error in Hv. now subst.
Qed.

(** The page loop stops at a payload that is refused: what was yielded
    before stays yielded, nothing after it is looked at. *)
Lemma page_items_refused (phase : option string) (dt_since : option Datetime.t)
    (before after : list json) (bad : json) (x : exn) :
  ApiStudy.model_validate bad = Raise x ->
  failure (page_items fromisoformat phase dt_since before) = None ->
  page_items fromisoformat phase dt_since (before ++ bad :: after)
  = Stream (yielded (page_items fromisoformat phase dt_since before)) (Some x).
Proof.
  intros Hbad. induction before as [|raw before IH]; intros Hnone.
  - cbn. now rewrite Hbad.
  - cbn [app page_items] in *.
    destruct (ApiStudy.model_validate raw) as [api|y]; [|discriminate].
    destruct (phase_excluded phase _); [now apply IH|].
    destruct (since_excluded dt_since _) as [[|]|y]; [now apply IH| |discriminate].
    cbn [yielded failure] in *. now rewrite IH.
Qed.

End Parsing.

(** *** The page loop and the filters *)

Section Filters.

Variable CTG_ENDPOINT : string.
Variable fromisoformat : string -> option Datetime.t.

Lemma _get_first_good (params : gmap string json) (n : net) (st : Z) (j : json)
    (rest : list reply) :
  script n = Response st (Some j) :: rest ->
  failing (Response st (Some j)) = false ->
  (_get CTG_ENDPOINT params n).1 = Ok j /\ script (_get CTG_ENDPOINT params n).2 = rest.
Proof.
  intros Hn Hgood.
  destruct (attempts_from_success CTG_ENDPOINT params _get_policy [] st j rest
              (Forall_nil_2 _) Hgood 5%nat 1%nat n Hn) as (H1 & H2 & _); [cbn; lia|].
  split; assumption.
Qed.

(** One turn of the loop of the walker. *)
Lemma walk_unfold (fuel : nat) (phase : option string) (dt_since : option Datetime.t)
    (params : gmap string json) (page_token : json) (n : net) :
  walk CTG_ENDPOINT fromisoformat (S fuel) phase dt_since params page_token n
  = let params :=
      if truthy page_token then <["pageToken" := page_token]> params else params in
    match _get CTG_ENDPOINT params n with
    | (Raise e, n1) => Some (Stream [] (Some e), n1)
    | (Ok (JObj data), n1) =>
        match iterate (default (JArr []) (data !! "studies")) with
        | Raise e => Some (Stream [] (Some e), n1)
        | Ok studies =>
            let page := page_items fromisoformat phase dt_since studies in
            match failure page with
            | Some e => Some (page, n1)
            | None =>
                let page_token := default JNull (data !! "nextPageToken") in
                if negb (truthy page_token) then Some (page, n1)
                else
                  match walk CTG_ENDPOINT fromisoformat fuel phase dt_since params
                             page_token (record Throttle n1) with
                  | Some (more, n2) =>
                      Some (Stream (yielded page ++ yielded more) (failure more), n2)
                  | None => None
                  end
            end
        end
    | (Ok _, n1) => Some (Stream [] (Some AttributeError), n1)
    end.
Proof. reflexivity. Qed.

(** The walk goes through the pages that pass on and ends in the page whose
    loop raises: what these pages yield is yielded, in order, and then the
    exception. *)
Lemma walk_reaches_raise (phase : option string) (dt_since : option Datetime.t)
    (st : Z) (data : gmap string json) (rest : list reply) (studies : list json)
    (x : exn) (earlier : list (gmap string json * list json)) :
  failing (Response st (Some (JObj data))) = false ->
  data !! "studies" = Some (JArr studies) ->
  failure (page_items fromisoformat phase dt_since studies) = Some x ->
  Forall (fun page => passes_on fromisoformat phase dt_since page.1 page.2) earlier ->
  forall (params : gmap string json) (page_token : json) (n : net),
    script n = ((fun page => Response 200 (Some (JObj page.1))) <$> earlier)
               ++ Response st (Some (JObj data)) :: rest ->
    fst <$> walk CTG_ENDPOINT fromisoformat (S (length (script n))) phase dt_since
                 params page_token n
    = Some (Stream
              (concat ((fun page => yielded (page_items fromisoformat phase dt_since page.2))
                         <$> earlier)
               ++ yielded (page_items fromisoformat phase dt_since studies))
              (Some x)).
Proof.
  intros Hgood Hstudies Hfail Hearlier.
  induction Hearlier as [|[body studies0] earlier (Hs0 & Hf0 & Htok) _ IH];
    intros params page_token n Hn; rewrite walk_unfold; cbn zeta.
  - cbn [fmap list_fmap app] in Hn.
    match goal with
    | |- context [_get CTG_ENDPOINT ?ps n] =>
        destruct (_get_first_good ps n st (JObj data) rest Hn Hgood) as [Hget _];
        destruct (_get CTG_ENDPOINT ps n) as [r n1]
    end.
    cbn [fst] in Hget. subst r. rewrite Hstudies. cbn [default from_option id iterate].
    rewrite Hfail. cbn [fmap option_fmap option_map fst list_fmap concat app].
    destruct (page_items fromisoformat phase dt_since studies) as [ys f].
    cbn [failure yielded] in *. now subst f.
  - cbn [fmap list_fmap app fst snd] in Hn. cbn [fst snd] in Hs0, Hf0, Htok.
    match goal with
    | |- context [_get CTG_ENDPOINT ?ps n] =>
        destruct (_get_first_good ps n 200 (JObj body) _ Hn eq_refl) as [Hget Hscript];
        destruct (_get CTG_ENDPOINT ps n) as [r n1];
        specialize (IH ps (default JNull (body !! "nextPageToken")) (record Throttle n1))
    end.
    cbn [fst snd] in Hget, Hscript. subst r.
    rewrite Hs0. cbn [default from_option id iterate] in *. rewrite Hf0, Htok.
    cbn [negb]. rewrite Hn. cbn [length]. rewrite <- Hscript.
    change (script n1) with (script (record Throttle n1)).
    specialize (IH Hscript).
    destruct (walk CTG_ENDPOINT fromisoformat _ phase dt_since _ _ (record Throttle n1))
      as [[more n2]|]; [|discriminate].
    cbn [fmap option_fmap option_map fst] in IH |- *. injection IH as ->.
    cbn [fmap list_fmap concat yielded failure fst snd]. now rewrite app_assoc.
Qed.

End Filters.

(** *** Payloads that miss optional fields *)

Section Degrading.

Import Pydantic.

Lemma required_ext {A} (conv : json -> res A) (m m' : gmap string json) (key : string) :
  m' !! key = m !! key -> required conv m' key = required conv m key.
Proof. unfold required. now intros ->. Qed.

Lemma optional_ext {A} (conv : json -> res A) (m m' : gmap string json) (key : string) :
  m' !! key = m !! key -> optional conv m' key = optional conv m key.
Proof. unfold optional. now intros ->. Qed.

Lemma optional_absent {A} (conv : json -> res A) (m : gmap string json) (key : string) :
  m !! key = None -> optional conv m key = Ok None.
Proof. unfold optional. now intros ->. Qed.

Lemma list_field_absent {A} (conv : json -> res A) (m : gmap string json) (key : string) :
  m !! key = None -> list_field conv m key = Ok [].
Proof. unfold list_field. now intros ->. Qed.

(** What an accepted payload looks like. *)
Lemma model_validate_inv (raw : json) (api : ApiStudy.t) :
  ApiStudy.model_validate raw = Ok api ->
  exists top section,
    raw = JObj top /\ top !! "protocolSection" = Some (JObj section)
    /\ ProtocolSection.validate section = Ok (ApiStudy.protocol_section api).
Proof.
  unfold ApiStudy.model_validate, required.
  destruct raw as [| | | | |top]; try discriminate.
  destruct (top !! "protocolSection") as [[| | | | |section]|] eqn:Htop; try discriminate.
  cbn [as_model].
  destruct (ProtocolSection.validate section) as [p|x] eqn:Hp; [|discriminate].
  intros [= <-]. exists top, section. split; [reflexivity|]. split; [exact Htop|exact Hp].
Qed.

Lemma model_validate_section (top section : gmap string json) (p : ProtocolSection.t) :
  ProtocolSection.validate section = Ok p ->
  ApiStudy.model_validate (JObj (<["protocolSection" := JObj section]> top))
  = Ok (ApiStudy.mk p).
Proof.
  intros Hp. unfold ApiStudy.model_validate, required.
  rewrite lookup_insert_eq. cbn [as_model]. now rewrite Hp.
Qed.

Lemma section_validate_inv (section : gmap string json) (p : ProtocolSection.t) :
  ProtocolSection.validate section = Ok p ->
  required (as_model IdentificationModule.validate) section "identificationModule"
  = Ok (ProtocolSection.identification_module p)
  /\ optional (as_model DesignModule.validate) section "designModule"
     = Ok (ProtocolSection.design_module p)
  /\ required (as_model StatusModule.validate) section "statusModule"
     = Ok (ProtocolSection.status_module p)
  /\ optional (as_model ConditionsModule.validate) section "conditionsModule"
     = Ok (ProtocolSection.conditions_module p)
  /\ optional (as_model ContactsLocationsModule.validate) section "contactsLocationsModule"
     = Ok (ProtocolSection.contacts_locations_module p).
Proof.
  unfold ProtocolSection.validate.
  destruct (required (as_model IdentificationModule.validate) _ _); [|discriminate].
  destruct (optional (as_model DesignModule.validate) _ _); [|discriminate].
  destruct (required (as_model StatusModule.validate) _ _); [|discriminate].
  destruct (optional (as_model ConditionsModule.validate) _ _); [|discriminate].
  destruct (optional (as_model ContactsLocationsModule.validate) _ _); [|discriminate].
  intros [= <-]. repeat split.
Qed.

Lemma section_validate_intro (section : gmap string json)
    (im : IdentificationModule.t) (dm : option DesignModule.t) (sm : StatusModule.t)
    (cm : option ConditionsModule.t) (clm : option ContactsLocationsModule.t) :
  required (as_model IdentificationModule.validate) section "identificationModule" = Ok im ->
  optional (as_model DesignModule.validate) section "designModule" = Ok dm ->
  required (as_model StatusModule.validate) section "statusModule" = Ok sm ->
  optional (as_model ConditionsModule.validate) section "conditionsModule" = Ok cm ->
  optional (as_model ContactsLocationsModule.validate) section "contactsLocationsModule"
  = Ok clm ->
  ProtocolSection.validate section = Ok (ProtocolSection.mk im dm sm cm clm).
Proof. unfold ProtocolSection.validate. now intros -> -> -> -> ->. Qed.

(** A module of the section replaced or removed: the other modules are
    read as before. *)
Ltac other_modules :=
  repeat match goal with
         | |- required _ (<[_ := _]> _) _ = _ =>
             rewrite (required_ext _ _ (<[_ := _]> _)) by (now rewrite lookup_insert_ne)
         | |- optional _ (<[_ := _]> _) _ = _ =>
             rewrite (optional_ext _ _ (<[_ := _]> _)) by (now rewrite lookup_insert_ne)
         | |- required _ (delete _ _) _ = _ =>
             rewrite (required_ext _ _ (delete _ _)) by (now rewrite lookup_delete_ne)
         | |- optional _ (delete _ _) _ = _ =>
             rewrite (optional_ext _ _ (delete _ _)) by (now rewrite lookup_delete_ne)
         end; try assumption.

(** A required module with one of its optional keys removed. *)
Lemma required_model_without {A} (validate : gmap string json -> res A)
    (section : gmap string json) (key field : string) (a a' : A) :
  required (as_model validate) section key = Ok a ->
  (forall m, validate m = Ok a -> validate (delete field m) = Ok a') ->
  exists section',
    Payloads.at_key key (Payloads.drop_key field) (JObj section) = JObj section'
    /\ required (as_model validate) section' key = Ok a'
    /\ forall other, other <> key -> section' !! other = section !! other.
Proof.
  unfold required, Payloads.at_key. intros Hreq Hvalid.
  destruct (section !! key) as [[| | | | |m]|] eqn:Hkey; try discriminate.
  cbn [as_model] in Hreq. eexists. split; [reflexivity|].
  rewrite lookup_insert_eq. cbn [Payloads.drop_key as_model].
  split; [now apply Hvalid|]. intros other Hother. now rewrite lookup_insert_ne.
Qed.

(** An optional module with one of its optional keys removed. *)
Lemma optional_model_without {A} (validate : gmap string json -> res A)
    (section : gmap string json) (key : string) (f : json -> json) (a : option A)
    (g : A -> A) :
  optional (as_model validate) section key = Ok a ->
  f JNull = JNull ->
  (forall m x, validate m = Ok x -> exists m', f (JObj m) = JObj m' /\ validate m' = Ok (g x)) ->
  exists section',
    Payloads.at_key key f (JObj section) = JObj section'
    /\ optional (as_model validate) section' key = Ok (g <$> a)
    /\ forall other, other <> key -> section' !! other = section !! other.
Proof.
  unfold optional, Payloads.at_key. intros Hopt Hnull Hvalid.
  destruct (section !! key) as [v|] eqn:Hkey.
  - eexists. split; [reflexivity|]. rewrite lookup_insert_eq.
    split; [|intros other Hother; now rewrite lookup_insert_ne].
    destruct v as [| | | | |m]; try discriminate.
    + rewrite Hnull. now injection Hopt as <-.
    + cbn [as_model] in Hopt. destruct (validate m) as [x|] eqn:Hm; [|discriminate].
      injection Hopt as <-. destruct (Hvalid m x Hm) as (m' & -> & Hm').
      cbn [as_model]. now rewrite Hm'.
  - exists section. split; [reflexivity|]. rewrite Hkey.
    split; [now injection Hopt as <-|done].
Qed.

Lemma traverse_alter (l : list json) (locs : list Location.t) (i : nat) :
  traverse (as_model Location.validate) l = Ok locs ->
  traverse (as_model Location.validate) (alter (Payloads.drop_key "country") i l)
  = Ok (alter (fun _ => Location.mk None) i locs).
Proof.
  revert locs i. induction l as [|v l IH]; intros locs i.
  - cbn. now intros [= <-].
  - cbn [traverse].
    destruct (as_model Location.validate v) as [loc|] eqn:Hv; [|discriminate].
    destruct (traverse (as_model Location.validate) l) as [more|] eqn:Hl; [|discriminate].
    intros [= <-]. destruct i as [|i]; cbn [alter list_alter traverse].
    + rewrite Hl. destruct v as [| | | | |m]; try discriminate.
      cbn [Payloads.drop_key as_model].
      unfold Location.validate, optional. now rewrite lookup_delete_eq.
    + rewrite Hv. now rewrite (IH more i eq_refl).
Qed.

(** Validation of a payload without one optional field gives the validated
    payload with that field at its default. *)
Lemma model_validate_without (field : Payloads.optional_field) (raw : json)
    (api : ApiStudy.t) :
  ApiStudy.model_validate raw = Ok api ->
  ApiStudy.model_validate (Payloads.without field raw) = Ok (Payloads.defaulted field api).
Proof.
  intros Hvalid.
  apply model_validate_inv in Hvalid as (top & section & -> & Htop & Hsection).
  apply section_validate_inv in Hsection as (Him & Hdm & Hsm & Hcm & Hclm).
  unfold Payloads.without. unfold Payloads.at_key at 1. rewrite Htop.
  unfold Payloads.defaulted.
  destruct field.
  - (* briefTitle *)
    destruct (required_model_without IdentificationModule.validate section
                "identificationModule" "briefTitle" _
                (IdentificationModule.mk
                   (IdentificationModule.nct_id
                      (ProtocolSection.identification_module (ApiStudy.protocol_section api)))
                   None
                   (IdentificationModule.official_title
                      (ProtocolSection.identification_module (ApiStudy.protocol_section api))))
                Him) as (section' & -> & Him' & Hother).
    { intros m. unfold IdentificationModule.validate.
      rewrite (required_ext _ m (delete "briefTitle" m)) by (now rewrite lookup_delete_ne).
      rewrite (optional_ext _ m (delete "briefTitle" m) "officialTitle")
        by (now rewrite lookup_delete_ne).
      rewrite (optional_absent _ (delete "briefTitle" m)) by apply lookup_delete_eq.
      destruct (required as_str m "nctId"); [|discriminate].
      destruct (optional as_str m "briefTitle"); [|discriminate].
      destruct (optional as_str m "officialTitle"); [|discriminate].
      now intros [= <-]. }
    apply model_validate_section, section_validate_intro; try exact Him';
      [rewrite (optional_ext _ section section')|rewrite (required_ext _ section section')
      |rewrite (optional_ext _ section section')|rewrite (optional_ext _ section section')];
      try assumption; now apply Hother.
  - (* officialTitle *)
    destruct (required_model_without IdentificationModule.validate section
                "identificationModule" "officialTitle" _
                (IdentificationModule.mk
                   (IdentificationModule.nct_id
                      (ProtocolSection.identification_module (ApiStudy.protocol_section api)))
                   (IdentificationModule.brief_title
                      (ProtocolSection.identification_module (ApiStudy.protocol_section api)))
                   None)
                Him) as (section' & -> & Him' & Hother).
    { intros m. unfold IdentificationModule.validate.
      rewrite (required_ext _ m (delete "officialTitle" m)) by (now rewrite lookup_delete_ne).
      rewrite (optional_ext _ m (delete "officialTitle" m) "briefTitle")
        by (now rewrite lookup_delete_ne).
      rewrite (optional_absent _ (delete "officialTitle" m)) by apply lookup_delete_eq.
      destruct (required as_str m "nctId"); [|discriminate].
      destruct (optional as_str m "briefTitle"); [|discriminate].
      destruct (optional as_str m "officialTitle"); [|discriminate].
      now intros [= <-]. }
    apply model_validate_section, section_validate_intro; try exact Him';
      [rewrite (optional_ext _ section section')|rewrite (required_ext _ section section')
      |rewrite (optional_ext _ section section')|rewrite (optional_ext _ section section')];
      try assumption; now apply Hother.
  - (* lastChangedDate *)
    destruct (required_model_without StatusModule.validate section
                "statusModule" "lastChangedDate" _
                (StatusModule.mk
                   (StatusModule.overall_status
                      (ProtocolSection.status_module (ApiStudy.protocol_section api)))
                   None)
                Hsm) as (section' & -> & Hsm' & Hother).
    { intros m. unfold StatusModule.validate.
      rewrite (required_ext _ m (delete "lastChangedDate" m))
        by (now rewrite lookup_delete_ne).
      rewrite (optional_absent _ (delete "lastChangedDate" m)) by apply lookup_delete_eq.
      destruct (required as_str m "overallStatus"); [|discriminate].
      destruct (optional as_str m "lastChangedDate"); [|discriminate].
      now intros [= <-]. }
    apply model_validate_section, section_validate_intro; try exact Hsm';
      [rewrite (required_ext _ section section')|rewrite (optional_ext _ section section')
      |rewrite (optional_ext _ section section')|rewrite (optional_ext _ section section')];
      try assumption; now apply Hother.
  - (* designModule *)
    cbn [Payloads.drop_key].
    apply model_validate_section, section_validate_intro; other_modules.
    apply optional_absent, lookup_delete_eq.
  - (* phases *)
    destruct (optional_model_without DesignModule.validate section "designModule"
                (Payloads.drop_key "phases") _ (fun _ => DesignModule.mk []) Hdm)
      as (section' & -> & Hdm' & Hother); [reflexivity| |].
    { intros m x _. eexists. split; [reflexivity|]. unfold DesignModule.validate.
      now rewrite list_field_absent by apply lookup_delete_eq. }
    apply model_validate_section, section_validate_intro; try exact Hdm';
      [rewrite (required_ext _ section section')|rewrite (required_ext _ section section')
      |rewrite (optional_ext _ section section')|rewrite (optional_ext _ section section')];
      try assumption; now apply Hother.
  - (* conditionsModule *)
    cbn [Payloads.drop_key].
    apply model_validate_section, section_validate_intro; other_modules.
    apply optional_absent, lookup_delete_eq.
  - (* conditions *)
    destruct (optional_model_without ConditionsModule.validate section "conditionsModule"
                (Payloads.drop_key "conditions") _ (fun _ => ConditionsModule.mk []) Hcm)
      as (section' & -> & Hcm' & Hother); [reflexivity| |].
    { intros m x _. eexists. split; [reflexivity|]. unfold ConditionsModule.validate.
      now rewrite list_field_absent by apply lookup_delete_eq. }
    apply model_validate_section, section_validate_intro; try exact Hcm';
      [rewrite (required_ext _ section section')|rewrite (optional_ext _ section section')
      |rewrite (required_ext _ section section')|rewrite (optional_ext _ section section')];
      try assumption; now apply Hother.
  - (* contactsLocationsModule *)
    cbn [Payloads.drop_key].
    apply model_validate_section, section_validate_intro; other_modules.
    apply optional_absent, lookup_delete_eq.
  - (* locations *)
    destruct (optional_model_without ContactsLocationsModule.validate section
                "contactsLocationsModule" (Payloads.drop_key "locations") _
                (fun _ => ContactsLocationsModule.mk []) Hclm)
      as (section' & -> & Hclm' & Hother); [reflexivity| |].
    { intros m x _. eexists. split; [reflexivity|]. unfold ContactsLocationsModule.validate.
      now rewrite list_field_absent by apply lookup_delete_eq. }
    apply model_validate_section, section_validate_intro; try exact Hclm';
      [rewrite (required_ext _ section section')|rewrite (optional_ext _ section section')
      |rewrite (required_ext _ section section')|rewrite (optional_ext _ section section')];
      try assumption; now apply Hother.
  - (* country of a location *)
    destruct (optional_model_without ContactsLocationsModule.validate section
                "contactsLocationsModule"
                (Payloads.at_key "locations"
                   (Payloads.at_index i (Payloads.drop_key "country"))) _
                (fun m => ContactsLocationsModule.mk
                            (alter (fun _ => Location.mk None) i
                                   (ContactsLocationsModule.locations m))) Hclm)
      as (section' & -> & Hclm' & Hother); [reflexivity| |].
    { intros m x. unfold ContactsLocationsModule.validate, list_field, Payloads.at_key.
      destruct (m !! "locations") as [[| | | |l|]|] eqn:Hl; try discriminate.
      - destruct (traverse (as_model Location.validate) l) as [locs|] eqn:Hlocs;
          [|discriminate].
        intros [= <-]. eexists. split; [reflexivity|]. rewrite lookup_insert_eq.
        cbn [Payloads.at_index]. now rewrite (traverse_alter l locs i Hlocs).
      - intros [= <-]. eexists. split; [reflexivity|]. now rewrite Hl. }
    apply model_validate_section, section_validate_intro; try exact Hclm';
      [rewrite (required_ext _ section section')|rewrite (optional_ext _ section section')
      |rewrite (required_ext _ section section')|rewrite (optional_ext _ section section')];
      try assumption; now apply Hother.
Qed.

(** The same for any number of optional fields. *)
Lemma model_validate_degraded (fields : list Payloads.optional_field) (raw : json)
    (api : ApiStudy.t) :
  ApiStudy.model_validate raw = Ok api ->
  ApiStudy.model_validate (foldr Payloads.without raw fields)
  = Ok (foldr Payloads.defaulted api fields).
Proof.
  intros Hvalid. induction fields as [|field fields IH]; [exact Hvalid|].
  cbn [foldr]. now apply model_validate_without.
Qed.

Variable fromisoformat : string -> option Datetime.t.

Lemma from_api_defaulted (field : Payloads.optional_field) (api : ApiStudy.t)
    (raw raw' : json) :
  Payloads.degraded (Trial.from_api fromisoformat api raw)
                    (Trial.from_api fromisoformat (Payloads.defaulted field api) raw').
Proof.
  unfold Payloads.degraded, Payloads.defaulted, Trial.from_api.
  destruct api as [[im dm sm cm clm]].
  destruct field; cbn; try (split; left; reflexivity).
  - split; [right; reflexivity|left; reflexivity].
  - split; [left; reflexivity|right; reflexivity].
  - split; [left; reflexivity|]. destruct dm; [right|left]; reflexivity.
Qed.

Lemma from_api_degraded (fields : list Payloads.optional_field) (api : ApiStudy.t)
    (raw raw' : json) :
  Payloads.degraded (Trial.from_api fromisoformat api raw)
                    (Trial.from_api fromisoformat (foldr Payloads.defaulted api fields) raw').
Proof.
  revert raw'. induction fields as [|field fields IH]; intros raw'.
  - split; left; reflexivity.
  - cbn [foldr].
    destruct (IH raw') as [Hd Hp].
    destruct (from_api_defaulted field (foldr Payloads.defaulted api fields) raw' raw')
      as [Hd' Hp'].
    split.
    + destruct Hd' as [Hd'|Hd']; [|right; exact Hd'].
      rewrite Hd'. exact Hd.
    + destruct Hp' as [Hp'|Hp']; [|right; exact Hp'].
      rewrite Hp'. exact Hp.
Qed.

(** A record that has lost its date or its phases makes no filter raise
    that did not raise before. *)
Lemma degraded_passes (phase : option string) (dt_since : option Datetime.t)
    (trial trial' : Trial.t) :
  Payloads.degraded trial trial' ->
  phase_excluded phase trial = true \/ (exists b, since_excluded dt_since trial = Ok b) ->
  phase_excluded phase trial' = true \/ (exists b, since_excluded dt_since trial' = Ok b).
Proof.
  intros [Hd Hp] [Hex|[b Hb]].
  - left. destruct Hp as [Hp|Hp]; unfold phase_excluded in *; rewrite Hp; [exact Hex|].
    destruct phase as [ph|]; [|discriminate].
    destruct (truthy_str ph); [|discriminate]. reflexivity.
  - right. unfold since_excluded in *. destruct Hd as [Hd|Hd]; rewrite Hd; [eauto|].
    destruct dt_since; eauto.
Qed.

Lemma page_items_single (phase : option string) (dt_since : option Datetime.t)
    (raw : json) :
  failure (page_items fromisoformat phase dt_since [raw]) = None
  <-> exists api,
        ApiStudy.model_validate raw = Ok api
        /\ (phase_excluded phase (Trial.from_api fromisoformat api raw) = true
            \/ exists b, since_excluded dt_since (Trial.from_api fromisoformat api raw) = Ok b).
Proof.
  cbn [page_items]. destruct (ApiStudy.model_validate raw) as [api|x].
  - destruct (phase_excluded phase _) eqn:Hex.
    + split; [intros _; exists api; split; [reflexivity|now left]|reflexivity].
    + destruct (since_excluded dt_since _) as [[|]|y] eqn:Hs.
      * split; [intros _; exists api; split; [reflexivity|right; eauto]|reflexivity].
      * split; [intros _; exists api; split; [reflexivity|right; eauto]|reflexivity].
      * split; [discriminate|]. intros (api' & [= <-] & [H|[b H]]); congruence.
  - split; [discriminate|]. intros (api' & H & _). discriminate.
Qed.

(** A payload that goes through the page loop still does without any
    number of its optional fields. *)
Lemma page_items_degraded (phase : option string) (dt_since : option Datetime.t)
    (fields : list Payloads.optional_field) (raw : json) :
  failure (page_items fromisoformat phase dt_since [raw]) = None ->
  failure (page_items fromisoformat phase dt_since [foldr Payloads.without raw fields])
  = None.
Proof.
  rewrite !page_items_single. intros (api & Hvalid & Hpass).
  exists (foldr Payloads.defaulted api fields).
  split; [now apply model_validate_degraded|].
  eapply degraded_passes; [apply from_api_degraded|exact Hpass].
Qed.

End Degrading.

(** C2, as the code has it. A payload without the native id is refused by
    validation, and the exception leaves the page loop and the walker: after
    any number of pages gone through, the records of these pages and those
    before the payload on its own page are yielded as usual, then the walk
    ends with [ValidationError] and no later record is yielded; this for
    every phase and every cutoff. A payload that is accepted is still
    accepted without any number of its optional fields (titles, date of
    last change, the optional modules, their lists, the country of a
    location): validation then gives the same result with these fields at
    their defaults, and if the payload went through the page loop it still
    does. A payload with the required fields only is accepted and the
    other fields of its record get their defaults. *)
Theorem invalid_payload_ends_walk (endpoint : string)
    (parser : string -> option Datetime.t) (condition : string)
    (phase since : option string) (dt_since : option Datetime.t) (page_size : Z)
    (n : net) (earlier : list (gmap string json * list json)) (st : Z)
    (data : gmap string json) (rest : list reply) (before after : list json)
    (top section im : gmap string json) :
  Notions.cutoff_is parser since dt_since ->
  Forall (fun page => passes_on parser phase dt_since page.1 page.2) earlier ->
  script n = ((fun page => Response 200 (Some (JObj page.1))) <$> earlier)
             ++ Response st (Some (JObj data)) :: rest ->
  failing (Response st (Some (JObj data))) = false ->
  data !! "studies" = Some (JArr (before ++ JObj top :: after)) ->
  top !! "protocolSection" = Some (JObj section) ->
  section !! "identificationModule" = Some (JObj im) ->
  im !! "nctId" = None ->
  failure (page_items parser phase dt_since before) = None ->
  fst <$> get_trials endpoint parser condition phase since page_size n
  = Some (Stream
            (concat ((fun page => yielded (page_items parser phase dt_since page.2))
                       <$> earlier)
             ++ yielded (page_items parser phase dt_since before))
            (Some ValidationError))
  /\ (forall (raw : json) (api : ApiStudy.t) (fields : list Payloads.optional_field),
        ApiStudy.model_validate raw = Ok api ->
        ApiStudy.model_validate (foldr Payloads.without raw fields)
        = Ok (foldr Payloads.defaulted api fields)
        /\ (failure (page_items parser phase dt_since [raw]) = None ->
            failure (page_items parser phase dt_since [foldr Payloads.without raw fields])
            = None))
  /\ (forall nct_id status : string,
        page_items parser None None [Samples.minimal nct_id status]
        = Stream [Trial.mk nct_id None [] status [] [] None
                           (Samples.minimal nct_id status)] None).
Proof.
  intros Hcut Hearlier Hn Hgood Hstudies Htop Hsection Him Hbefore.
  split; [|split].
  - pose proof (missing_nct_id_refused top section im Htop Hsection Him) as Hbad.
    pose proof (page_items_refused parser phase dt_since before after (JObj top)
                  ValidationError Hbad Hbefore) as Hpage.
    assert (Hwalk : get_trials endpoint parser condition phase since page_size n
                    = walk endpoint parser (S (length (script n))) phase dt_since
                        (<["query.cond" := JStr condition]>
                           (<["pageSize" := JStr (pretty page_size)]>
                              (<["fields" := JStr fields]> (<["format" := JStr "json"]> ∅))))
                        JNull n).
    { unfold get_trials. destruct Hcut as [[Hs ->]|(Hs & d & Hd & ->)]; rewrite Hs;
        [reflexivity|]. now rewrite Hd. }
    rewrite Hwalk.
    rewrite (walk_reaches_raise endpoint parser phase dt_since st data rest
               (before ++ JObj top :: after) ValidationError earlier Hgood Hstudies
               (eq_trans (f_equal failure Hpage) eq_refl) Hearlier _ _ n Hn).
    now rewrite Hpage.
  - intros raw api optional_fields Hvalid.
    split; [now apply model_validate_degraded|]. apply page_items_degraded.
  - intros nct_id status. reflexivity.
Qed.

Lemma invalid_payload_ends_walk_witness :
  fst <$> get_trials Samples.ENDPOINT Samples.calendar "diabetes" None
            (Some "2025-07-01") 50
            (Samples.serving
               [JObj (Samples.page_then [Samples.study "NCT-0" []]);
                Samples.page [Samples.study "NCT-A" []; Samples.nameless;
                              Samples.study "NCT-C" []]])
  = Some (Stream (yielded (page_items Samples.calendar None
                             (Some (Datetime.mk 1751328000000000 None))
                             [Samples.study "NCT-0" []; Samples.study "NCT-A" []]))
                 (Some ValidationError))
  /\ ApiStudy.model_validate
       (foldr Payloads.without Samples.repetitive
          [Payloads.PhasesField; Payloads.Country 1; Payloads.ConditionsModuleField])
     = Ok (foldr Payloads.defaulted
             (ApiStudy.mk
                (ProtocolSection.mk
                   (IdentificationModule.mk "NCT07" None None) None
                   (StatusModule.mk "COMPLETED" None)
                   (Some (ConditionsModule.mk ["Diabetes"; "Diabetes"]))
                   (Some (ContactsLocationsModule.mk
                            [Location.mk (Some "PL"); Location.mk (Some "DE");
                             Location.mk (Some "PL")]))))
             [Payloads.PhasesField; Payloads.Country 1; Payloads.ConditionsModuleField]).
Proof.
  destruct (invalid_payload_ends_walk Samples.ENDPOINT Samples.calendar "diabetes" None
           (Some "2025-07-01") (Some (Datetime.mk 1751328000000000 None)) 50
           (Samples.serving
              [JObj (Samples.page_then [Samples.study "NCT-0" []]);
               Samples.page [Samples.study "NCT-A" []; Samples.nameless;
                             Samples.study "NCT-C" []]])
           [(Samples.page_then [Samples.study "NCT-0" []], [Samples.study "NCT-0" []])]
           200
           (<["studies" := JArr [Samples.study "NCT-A" []; Samples.nameless;
                                 Samples.study "NCT-C" []]]> ∅)
           [] [Samples.study "NCT-A" []] [Samples.study "NCT-C" []]
           (<["protocolSection" := JObj (
               <["identificationModule" := JObj (<["briefTitle" := JStr "No id"]> ∅)]>
               (<["statusModule" := JObj (<["overallStatus" := JStr "RECRUITING"]> ∅)]> ∅))]> ∅)
           (<["identificationModule" := JObj (<["briefTitle" := JStr "No id"]> ∅)]>
            (<["statusModule" := JObj (<["overallStatus" := JStr "RECRUITING"]> ∅)]> ∅))
           (<["briefTitle" := JStr "No id"]> ∅)) as (Hwalk & Hdegraded & _).
  - right. split; [reflexivity|]. eexists. split; reflexivity.
  - repeat constructor; vm_compute; reflexivity.
  - vm_compute. reflexivity.
  - vm_compute. reflexivity.
  - vm_compute. reflexivity.
  - vm_compute. reflexivity.
  - vm_compute. reflexivity.
  - vm_compute. reflexivity.
  - vm_compute. reflexivity.
  - split; [exact Hwalk|]. apply Hdegraded. vm_compute. reflexivity.
Defined.

(** C2 as stated fails: of a page with a good record, a record without
    native id and another good record, only the first is yielded; the walk
    then raises and the third record is lost with the second. *)
Lemma invalid_payload_loses_rest_of_page :
  (fun s => (Trial.id <$> yielded s, failure s))
    <$> (fst <$> get_trials Samples.ENDPOINT Samples.calendar "diabetes" None None 50
                   (Samples.serving [Samples.page [Samples.study "NCT-A" [];
                                                   Samples.nameless;
                                                   Samples.study "NCT-C" []]]))
  = Some (["NCT-A"], Some ValidationError).
Proof. vm_compute. reflexivity. Qed.

(** *** The walker at work *)

(** Two pages, the first with the cursor "X": three records in source
    order, two requests, the second with the cursor, one pause between. *)
Example two_pages_in_order :
  (fun out => (Trial.id <$> yielded out.1, failure out.1,
               (fun ev => match ev with
                          | Sent _ params => params !! "pageToken"
                          | _ => None
                          end) <$> log out.2))
    <$> get_trials Samples.ENDPOINT Samples.calendar "diabetes" None None 2
          (Samples.serving
             [JObj (Samples.page_then [Samples.study "NCT-1" []; Samples.study "NCT-2" []]);
              Samples.page [Samples.study "NCT-3" []]])
  = Some (["NCT-1"; "NCT-2"; "NCT-3"], None, [None; None; Some (JStr "X")]).
Proof. vm_compute. reflexivity. Qed.

(** A trailing "Z" is rewritten before parsing, and the date is then
    timezone-aware. *)
Example parse_dt_zulu :
  Trial._parse_dt Samples.calendar (Some "2025-01-01T00:00:00Z")
  = Some (Datetime.mk 1735689600000000 (Some 0)).
Proof. vm_compute. reflexivity. Qed.

(** The cutoff parsed from "2025-07-01" is naive: comparing it with an aware
    date raises, and the exception ends the walk. *)
Example aware_date_against_naive_cutoff :
  fst <$> get_trials Samples.ENDPOINT Samples.calendar "diabetes" None
            (Some "2025-07-01") 50 (Samples.serving [Samples.page [Samples.zulu_dated]])
  = Some (Stream [] (Some TypeError)).
Proof. vm_compute. reflexivity. Qed.

(** A [since] that does not parse raises before any request is sent. *)
Example since_that_does_not_parse :
  get_trials Samples.ENDPOINT Samples.calendar "diabetes" None (Some "last week") 50
             (Samples.serving [Samples.page [Samples.zulu_dated]])
  = Some (Stream [] (Some ValueError), Samples.serving [Samples.page [Samples.zulu_dated]]).
Proof. vm_compute. reflexivity. Qed.

(** The phase filter lets a record through exactly when no phase is asked
    for or the phase asked for is, as a whole string, one of the record's
    phases with the white space around them removed. *)
Lemma phase_excluded_exact (ph : string) (trial : Trial.t) :
  phase_excluded (Some ph) trial = false
  <-> ph = "" \/ ph ∈ strip <$> Trial.phases trial.
Proof.
  unfold phase_excluded. destruct ph as [|c ph]; cbn [truthy_str andb].
  - split; [now left|done].
  - rewrite negb_false_iff, bool_decide_eq_true. split; [now right|].
    intros [H|H]; [discriminate|exact H].
Qed.

(** C4, as the code has it. On the three records of scenario B the walker
    given [phase="2"] yields nothing, because the filter compares whole
    strings and "2" is none of "Phase 1", "Phase 2", "Phase 3"; given
    [phase="Phase 2"] it yields exactly the second record. *)
Theorem phase_filter_is_exact (endpoint : string)
    (parser : string -> option Datetime.t) (condition : string) (page_size : Z) :
  let source := Samples.serving [Samples.page Samples.scenario_B] in
  fst <$> get_trials endpoint parser condition (Some "2") None page_size source
  = Some (Stream [] None)
  /\ fst <$> get_trials endpoint parser condition (Some "Phase 2") None page_size source
     = Some (Stream [Trial.mk "NCT-B" None ["Phase 2"; "Phase 3"] "RECRUITING" [] []
                              None (Samples.study "NCT-B" ["Phase 2"; "Phase 3"])]
                    None)
  /\ (forall (ph : string) (trial : Trial.t),
        phase_excluded (Some ph) trial = false
        <-> ph = "" \/ ph ∈ strip <$> Trial.phases trial).
Proof.
  split; [|split].
  - vm_compute. reflexivity.
  - vm_compute. reflexivity.
  - apply phase_excluded_exact.
Qed.

(** C4 as stated fails: with [phase="2"] the second record is not yielded,
    nor is any other. *)
Lemma phase_2_yields_nothing :
  yielded <$> (fst <$> get_trials Samples.ENDPOINT Samples.calendar "diabetes"
                         (Some "2") None 50
                         (Samples.serving [Samples.page Samples.scenario_B]))
  = Some [].
Proof. vm_compute. reflexivity. Qed.

(** C6. A record whose date string is absent or does not parse has no
    [last_changed], and no cutoff excludes it: unless the phase filter
    drops it, the page loop yields it whatever [since] is. The only records
    that the cutoff drops have a [last_changed] that compares as earlier
    than the cutoff. *)
Theorem since_keeps_undated (parser : string -> option Datetime.t) (raw : json)
    (api : ApiStudy.t) (phase : option string) (dt_since : option Datetime.t)
    (rest : list json) :
  ApiStudy.model_validate raw = Ok api ->
  (let v := StatusModule.last_changed_date
              (ProtocolSection.status_module (ApiStudy.protocol_section api)) in
   v = None
   \/ exists text, v = Some text
        /\ parser (if Trial.endswith_Z text then Trial.replace_Z text else text) = None) ->
  let trial := Trial.from_api parser api raw in
  Trial.last_changed trial = None
  /\ since_excluded dt_since trial = Ok false
  /\ (phase_excluded phase trial = false ->
      page_items parser phase dt_since (raw :: rest)
      = Stream (trial :: yielded (page_items parser phase dt_since rest))
               (failure (page_items parser phase dt_since rest)))
  /\ (forall other : Trial.t,
        since_excluded dt_since other = Ok true ->
        exists cutoff changed,
          dt_since = Some cutoff /\ Trial.last_changed other = Some changed
          /\ Datetime.lt changed cutoff = Ok true).
Proof.
  intros Hvalid Hdate trial.
  assert (Hnone : Trial.last_changed trial = None).
  { unfold trial, Trial.from_api. cbn [Trial.last_changed]. unfold Trial._parse_dt.
    cbn zeta in Hdate. destruct Hdate as [->|(text & -> & Hp)]; [reflexivity|exact Hp]. }
  assert (Hkeep : since_excluded dt_since trial = Ok false).
  { unfold since_excluded. rewrite Hnone. now destruct dt_since. }
  split; [exact Hnone|]. split; [exact Hkeep|]. split.
  - intros Hphase. cbn [page_items]. rewrite Hvalid. fold trial.
    now rewrite Hphase, Hkeep.
  - intros other. unfold since_excluded.
    destruct dt_since as [cutoff|]; [|discriminate].
    destruct (Trial.last_changed other) as [changed|]; [|discriminate].
    intros H. eauto.
Qed.

Lemma since_keeps_undated_witness :
  let cutoff := Some (Datetime.mk 1751328000000000 None) in
  let trial := Trial.from_api Samples.calendar Samples.misdated_api Samples.misdated in
  Trial.last_changed trial = None
  /\ since_excluded cutoff trial = Ok false
  /\ (phase_excluded None trial = false ->
      page_items Samples.calendar None cutoff [Samples.misdated]
      = Stream [trial] None)
  /\ (forall other : Trial.t,
        since_excluded cutoff other = Ok true ->
        exists c changed,
          cutoff = Some c /\ Trial.last_changed other = Some changed
          /\ Datetime.lt changed c = Ok true).
Proof.
  apply (since_keeps_undated Samples.calendar Samples.misdated Samples.misdated_api
           None (Some (Datetime.mk 1751328000000000 None)) []).
  - vm_compute. reflexivity.
  - right. exists "yesterday". split; vm_compute; reflexivity.
Defined.

(** C7, as the code has it. The record's [conditions] are the condition
    strings of the payload as they come, in order and with their
    duplicates; it is [countries] that holds no duplicates. *)
Theorem from_api_conditions_verbatim (parser : string -> option Datetime.t)
    (top section cm : gmap string json) (cs : list string) (api : ApiStudy.t) :
  top !! "protocolSection" = Some (JObj section) ->
  section !! "conditionsModule" = Some (JObj cm) ->
  cm !! "conditions" = Some (JArr (JStr <$> cs)) ->
  ApiStudy.model_validate (JObj top) = Ok api ->
  let trial := Trial.from_api parser api (JObj top) in
  Trial.conditions trial = cs /\ NoDup (Trial.countries trial).
Proof.
  intros Htop Hsection Hcm Hvalid trial. split.
  - assert (Hopt : Pydantic.optional (Pydantic.as_model ConditionsModule.validate)
                     section "conditionsModule"
                   = Ok (Some (ConditionsModule.mk cs))).
    { unfold Pydantic.optional. rewrite Hsection. cbn [Pydantic.as_model].
      unfold ConditionsModule.validate, Pydantic.list_field.
      rewrite Hcm, traverse_as_str. reflexivity. }
    revert Hvalid. unfold ApiStudy.model_validate, Pydantic.required.
    rewrite Htop. cbn [Pydantic.as_model]. unfold ProtocolSection.validate.
    rewrite Hopt.
    destruct (Pydantic.required (Pydantic.as_model IdentificationModule.validate)
                section "identificationModule");
      destruct (Pydantic.optional (Pydantic.as_model DesignModule.validate)
                  section "designModule");
      destruct (Pydantic.required (Pydantic.as_model StatusModule.validate)
                  section "statusModule");
      destruct (Pydantic.optional (Pydantic.as_model ContactsLocationsModule.validate)
                  section "contactsLocationsModule");
      try discriminate.
    intros [= <-]. reflexivity.
  - unfold trial, Trial.from_api, Trial.dedup_set. cbn [Trial.countries].
    apply NoDup_elements.
Qed.

Lemma from_api_conditions_verbatim_witness :
  let api :=
    ApiStudy.mk
      (ProtocolSection.mk
         (IdentificationModule.mk "NCT07" None None) None
         (StatusModule.mk "COMPLETED" None)
         (Some (ConditionsModule.mk ["Diabetes"; "Diabetes"]))
         (Some (ContactsLocationsModule.mk
                  [Location.mk (Some "PL"); Location.mk (Some "DE");
                   Location.mk (Some "PL")]))) in
  exists top,
    Samples.repetitive = JObj top
    /\ Trial.conditions (Trial.from_api Samples.calendar api (JObj top))
       = ["Diabetes"; "Diabetes"]
    /\ NoDup (Trial.countries (Trial.from_api Samples.calendar api (JObj top))).
Proof.
  intros api. eexists. split; [reflexivity|].
  eapply (from_api_conditions_verbatim Samples.calendar _ _ _ ["Diabetes"; "Diabetes"] api).
  - vm_compute. reflexivity.
  - vm_compute. reflexivity.
  - vm_compute. reflexivity.
  - vm_compute. reflexivity.
Defined.

(** C7 as stated fails: a payload that names a condition twice gives a
    record that names it twice, while its three locations give two
    countries. *)
Lemma conditions_keep_duplicates :
  (fun trial => (Trial.conditions trial, Trial.countries trial))
    <$> yielded (page_items Samples.calendar None None [Samples.repetitive])
  = [(["Diabetes"; "Diabetes"], ["DE"; "PL"])]
  /\ ~ NoDup ["Diabetes"; "Diabetes"].
Proof.
  split; [vm_compute; reflexivity|].
  intros H. apply NoDup_cons in H as [H _]. apply H. constructor.
Qed.

End WalkerProps.

(** ** Properties of the export harvester *)

Module HarvesterProps.
Import CtisHarvester.

Section OneRun.

Variable e : env.

Lemma upload_to_s3_spec (s : state) :
  let out := upload_to_s3 e (today_path e) s in
  files out.2 = files s
  /\ browser_events (log out.2) = browser_events (log s)
  /\ tick out.2 = S (tick s)
  /\ out.1 = (if faults e Boto (tick s) then Raise UploadError
              else Ok (Signed (artifact_reference e) (S (tick s)))).
Proof.
  cbn zeta. unfold upload_to_s3, generate_presigned_url, bind, call, browser_events.
  destruct (faults e Boto (tick s)); cbn [fst snd files log tick id];
    rewrite List.filter_app; cbn; rewrite app_nil_r; repeat split.
Qed.




Lemma call_returns (c : callee) (ev : event) (effect : gset string -> gset string)
    (s s1 : state) :
  call e c ev effect s = (Ok tt, s1) -> files s1 = effect (files s).
Proof.
  unfold call. destruct (faults e c (tick s)); [discriminate|].
  now intros [= <-].
Qed.

(** No session goes through: each one ends at [expect_download] at the
    latest. *)
Lemma session_raises (out_path : path) (s : state) :
  exists x s1, session e out_path s = (Raise x, s1).
Proof.
  unfold session.
  do 8 (unfold bind at 1;
        match goal with
        | |- context [call e ?c ?ev ?eff ?s0] =>
            destruct (call e c ev eff s0) as [[[]|?] ?]; [|eauto]
        end).
  unfold bind at 1, expect_download. eauto.
Qed.

(** A session that goes through leaves the artifact in place. *)
Lemma session_leaves_artifact (s s1 : state) :
  session e (today_path e) s = (Ok tt, s1) -> artifact e ∈ files s1.
Proof.
  intros H. destruct (session_raises (today_path e) s) as (x & s2 & Hraise).
  congruence.
Qed.

(** An attempt that returns leaves the artifact in place and returns a URL
    for it, signed at the end of the attempt. *)
Lemma run_once_returns (s s1 : state) (r : signed_url) :
  run_once e s = (Ok r, s1) ->
  artifact e ∈ files s1 /\ asked r = artifact_reference e /\ signed_at r = tick s1.
Proof.
  unfold run_once. cbn zeta. case_bool_decide as Hin.
  - intros Hup. destruct (upload_to_s3_spec s) as (Hf & _ & Ht & Hr).
    cbn zeta in Hf, Ht, Hr. rewrite Hup in Hf, Ht, Hr. cbn [fst snd] in Hf, Ht, Hr.
    split; [fold (artifact e) in Hin; now rewrite Hf|].
    destruct (faults e Boto (tick s)); [discriminate|].
    injection Hr as ->. cbn. split; [reflexivity|now rewrite Ht].
  - destruct (session e (today_path e) s) as [[[]|x] s0] eqn:Hsession; [|discriminate].
    apply session_leaves_artifact in Hsession.
    intros Hup. destruct (upload_to_s3_spec (note PlaywrightStopped s0)) as (Hf & _ & Ht & Hr).
    cbn zeta in Hf, Ht, Hr. rewrite Hup in Hf, Ht, Hr.
    cbn [fst snd note files tick] in Hf, Ht, Hr.
    split; [now rewrite Hf|].
    destruct (faults e Boto (tick s0)); [discriminate|].
    injection Hr as ->. cbn. split; [reflexivity|now rewrite Ht].
Qed.

Lemma attempts_return (left k : nat) (s s1 : state) (r : signed_url) :
  Tenacity.attempts_from run_policy (run_once e) (fun secs => note (Backoff secs))
                         left k s = (Ok r, s1) ->
  artifact e ∈ files s1 /\ asked r = artifact_reference e /\ signed_at r = tick s1.
Proof.
  revert k s. induction left as [|left IH]; intros k s; [discriminate|].
  cbn [Tenacity.attempts_from].
  destruct (run_once e s) as [[r0|x] s0] eqn:Honce.
  - intros [= <- <-]. now apply run_once_returns in Honce.
  - destruct left as [|left']; [discriminate|]. apply IH.
Qed.

End OneRun.

Section WholeRun.

Variable e : env.

(** A call that returns leaves the artifact in place and returns a URL for
    it, signed at the end of the call. *)
Lemma run_returns (s s1 : state) (r : signed_url) :
  run e s = (Ok r, s1) ->
  artifact e ∈ files s1 /\ asked r = artifact_reference e /\ signed_at r = tick s1.
Proof. unfold run, Tenacity.retry. apply attempts_return. Qed.


End WholeRun.




End HarvesterProps.

(** ** Further properties of retrying *)

Module RetryProps.
Import Requests FetcherProps Notions.

Section AnyRetry.

Context {S A : Type}.
Variable p : Tenacity.policy.
Variable attempt : S -> res A * S.
Variable sleep : Z -> S -> S.

(** Whatever the attempts raise, what leaves the retry loop is
    [RetryError]. *)
Lemma attempts_from_raise (left k : nat) (s : S) (x : exn) :
  (Tenacity.attempts_from p attempt sleep left k s).1 = Raise x -> x = RetryError.
Proof.
  revert k s. induction left as [|left IH]; intros k s; cbn [Tenacity.attempts_from].
  - now intros [= <-].
  - destruct (attempt s) as [[a|y] s1]; [discriminate|].
    destruct left as [|left']; [now intros [= <-]|]. apply IH.
Qed.

End AnyRetry.

Section Fetcher.

Variable p : Tenacity.policy.
Variable url : string.
Variable params : gmap string json.

Lemma backoffs_fetch_once (n : net) :
  backoffs (log (fetch_once url params n).2) = backoffs (log n).
Proof.
  rewrite fetch_once_log. unfold backoffs. rewrite omap_app. cbn. now rewrite app_nil_r.
Qed.

Lemma backoffs_pause (secs : Z) (n : net) :
  backoffs (log (pause secs n)) = backoffs (log n) ++ [secs].
Proof. unfold pause, record, backoffs. cbn [log]. now rewrite omap_app. Qed.

(** The requests that a retry loop sends, and the pauses it makes: one
    request at least and [left] at most, and between two requests the
    pause that the policy gives for the attempt that failed. *)
Lemma attempts_from_log (left k : nat) (n : net) :
  (0 < left)%nat ->
  let out := Tenacity.attempts_from p (fetch_once url params) pause left k n in
  exists made : nat,
    (1 <= made <= left)%nat
    /\ requests_sent out.2 = (requests_sent n + made)%nat
    /\ backoffs (log out.2)
       = backoffs (log n)
         ++ ((fun i => Tenacity.wait_exponential p (k + i)) <$> seq 0 (made - 1)).
Proof.
  revert k n. induction left as [|left IH]; intros k n Hpos; [lia|]. cbn zeta.
  cbn [Tenacity.attempts_from].
  pose proof (requests_sent_fetch_once url params n) as Hc.
  pose proof (backoffs_fetch_once n) as Hb.
  destruct (fetch_once url params n) as [[j|x] n1]; cbn [fst snd] in *.
  - exists 1%nat. split; [lia|]. split; [lia|]. cbn. now rewrite app_nil_r.
  - destruct left as [|left'].
    + exists 1%nat. split; [lia|]. split; [cbn; lia|]. cbn. now rewrite app_nil_r.
    + destruct (IH (Datatypes.S k) (pause (Tenacity.wait_exponential p k) n1))
        as (made & Hmade & Hreq & Hback); [lia|].
      exists (Datatypes.S made). split; [lia|]. split.
      * rewrite Hreq, requests_sent_pause, Hc. lia.
      * rewrite Hback, backoffs_pause, Hb, <- app_assoc. f_equal.
        destruct made as [|made]; [lia|]. cbn [Nat.sub]. rewrite Nat.sub_0_r.
        cbn [seq fmap list_fmap app]. rewrite Nat.add_0_r. f_equal.
        rewrite <- seq_shift, <- list_fmap_compose. apply list_fmap_ext.
        intros i m _. cbn. f_equal. lia.
Qed.

(** A reply that does not fail carries a body. *)
Lemma good_reply (r : reply) :
  failing r = false -> exists st j, r = Response st (Some j).
Proof.
  destruct r as [|st [j|]]; cbn; try discriminate; [eauto|].
  rewrite orb_true_r. discriminate.
Qed.

(** The first good reply among the first [k], if there is one. *)
Lemma first_good_reply (k : nat) (script : list reply) :
  ~ Forall (fun r => failing r = true) (take k script) ->
  exists pre st j rest,
    script = pre ++ Response st (Some j) :: rest
    /\ Forall (fun r => failing r = true) pre
    /\ failing (Response st (Some j)) = false
    /\ (length pre < k)%nat.
Proof.
  revert k. induction script as [|r script IH]; intros k Hnot.
  - exfalso. apply Hnot. rewrite take_nil. constructor.
  - destruct k as [|k]; [exfalso; apply Hnot; constructor|].
    destruct (failing r) eqn:Hr.
    + destruct (IH k) as (pre & st & j & rest & -> & Hpre & Hgood & Hlen).
      { intros Hall. apply Hnot. cbn. now constructor. }
      exists (r :: pre), st, j, rest. repeat split; [now constructor|exact Hgood|cbn; lia].
    + destruct (good_reply r Hr) as (st & j & ->).
      exists [], st, j, script. repeat split; [constructor|exact Hr|cbn; lia].
Qed.

(** The loop gives up exactly when each of the replies that its attempts
    meet fails (a script that has run out fails every further attempt). *)
Lemma retry_gives_up (n : net) :
  (0 < Tenacity.stop_after_attempt p)%nat ->
  (Tenacity.retry p (fetch_once url params) pause n).1 = Raise RetryError
  <-> Forall (fun r => failing r = true) (take (Tenacity.stop_after_attempt p) (script n)).
Proof.
  intros Hpos. unfold Tenacity.retry. split.
  - intros Hraise.
    destruct (Forall_dec (fun r => failing r = true)
                (take (Tenacity.stop_after_attempt p) (script n))) as [Hall|Hnot];
      [exact Hall|].
    destruct (first_good_reply _ _ Hnot) as (pre & st & j & rest & Hn & Hpre & Hgood & Hlen).
    destruct (attempts_from_success url params p pre st j rest Hpre Hgood
                (Tenacity.stop_after_attempt p) 1%nat n Hn Hlen) as (Hok & _).
    congruence.
  - intros Hall.
    now destruct (attempts_from_exhausted url params p
                    (Tenacity.stop_after_attempt p) 1%nat n Hpos Hall).
Qed.

End Fetcher.

End RetryProps.

Module FetcherBudget.
Import Requests FetcherProps Notions RetryProps.

(** X1. What leaves [_get] and [_fetch_page] is never the exception of an
    attempt ([HTTPError], [ConnectionError], a decoding error) but
    [RetryError], and it leaves exactly when the replies met by the 5
    (respectively 3) attempts all fail; a script that has run out counts as
    failing. *)
Theorem fetchers_give_up_exactly (endpoint : string) (params : gmap string json)
    (n : net) :
  ((forall x, (Ctgov._get endpoint params n).1 = Raise x -> x = RetryError)
   /\ ((Ctgov._get endpoint params n).1 = Raise RetryError
       <-> Forall (fun r => failing r = true) (take 5 (script n))))
  /\ ((forall x, (Ctis._fetch_page params n).1 = Raise x -> x = RetryError)
      /\ ((Ctis._fetch_page params n).1 = Raise RetryError
          <-> Forall (fun r => failing r = true) (take 3 (script n)))).
Proof.
  split; split.
  - intros x. apply attempts_from_raise.
  - apply (retry_gives_up Ctgov._get_policy endpoint params n). cbn. lia.
  - intros x. apply attempts_from_raise.
  - apply (retry_gives_up Ctis._fetch_page_policy Ctis.BASE_URL params n). cbn. lia.
Qed.

(** X2. One call of [_get] sends between 1 and 5 requests and pauses
    between them for 2, 2, 4 and 8 seconds, in this order; one call of
    [_fetch_page] sends between 1 and 3 requests and pauses for 1 and 2
    seconds. *)
Theorem fetchers_request_budget (endpoint : string) (params : gmap string json)
    (n : net) :
  (exists made : nat,
      (1 <= made <= 5)%nat
      /\ requests_sent (Ctgov._get endpoint params n).2 = (requests_sent n + made)%nat
      /\ backoffs (log (Ctgov._get endpoint params n).2)
         = backoffs (log n) ++ take (made - 1) [2; 2; 4; 8])
  /\ (exists made : nat,
        (1 <= made <= 3)%nat
        /\ requests_sent (Ctis._fetch_page params n).2 = (requests_sent n + made)%nat
        /\ backoffs (log (Ctis._fetch_page params n).2)
           = backoffs (log n) ++ take (made - 1) [1; 2]).
Proof.
  split.
  - destruct (attempts_from_log Ctgov._get_policy endpoint params 5 1 n)
      as (made & Hmade & Hreq & Hback); [lia|].
    exists made. split; [exact Hmade|]. split; [exact Hreq|].
    unfold Ctgov._get, Tenacity.retry. cbn [Tenacity.stop_after_attempt Ctgov._get_policy].
    rewrite Hback. f_equal.
    destruct made as [|[|[|[|[|[|made]]]]]]; try lia; reflexivity.
  - destruct (attempts_from_log Ctis._fetch_page_policy Ctis.BASE_URL params 3 1 n)
      as (made & Hmade & Hreq & Hback); [lia|].
    exists made. split; [exact Hmade|]. split; [exact Hreq|].
    unfold Ctis._fetch_page, Tenacity.retry.
    cbn [Tenacity.stop_after_attempt Ctis._fetch_page_policy].
    rewrite Hback. f_equal.
    destruct made as [|[|[|[|made]]]]; try lia; reflexivity.
Qed.

End FetcherBudget.

(** ** Further properties of the walker *)

Module WalkProps.
Import Requests Ctgov FetcherProps WalkerProps Notions.

Section Pages.

Variable CTG_ENDPOINT : string.
Variable fromisoformat : string -> option Datetime.t.
Variable phase : option string.
Variable dt_since : option Datetime.t.

Lemma next_token_truthy (params : gmap string json) (page_token : json) :
  truthy page_token = true -> next_token params page_token = Some page_token.
Proof. intros H. unfold next_token. rewrite H. apply lookup_insert_eq. Qed.

(** A good first reply is taken at the first attempt. *)
Lemma _get_good (params : gmap string json) (n : net) (st : Z) (j : json)
    (rest : list reply) :
  script n = Response st (Some j) :: rest ->
  failing (Response st (Some j)) = false ->
  _get CTG_ENDPOINT params n
  = (Ok j, Requests.mk rest (log n ++ [Sent CTG_ENDPOINT params])).
Proof.
  intros Hn Hgood. unfold _get, Tenacity.retry. cbn [Tenacity.stop_after_attempt _get_policy].
  cbn [Tenacity.attempts_from]. unfold fetch_once, get. rewrite Hn.
  unfold raise_for_status, json_body. cbn [fst snd].
  cbn [failing] in Hgood. apply orb_false_elim in Hgood as [-> _]. reflexivity.
Qed.

Lemma throttles_app (l1 l2 : list event) :
  throttles (l1 ++ l2) = (throttles l1 + throttles l2)%nat.
Proof. unfold throttles. now rewrite List.filter_app, length_app. Qed.

Lemma requests_sent_log (l : list event) (ev : event) (s1 s2 : list reply) :
  requests_sent (Requests.mk s1 (l ++ [ev]))
  = (requests_sent (Requests.mk s2 l) + if is_sent ev then 1 else 0)%nat.
Proof.
  unfold requests_sent. cbn [log]. rewrite List.filter_app, length_app. cbn.
  destruct (is_sent ev); cbn; lia.
Qed.

(** The walk goes through the pages that pass on: what they yield is
    yielded, in order, each of them costs one request and one pause, and
    the request after a page carries the cursor that the page names. The
    walk then goes on from the replies that are left. *)
Lemma walk_through (earlier : list (gmap string json * list json)) :
  Forall (fun page => passes_on fromisoformat phase dt_since page.1 page.2) earlier ->
  forall (params : gmap string json) (page_token : json) (n : net) (tail : list reply),
    script n = served earlier ++ tail ->
    exists (params' : gmap string json) (page_token' : json) (n' : net),
      script n' = tail
      /\ requests_sent n' = (requests_sent n + length earlier)%nat
      /\ throttles (log n') = (throttles (log n) + length earlier)%nat
      /\ tokens_sent (log n') ++ [next_token params' page_token']
         = tokens_sent (log n) ++ next_token params page_token
                                  :: ((fun page => Some (cursor page.1)) <$> earlier)
      /\ walk CTG_ENDPOINT fromisoformat (S (length (script n))) phase dt_since
              params page_token n
         = (fun out : stream Trial.t * net =>
              (Stream (concat ((fun page => yielded (page_items fromisoformat phase
                                                       dt_since page.2)) <$> earlier)
                       ++ yielded out.1)
                      (failure out.1), out.2))
             <$> walk CTG_ENDPOINT fromisoformat (S (length tail)) phase dt_since
                      params' page_token' n'.
Proof.
  induction 1 as [|[body studies] earlier (Hs & Hf & Htok) _ IH];
    intros params page_token n tail Hn.
  - exists params, page_token, n. cbn [served fmap list_fmap app] in Hn.
    repeat split; [exact Hn|cbn; lia|cbn; lia|].
    rewrite Hn. cbn [fmap list_fmap concat app].
    destruct (walk _ _ _ _ _ _ _ _) as [[[ys f] n1]|]; reflexivity.
  - cbn [fst snd] in Hs, Hf, Htok.
    change (served ((body, studies) :: earlier) ++ tail)
      with (Response 200 (Some (JObj body)) :: served earlier ++ tail) in Hn.
    set (params1 := if truthy page_token
                    then <["pageToken" := page_token]> params else params).
    set (n1 := Requests.mk (served earlier ++ tail) (log n ++ [Sent CTG_ENDPOINT params1])).
    destruct (IH params1 (default JNull (body !! "nextPageToken")) (record Throttle n1) tail)
      as (params' & token' & n' & Hscript & Hreq & Hthr & Htoks & Hwalk); [reflexivity|].
    exists params', token', n'. split; [exact Hscript|]. split.
    { rewrite Hreq. unfold record, n1. cbn [script log length].
      rewrite (requests_sent_log _ Throttle _ (script n)).
      rewrite (requests_sent_log (log n) _ _ (script n)). cbn [is_sent].
      destruct n; cbn; lia. }
    split.
    { rewrite Hthr. unfold record, n1. cbn [log]. rewrite !throttles_app. cbn. lia. }
    split.
    { rewrite Htoks. unfold record, n1. cbn [log]. unfold tokens_sent at 1.
      rewrite !omap_app. cbn [omap list_omap app]. rewrite app_nil_r.
      fold (tokens_sent (log n)). rewrite <- app_assoc. cbn [app fmap list_fmap fst].
      rewrite (next_token_truthy params1 _ Htok). reflexivity. }
    rewrite walk_unfold. cbn zeta. fold params1.
    rewrite (_get_good params1 n 200 (JObj body) (served earlier ++ tail) Hn eq_refl).
    fold n1. rewrite Hs. cbn [default from_option id iterate]. rewrite Hf.
    unfold cursor in *. rewrite Htok. cbn [negb].
    rewrite Hn. cbn [length].
    change (S (length (served earlier ++ tail))) with (S (length (script (record Throttle n1)))).
    rewrite Hwalk.
    destruct (walk _ _ (S (length tail)) _ _ _ _ _) as [[[ys f] n2]|]; [|reflexivity].
    cbn [fmap option_fmap option_map list_fmap concat yielded failure fst snd].
    now rewrite app_assoc.
Qed.

(** The page that names no further page ends the walk. *)
Lemma walk_last_page (fuel : nat) (params : gmap string json) (page_token : json)
    (n : net) (st : Z) (data : gmap string json) (rest : list reply)
    (studies : list json) :
  script n = Response st (Some (JObj data)) :: rest ->
  failing (Response st (Some (JObj data))) = false ->
  data !! "studies" = Some (JArr studies) ->
  failure (page_items fromisoformat phase dt_since studies) = None ->
  truthy (cursor data) = false ->
  walk CTG_ENDPOINT fromisoformat (S fuel) phase dt_since params page_token n
  = Some (page_items fromisoformat phase dt_since studies,
          Requests.mk rest
            (log n ++ [Sent CTG_ENDPOINT
                         (if truthy page_token
                          then <["pageToken" := page_token]> params else params)])).
Proof.
  intros Hn Hgood Hs Hf Htok. rewrite walk_unfold. cbn zeta.
  rewrite (_get_good _ n st (JObj data) rest Hn Hgood).
  rewrite Hs. cbn [default from_option id iterate]. rewrite Hf.
  unfold cursor in Htok. now rewrite Htok.
Qed.

(** A page that cannot be fetched ends the walk with [RetryError], after
    five requests. *)
Lemma walk_fetch_fails (fuel : nat) (params : gmap string json) (page_token : json)
    (n : net) :
  Forall (fun r => failing r = true) (take 5 (script n)) ->
  exists n',
    walk CTG_ENDPOINT fromisoformat (S fuel) phase dt_since params page_token n
    = Some (Stream [] (Some RetryError), n')
    /\ requests_sent n' = (requests_sent n + 5)%nat.
Proof.
  intros Hall. rewrite walk_unfold. cbn zeta.
  set (params1 := if truthy page_token then _ else _).
  destruct (attempts_from_exhausted CTG_ENDPOINT params1 _get_policy 5 1 n)
    as (Hraise & Hreq); [lia|exact Hall|].
  cbn zeta in Hraise, Hreq. unfold _get, Tenacity.retry.
  cbn [Tenacity.stop_after_attempt _get_policy].
  destruct (Tenacity.attempts_from _get_policy (fetch_once CTG_ENDPOINT params1) pause 5 1 n)
    as [r n1]. cbn [fst snd] in Hraise, Hreq. subst r. eauto.
Qed.

End Pages.

Section Walks.

Variable CTG_ENDPOINT : string.
Variable fromisoformat : string -> option Datetime.t.

(** [get_trials] is the walk from the first request, once the cutoff is
    parsed. *)
Lemma get_trials_walk (condition : string) (phase since : option string)
    (dt_since : option Datetime.t) (page_size : Z) (n : net) :
  cutoff_is fromisoformat since dt_since ->
  get_trials CTG_ENDPOINT fromisoformat condition phase since page_size n
  = walk CTG_ENDPOINT fromisoformat (S (length (script n))) phase dt_since
         (first_params condition page_size) JNull n.
Proof.
  unfold get_trials.
  intros [[-> ->]|(-> & d & -> & ->)]; reflexivity.
Qed.

Lemma first_params_no_token (condition : string) (page_size : Z) :
  next_token (first_params condition page_size) JNull = None.
Proof. reflexivity. Qed.

End Walks.

End WalkProps.

Module WalkExtras.
Import Requests Ctgov FetcherProps WalkerProps Notions WalkProps.

(** X3. When the source serves pages that each name a next page, and then
    one that names none, and no record makes the page loop raise, the
    walker yields the records that pass the filters, page after page in
    source order, and ends; it sends one request per page, the first
    without cursor and each other one with the cursor that the page before
    named, and pauses once between two pages, not after the last. *)
Theorem get_trials_walks_all_pages (endpoint : string)
    (parser : string -> option Datetime.t) (condition : string)
    (phase since : option string) (dt_since : option Datetime.t) (page_size : Z)
    (n : net) (earlier : list (gmap string json * list json)) (st : Z)
    (last : gmap string json) (studies : list json) (rest : list reply) :
  cutoff_is parser since dt_since ->
  Forall (fun page => passes_on parser phase dt_since page.1 page.2) earlier ->
  script n = served earlier ++ Response st (Some (JObj last)) :: rest ->
  failing (Response st (Some (JObj last))) = false ->
  last !! "studies" = Some (JArr studies) ->
  failure (page_items parser phase dt_since studies) = None ->
  truthy (cursor last) = false ->
  exists n' : net,
    get_trials endpoint parser condition phase since page_size n
    = Some (Stream (concat ((fun page => yielded (page_items parser phase dt_since page.2))
                              <$> earlier)
                    ++ yielded (page_items parser phase dt_since studies))
                   None, n')
    /\ script n' = rest
    /\ requests_sent n' = (requests_sent n + length earlier + 1)%nat
    /\ throttles (log n') = (throttles (log n) + length earlier)%nat
    /\ tokens_sent (log n')
       = tokens_sent (log n) ++ None :: ((fun page => Some (cursor page.1)) <$> earlier).
Proof.
  intros Hcut Hearlier Hn Hgood Hs Hf Htok.
  rewrite (get_trials_walk endpoint parser condition phase since dt_since page_size n Hcut).
  destruct (walk_through endpoint parser phase dt_since earlier Hearlier
              (first_params condition page_size) JNull n _ Hn)
    as (params' & token' & n1 & Hscript & Hreq & Hthr & Htoks & ->).
  cbn [length].
  rewrite (walk_last_page endpoint parser phase dt_since _ params' token' n1 st last rest
             studies Hscript Hgood Hs Hf Htok).
  eexists. split.
  { cbn [fmap option_fmap option_map fst snd]. rewrite <- Hf.
    destruct (page_items parser phase dt_since studies); reflexivity. }
  cbn [script log]. split; [reflexivity|]. split.
  { rewrite (requests_sent_log _ _ _ (script n1)). cbn [is_sent].
    destruct n1; cbn in *. lia. }
  split.
  { rewrite throttles_app. cbn. lia. }
  unfold tokens_sent at 1. rewrite omap_app. cbn [omap list_omap app].
  fold (tokens_sent (log n1)). fold (next_token params' token'). exact Htoks.
Qed.

Lemma get_trials_walks_all_pages_witness :
  exists n' : net,
    get_trials Samples.ENDPOINT Samples.calendar "diabetes" None None 2
      (Samples.serving
         [JObj (Samples.page_then [Samples.study "NCT-1" []; Samples.study "NCT-2" []]);
          Samples.page [Samples.study "NCT-3" []]])
    = Some (Stream (yielded (page_items Samples.calendar None None
                               [Samples.study "NCT-1" []; Samples.study "NCT-2" [];
                                Samples.study "NCT-3" []]))
                   None, n')
    /\ script n' = []
    /\ requests_sent n' = 2%nat
    /\ throttles (log n') = 1%nat
    /\ tokens_sent (log n') = [None; Some (JStr "X")].
Proof.
  apply (get_trials_walks_all_pages Samples.ENDPOINT Samples.calendar "diabetes"
           None None None 2
           (Samples.serving
              [JObj (Samples.page_then [Samples.study "NCT-1" []; Samples.study "NCT-2" []]);
               Samples.page [Samples.study "NCT-3" []]])
           [(Samples.page_then [Samples.study "NCT-1" []; Samples.study "NCT-2" []],
             [Samples.study "NCT-1" []; Samples.study "NCT-2" []])]
           200 (<["studies" := JArr [Samples.study "NCT-3" []]]> ∅)
           [Samples.study "NCT-3" []] []).
  - left. split; reflexivity.
  - repeat constructor; vm_compute; reflexivity.
  - vm_compute. reflexivity.
  - vm_compute. reflexivity.
  - vm_compute. reflexivity.
  - vm_compute. reflexivity.
  - vm_compute. reflexivity.
Defined.

(** X4. When, after pages that each name a next page, the next page cannot
    be fetched (the replies to its five attempts all fail), the records of
    the pages before are yielded and the walk then raises [RetryError]; the
    failed page has cost five requests. *)
Theorem get_trials_fetch_failure (endpoint : string)
    (parser : string -> option Datetime.t) (condition : string)
    (phase since : option string) (dt_since : option Datetime.t) (page_size : Z)
    (n : net) (earlier : list (gmap string json * list json)) (tail : list reply) :
  cutoff_is parser since dt_since ->
  Forall (fun page => passes_on parser phase dt_since page.1 page.2) earlier ->
  script n = served earlier ++ tail ->
  Forall (fun r => failing r = true) (take 5 tail) ->
  exists n' : net,
    get_trials endpoint parser condition phase since page_size n
    = Some (Stream (concat ((fun page => yielded (page_items parser phase dt_since page.2))
                              <$> earlier))
                   (Some RetryError), n')
    /\ requests_sent n' = (requests_sent n + length earlier + 5)%nat.
Proof.
  intros Hcut Hearlier Hn Hall.
  rewrite (get_trials_walk endpoint parser condition phase since dt_since page_size n Hcut).
  destruct (walk_through endpoint parser phase dt_since earlier Hearlier
              (first_params condition page_size) JNull n _ Hn)
    as (params' & token' & n1 & Hscript & Hreq & _ & _ & ->).
  rewrite <- Hscript in Hall.
  destruct (walk_fetch_fails endpoint parser phase dt_since (length tail) params' token'
              n1 Hall) as (n' & -> & Hreq').
  exists n'. split; [|lia].
  cbn [fmap option_fmap option_map fst snd yielded failure]. now rewrite app_nil_r.
Qed.

Lemma get_trials_fetch_failure_witness :
  exists n' : net,
    get_trials Samples.ENDPOINT Samples.calendar "diabetes" None None 2
      (Requests.mk
         [Response 200 (Some (JObj (Samples.page_then [Samples.study "NCT-1" []])));
          Response 503 None; Unreachable; Response 404 (Some JNull)] [])
    = Some (Stream (yielded (page_items Samples.calendar None None
                               [Samples.study "NCT-1" []]))
                   (Some RetryError), n')
    /\ requests_sent n' = 6%nat.
Proof.
  apply (get_trials_fetch_failure Samples.ENDPOINT Samples.calendar "diabetes"
           None None None 2
           (Requests.mk
              [Response 200 (Some (JObj (Samples.page_then [Samples.study "NCT-1" []])));
               Response 503 None; Unreachable; Response 404 (Some JNull)] [])
           [(Samples.page_then [Samples.study "NCT-1" []], [Samples.study "NCT-1" []])]
           [Response 503 None; Unreachable; Response 404 (Some JNull)]).
  - left. split; reflexivity.
  - repeat constructor; vm_compute; reflexivity.
  - reflexivity.
  - repeat constructor.
Defined.

End WalkExtras.

(** ** Further properties of the record and of the filters *)

Module RecordProps.
Import Requests Ctgov WalkerProps Notions.

Lemma lstrip_starts (s : string) : starts_space (lstrip s) = false.
Proof.
  induction s as [|c s IH]; [reflexivity|]. cbn [lstrip].
  destruct (is_space c) eqn:Hc; [exact IH|]. cbn. exact Hc.
Qed.

Lemma rstrip_starts (s : string) :
  starts_space s = false -> starts_space (rstrip s) = false.
Proof.
  destruct s as [|c s]; [reflexivity|]. cbn [starts_space rstrip]. intros Hc.
  destruct (rstrip s); [|exact Hc]. now rewrite Hc.
Qed.

Lemma rstrip_ends (s : string) : ends_space (rstrip s) = false.
Proof.
  induction s as [|c s IH]; [reflexivity|]. cbn [rstrip].
  destruct (rstrip s) as [|c' r] eqn:Hr.
  - destruct (is_space c) eqn:Hc; [reflexivity|]. cbn. exact Hc.
  - exact IH.
Qed.

(** What [strip] returns neither starts nor ends with white space. *)
Lemma strip_trimmed (s : string) :
  starts_space (strip s) = false /\ ends_space (strip s) = false.
Proof.
  unfold strip. split; [apply rstrip_starts, lstrip_starts|apply rstrip_ends].
Qed.

(** X5. The phase asked for is compared as it is given, while the phases
    of a record are stripped: a phase argument that starts or ends with
    white space matches no record, and the walker yields nothing from any
    page. *)
Theorem padded_phase_matches_nothing (parser : string -> option Datetime.t)
    (ph : string) (dt_since : option Datetime.t) (studies : list json) :
  starts_space ph || ends_space ph = true ->
  (forall trial : Trial.t, phase_excluded (Some ph) trial = true)
  /\ yielded (page_items parser (Some ph) dt_since studies) = [].
Proof.
  intros Hpad.
  assert (Hex : forall trial : Trial.t, phase_excluded (Some ph) trial = true).
  { intros trial. unfold phase_excluded.
    assert (Hne : truthy_str ph = true).
    { destruct ph; [discriminate|reflexivity]. }
    rewrite Hne. cbn [andb]. apply negb_true_iff, bool_decide_eq_false.
    intros Hin. apply list_elem_of_fmap in Hin as (p & -> & _).
    destruct (strip_trimmed p) as [H1 H2]. rewrite H1, H2 in Hpad. discriminate. }
  split; [exact Hex|].
  induction studies as [|raw rest IH]; [reflexivity|]. cbn [page_items].
  destruct (ApiStudy.model_validate raw); [|reflexivity].
  now rewrite Hex.
Qed.

Lemma padded_phase_matches_nothing_witness :
  (forall trial : Trial.t, phase_excluded (Some "Phase 2 ") trial = true)
  /\ yielded (page_items Samples.calendar (Some "Phase 2 ") None
                [Samples.study "NCT-B" ["Phase 2"; " Phase 2 "]]) = [].
Proof.
  apply (padded_phase_matches_nothing Samples.calendar "Phase 2 " None
           [Samples.study "NCT-B" ["Phase 2"; " Phase 2 "]]).
  reflexivity.
Defined.

Lemma endswith_Z_app (body : string) : Trial.endswith_Z (body +:+ "Z") = true.
Proof.
  induction body as [|c body IH]; [reflexivity|].
  change (String c body +:+ "Z") with (String c (body +:+ "Z")).
  destruct (body +:+ "Z") as [|c' r] eqn:Hb; [destruct body; discriminate|].
  exact IH.
Qed.

Lemma replace_Z_app (body : string) :
  has_Z body = false -> Trial.replace_Z (body +:+ "Z") = body +:+ "+00:00".
Proof.
  induction body as [|c body IH]; [reflexivity|].
  intros H. cbn [has_Z] in H. apply orb_false_elim in H as [Hc Hb].
  change (Trial.replace_Z (String c body +:+ "Z"))
    with (if bool_decide (c = "Z"%char)
          then "+00:00" +:+ Trial.replace_Z (body +:+ "Z")
          else String c (Trial.replace_Z (body +:+ "Z"))).
  rewrite Hc, (IH Hb). reflexivity.
Qed.

(** X6. The date validator passes a string that does not end in "Z" to the
    parser as it is; of a string that is some text without the letter "Z"
    followed by "Z" it has the text followed by "+00:00" parsed; an absent
    string gives an absent date without the parser being asked. *)
Theorem parse_dt_normalises (parser : string -> option Datetime.t) (text : string) :
  (Trial.endswith_Z text = false -> Trial._parse_dt parser (Some text) = parser text)
  /\ (has_Z text = false
      -> Trial._parse_dt parser (Some (text +:+ "Z")) = parser (text +:+ "+00:00"))
  /\ Trial._parse_dt parser None = None.
Proof.
  split; [|split].
  - intros H. unfold Trial._parse_dt. now rewrite H.
  - intros H. unfold Trial._parse_dt. now rewrite endswith_Z_app, replace_Z_app.
  - reflexivity.
Qed.

Lemma parse_dt_normalises_witness :
  Trial._parse_dt Samples.calendar (Some "2025-01-01T00:00:00Z")
  = Samples.calendar "2025-01-01T00:00:00+00:00".
Proof.
  apply (proj1 (proj2 (parse_dt_normalises Samples.calendar "2025-01-01T00:00:00"))).
  reflexivity.
Defined.

(** X7. The countries of a record are exactly the non-empty country names
    of the locations of the payload, each of them once. *)
Theorem from_api_countries (parser : string -> option Datetime.t) (api : ApiStudy.t)
    (raw : json) :
  let trial := Trial.from_api parser api raw in
  NoDup (Trial.countries trial)
  /\ (forall c : string,
        c ∈ Trial.countries trial
        <-> c <> ""
            /\ exists clm loc,
                 ProtocolSection.contacts_locations_module (ApiStudy.protocol_section api)
                 = Some clm
                 /\ loc ∈ ContactsLocationsModule.locations clm
                 /\ Location.country loc = Some c).
Proof.
  cbn zeta. unfold Trial.from_api, Trial.dedup_set. cbn [Trial.countries].
  split; [apply NoDup_elements|].
  intros c. rewrite elem_of_elements, elem_of_list_to_set.
  destruct (ProtocolSection.contacts_locations_module (ApiStudy.protocol_section api))
    as [clm|].
  - rewrite list_elem_of_omap. split.
    + intros (loc & Hloc & Hc).
      destruct (Location.country loc) as [c'|] eqn:Hcountry; cbn in Hc; [|discriminate].
      destruct c' as [|a c']; cbn in Hc; [discriminate|]. injection Hc as <-.
      split; [discriminate|]. eauto.
    + intros (Hne & clm' & loc & [= <-] & Hloc & Hc).
      exists loc. split; [exact Hloc|]. rewrite Hc.
      destruct c; [done|reflexivity].
  - split; [intros H; now apply elem_of_nil in H|].
    intros (_ & clm & loc & H & _). discriminate.
Qed.

(** X8. A record with a timezone-aware [last_changed] met with a naive
    cutoff (or a naive one met with an aware cutoff) is neither yielded nor
    dropped: the comparison raises [TypeError], which ends the page loop at
    this record. *)
Theorem mixed_dates_raise (parser : string -> option Datetime.t) (raw : json)
    (api : ApiStudy.t) (phase : option string) (cutoff changed : Datetime.t)
    (rest : list json) :
  ApiStudy.model_validate raw = Ok api ->
  Trial.last_changed (Trial.from_api parser api raw) = Some changed ->
  phase_excluded phase (Trial.from_api parser api raw) = false ->
  is_Some (Datetime.utcoffset changed) <-> Datetime.utcoffset cutoff = None ->
  since_excluded (Some cutoff) (Trial.from_api parser api raw) = Raise TypeError
  /\ page_items parser phase (Some cutoff) (raw :: rest) = Stream [] (Some TypeError).
Proof.
  intros Hvalid Hchanged Hphase Hmixed.
  assert (Hlt : since_excluded (Some cutoff) (Trial.from_api parser api raw)
                = Raise TypeError).
  { unfold since_excluded. rewrite Hchanged. unfold Datetime.lt.
    destruct (Datetime.utcoffset changed) as [oc|], (Datetime.utcoffset cutoff) as [ok|];
      try reflexivity.
    - destruct Hmixed as [H _]. specialize (H (ex_intro _ oc eq_refl)). discriminate.
    - destruct Hmixed as [_ H]. destruct (H eq_refl) as [? ?]. discriminate. }
  split; [exact Hlt|]. cbn [page_items]. now rewrite Hvalid, Hphase, Hlt.
Qed.

Lemma mixed_dates_raise_witness :
  let api :=
    ApiStudy.mk
      (ProtocolSection.mk (IdentificationModule.mk "NCT10" None None) None
         (StatusModule.mk "RECRUITING" (Some "2025-01-01T00:00:00Z")) None None) in
  since_excluded (Some (Datetime.mk 1751328000000000 None))
                 (Trial.from_api Samples.calendar api Samples.zulu_dated)
  = Raise TypeError
  /\ page_items Samples.calendar None (Some (Datetime.mk 1751328000000000 None))
                [Samples.zulu_dated]
     = Stream [] (Some TypeError).
Proof.
  intros api.
  apply (mixed_dates_raise Samples.calendar Samples.zulu_dated api None
           (Datetime.mk 1751328000000000 None)
           (Datetime.mk 1735689600000000 (Some 0)) []).
  - vm_compute. reflexivity.
  - vm_compute. reflexivity.
  - reflexivity.
  - split; [reflexivity|]. intros _. exists 0. reflexivity.
Defined.

End RecordProps.

(** ** What the writer keeps, whatever fails *)

Module WriterInvariants.
Import Db Ctgov WriterProps Notions.

Section Keeps.

Context {A B : Type}.
Variable P : state -> Prop.

Lemma keeps_ret (a : A) : keeps P (ret a : M A).
Proof. intros s Hs. exact Hs. Qed.

Lemma keeps_bind (c : M A) (k : A -> M B) :
  keeps P c -> (forall a, keeps P (k a)) -> keeps P (bind c k).
Proof.
  intros Hc Hk s Hs. unfold bind. specialize (Hc s Hs).
  destruct (c s) as [[a|x] s1]; cbn [snd] in *; [apply Hk, Hc|exact Hc].
Qed.

Lemma keeps_try_except (body handler : M A) :
  keeps P body -> keeps P handler -> keeps P (try_except body handler).
Proof.
  intros Hb Hh s Hs. unfold try_except. specialize (Hb s Hs).
  destruct (body s) as [[a|x] s1]; cbn [snd] in *; [exact Hb|apply Hh, Hb].
Qed.

Lemma keeps_try_finally (body : M A) (cleanup : M unit) :
  keeps P body -> keeps P cleanup -> keeps P (try_finally body cleanup).
Proof.
  intros Hb Hc s Hs. unfold try_finally. specialize (Hb s Hs).
  destruct (body s) as [r s1]; cbn [snd] in *. specialize (Hc s1 Hb).
  destruct (cleanup s1) as [[u|x] s2]; exact Hc.
Qed.

End Keeps.

Section Body.

Variable e : env.
Variable P : state -> Prop.
Variable ids : list string.

Hypothesis P_bump : forall s, P s -> P (bump s).
Hypothesis P_logged :
  forall o ok s, o <> Connect -> o <> Close -> P s -> P (logged o ok s).
Hypothesis P_upserts :
  (forall n, faults e Executemany n = true)
  \/ (forall vs s, Forall (fun v : string * row => v.1 ∈ ids) vs -> P s ->
        P (set_txn (fun t => foldl (fun t v => upsert v t) t vs) s)).
Hypothesis P_insert :
  (forall n, faults e Execute n = true)
  \/ (forall v s, v.1 ∈ ids -> P s -> P (set_txn (insert_or_ignore v) s)).
Hypothesis P_publish :
  (forall n, faults e Commit n = true) \/ (forall s, P s -> P (publish s)).
Hypothesis P_discard : forall s, P s -> P (discard s).

Lemma keeps_call (o : op) (effect : state -> state) :
  (forall ok s, P s -> P (logged o ok s)) ->
  (forall n, faults e o n = true) \/ (forall s, P s -> P (effect s)) ->
  keeps P (call e o effect).
Proof.
  intros Hl He s Hs. unfold call. destruct (faults e o (tick s)) eqn:Hf; cbn [negb snd].
  - apply (Hl false), Hs.
  - destruct He as [He|He]; [rewrite He in Hf; discriminate|].
    apply He, (Hl true), Hs.
Qed.

Lemma keeps_values_of (trial : Trial.t) : keeps P (values_of e trial).
Proof.
  intros s Hs. unfold values_of, bind, last_updated_value, now, ret.
  destruct (Trial.last_changed trial); cbn [snd]; [exact Hs|apply P_bump, Hs].
Qed.

Lemma keeps_values_list_of (trials : list Trial.t) : keeps P (values_list_of e trials).
Proof.
  induction trials as [|trial rest IH]; cbn [values_list_of].
  - apply keeps_ret.
  - apply keeps_bind; [apply keeps_values_of|]. intros v.
    apply keeps_bind; [exact IH|]. intros vs. apply keeps_ret.
Qed.

Lemma values_list_of_keys (trials : list Trial.t) (s s' : state)
    (vs : list (string * row)) :
  values_list_of e trials s = (Ok vs, s') -> vs.*1 = Trial.id <$> trials.
Proof.
  revert s s' vs. induction trials as [|trial rest IH]; intros s s' vs;
    cbn [values_list_of].
  - unfold ret. intros [= <- _]. reflexivity.
  - unfold bind at 1.
    destruct (values_of_returns e trial s) as (v & s1 & -> & Hv).
    unfold bind. destruct (values_list_of e rest s1) as [[more|x] s2] eqn:Hrest;
      [|discriminate].
    unfold ret. intros [= <- _]. rewrite !fmap_cons.
    f_equal; [exact Hv|]. exact (IH _ _ _ Hrest).
Qed.

Lemma keeps_cursor : keeps P (Db.cursor e).
Proof.
  apply keeps_call; [intros ok s; now apply P_logged|]. right. intros s Hs. exact Hs.
Qed.

Lemma keeps_commit : keeps P (commit e).
Proof. apply keeps_call; [intros ok s; now apply P_logged|exact P_publish]. Qed.

Lemma keeps_rollback : keeps P (rollback e).
Proof.
  apply keeps_call; [intros ok s; now apply P_logged|]. right. exact P_discard.
Qed.

Lemma keeps_batch_insert (trials : list Trial.t) :
  Forall (fun k => k ∈ ids) (Trial.id <$> trials) ->
  keeps P (batch_insert e trials).
Proof.
  intros Hids s Hs. unfold batch_insert, bind at 1.
  pose proof (keeps_values_list_of trials s Hs) as H1.
  destruct (values_list_of e trials s) as [[vs|x] s1] eqn:Hvs; cbn [snd] in *; [|exact H1].
  apply values_list_of_keys in Hvs.
  revert s1 H1. apply keeps_bind; [apply keeps_cursor|]. intros _.
  apply keeps_bind.
  - apply keeps_call; [intros ok s1; now apply P_logged|].
    destruct P_upserts as [Hf|Hu]; [left; exact Hf|right].
    intros s1. apply Hu. rewrite <- Hvs in Hids.
    now apply Forall_fmap in Hids.
  - intros _. apply keeps_bind; [apply keeps_commit|]. intros _. apply keeps_ret.
Qed.

Lemma keeps_single_insert (trial : Trial.t) :
  Trial.id trial ∈ ids -> keeps P (single_insert e trial).
Proof.
  intros Hid s Hs. unfold single_insert, bind at 1.
  pose proof (keeps_values_of trial s Hs) as H1.
  destruct (values_of_returns e trial s) as (v & s1 & Hv & Hk).
  rewrite Hv in *. cbn [snd] in *.
  revert s1 H1 Hv. intros s1 H1 _. revert s1 H1.
  apply keeps_bind; [apply keeps_cursor|]. intros _.
  apply keeps_bind; [|intros _; apply keeps_commit].
  apply keeps_call; [intros ok s1; now apply P_logged|].
  destruct P_insert as [Hf|Hi]; [left; exact Hf|right].
  intros s1. apply Hi. now rewrite Hk.
Qed.

Lemma keeps_fallback (trials : list Trial.t) (saved_count : Z) :
  Forall (fun k => k ∈ ids) (Trial.id <$> trials) ->
  keeps P (fallback e trials saved_count).
Proof.
  revert saved_count. induction trials as [|trial rest IH]; intros saved_count Hids.
  - apply keeps_ret.
  - cbn [fallback]. rewrite fmap_cons in Hids. apply Forall_cons in Hids as [Hid Hrest].
    apply keeps_bind; [|intros k; now apply IH].
    apply keeps_try_except.
    + apply keeps_bind; [now apply keeps_single_insert|]. intros _. apply keeps_ret.
    + apply keeps_bind; [apply keeps_rollback|]. intros _. apply keeps_ret.
Qed.

(** The two [try] blocks of the writer, between [connect] and [close]. *)
Lemma keeps_writer_body (trials : list Trial.t) :
  Forall (fun k => k ∈ ids) (Trial.id <$> trials) ->
  keeps P (try_except (batch_insert e trials) (rollback e >> fallback e trials 0)).
Proof.
  intros Hids. apply keeps_try_except; [now apply keeps_batch_insert|].
  apply keeps_bind; [apply keeps_rollback|]. intros _. now apply keeps_fallback.
Qed.

(** The writer from the moment it is connected. *)
Lemma keeps_connected (trials : list Trial.t) :
  (forall ok s, P s -> P (logged Close ok s)) ->
  Forall (fun k => k ∈ ids) (Trial.id <$> trials) ->
  keeps P (try_finally
             (try_except (batch_insert e trials) (rollback e >> fallback e trials 0))
             (close e)).
Proof.
  intros Hclose Hids. apply keeps_try_finally; [now apply keeps_writer_body|].
  apply keeps_call; [exact Hclose|]. right. exact P_discard.
Qed.

End Body.

Lemma Forall_elem_of_self (ids : list string) : Forall (fun k => k ∈ ids) ids.
Proof. apply Forall_forall. intros k Hk. exact Hk. Qed.

Lemma foldl_upsert_other (vs : list (string * row)) (t : gmap string row) (k : string) :
  k ∉ vs.*1 -> foldl (fun t v => upsert v t) t vs !! k = t !! k.
Proof.
  revert t. induction vs as [|v vs IH]; intros t Hk; [reflexivity|].
  cbn [foldl]. rewrite fmap_cons in Hk. apply not_elem_of_cons in Hk as [Hne Hk].
  rewrite IH by exact Hk. unfold upsert. now rewrite lookup_insert_ne.
Qed.

Lemma foldl_upsert_dom (vs : list (string * row)) (t : gmap string row) :
  dom (foldl (fun t v => upsert v t) t vs) = dom t ∪ list_to_set vs.*1.
Proof.
  revert t. induction vs as [|v vs IH]; intros t.
  - cbn. set_solver.
  - cbn [foldl]. rewrite IH. unfold upsert. rewrite dom_insert_L, fmap_cons.
    cbn [list_to_set]. set_solver.
Qed.

Lemma insert_or_ignore_other (v : string * row) (t : gmap string row) (k : string) :
  k <> v.1 -> insert_or_ignore v t !! k = t !! k.
Proof.
  intros Hk. unfold insert_or_ignore. destruct (t !! v.1); [reflexivity|].
  now rewrite lookup_insert_ne.
Qed.

Lemma insert_or_ignore_grows (v : string * row) (t : gmap string row) :
  t ⊆ insert_or_ignore v t.
Proof.
  unfold insert_or_ignore. destruct (t !! v.1) eqn:Hv; [reflexivity|].
  now apply insert_subseteq.
Qed.

(** The writer connects first: when that fails the attempt is all that
    happens, and otherwise the rest runs on a new transaction. *)
Lemma writer_steps (e : env) (trials : list Trial.t) (s : state) :
  trials <> [] ->
  (save_trials_to_db e trials s).2
  = if faults e Connect (tick s) then logged Connect false s
    else (try_finally
            (try_except (batch_insert e trials) (rollback e >> fallback e trials 0))
            (close e) (discard (logged Connect true s))).2.
Proof.
  intros Hne. destruct trials as [|trial rest]; [done|].
  rewrite save_trials_to_db_nonempty. generalize (trial :: rest). intros trials.
  unfold bind at 1, connect, try_except, bind at 1, ret at 1, call.
  destruct (faults e Connect (tick s)); reflexivity.
Qed.

(** X9. Whatever fails, and whether the writer returns or raises, it
    deletes no row, and the rows whose key is not the [id] of a record of
    the batch are after the call what they were before it. *)
Theorem writer_touches_only_its_rows (e : env) (trials : list Trial.t) (s : state) :
  let s' := (save_trials_to_db e trials s).2 in
  dom (table s) ⊆ dom (table s')
  /\ (forall k, k ∉ Trial.id <$> trials -> table s' !! k = table s !! k).
Proof.
  cbn zeta. destruct trials as [|trial rest]; [done|].
  rewrite writer_steps by done. generalize (trial :: rest). intros trials.
  destruct (faults e Connect (tick s)); [done|].
  set (ids := Trial.id <$> trials).
  set (P := fun s1 : state =>
              (dom (table s) ⊆ dom (table s1) /\ dom (table s) ⊆ dom (txn s1))
              /\ (forall k, k ∉ ids -> table s1 !! k = table s !! k)
              /\ (forall k, k ∉ ids -> txn s1 !! k = table s !! k)).
  enough (HP : keeps P (try_finally
                          (try_except (batch_insert e trials)
                                      (rollback e >> fallback e trials 0))
                          (close e))).
  { destruct (HP (discard (logged Connect true s))) as ([Hd _] & Hk & _); [done|].
    split; assumption. }
  apply (keeps_connected e P ids).
  - intros s1 H. exact H.
  - intros o ok s1 _ _ H. exact H.
  - right. intros vs s1 Hvs ([Hd Hxd] & Hk & Hxk). split; [split|split]; cbn; try done.
    + rewrite foldl_upsert_dom. set_solver.
    + intros k Hkn. rewrite foldl_upsert_other; [now apply Hxk|].
      intros Hin. apply Hkn. apply list_elem_of_fmap in Hin as (v & -> & Hv).
      eapply Forall_forall in Hvs; [exact Hvs|exact Hv].
  - right. intros v s1 Hv ([Hd Hxd] & Hk & Hxk). split; [split|split]; cbn; try done.
    + etrans; [exact Hxd|]. apply subseteq_dom, insert_or_ignore_grows.
    + intros k Hkn. rewrite insert_or_ignore_other; [now apply Hxk|].
      intros ->. now apply Hkn.
  - right. intros s1 ([Hd Hxd] & Hk & Hxk). done.
  - intros s1 ([Hd Hxd] & Hk & Hxk). done.
  - intros ok s1 H. exact H.
  - apply Forall_elem_of_self.
Qed.

(** X10. When the batch statement is refused, the per-record path adds
    rows and changes none: every row that was in the table is there
    afterwards, as it was, also for the records of the batch. *)
Theorem refused_batch_keeps_rows (e : env) (trials : list Trial.t) (s : state) :
  (forall n, faults e Executemany n = true) ->
  table s ⊆ table (save_trials_to_db e trials s).2.
Proof.
  intros Hrefused. destruct trials as [|trial rest]; [done|].
  rewrite writer_steps by done. generalize (trial :: rest). intros trials.
  destruct (faults e Connect (tick s)); [done|].
  set (P := fun s1 : state => table s ⊆ table s1 /\ table s ⊆ txn s1).
  enough (HP : keeps P (try_finally
                          (try_except (batch_insert e trials)
                                      (rollback e >> fallback e trials 0))
                          (close e))).
  { destruct (HP (discard (logged Connect true s))) as [Ht _]; [done|]. exact Ht. }
  apply (keeps_connected e P (Trial.id <$> trials)).
  - intros s1 H. exact H.
  - intros o ok s1 _ _ H. exact H.
  - left. exact Hrefused.
  - right. intros v s1 _ [Ht Hx]. split; [exact Ht|]. cbn.
    etrans; [exact Hx|]. apply insert_or_ignore_grows.
  - right. intros s1 [Ht Hx]. done.
  - intros s1 [Ht Hx]. done.
  - intros ok s1 H. exact H.
  - apply Forall_elem_of_self.
Qed.

Lemma refused_batch_keeps_rows_witness :
  table Cases.stocked
  ⊆ table (save_trials_to_db Samples.batch_refusing
             [Cases.dated "NCT01" "COMPLETED" 200; Cases.dated "NCT02" "RECRUITING" 300]
             Cases.stocked).2.
Proof.
  apply (refused_batch_keeps_rows Samples.batch_refusing
           [Cases.dated "NCT01" "COMPLETED" 200; Cases.dated "NCT02" "RECRUITING" 300]
           Cases.stocked).
  intros n. reflexivity.
Defined.

Section Uncommitted.

Variable e : env.
Hypothesis commit_fails : forall n, faults e Commit n = true.

Lemma batch_insert_uncommitted (trials : list Trial.t) (s : state) :
  exists x s', batch_insert e trials s = (Raise x, s').
Proof.
  unfold batch_insert, bind.
  destruct (values_list_of_returns e trials s) as (vs & s1 & ->).
  destruct (Db.cursor e s1) as [[[]|] s2]; [|eauto].
  destruct (executemany e vs s2) as [[[]|] s3]; [|eauto].
  unfold commit. rewrite call_fails by apply commit_fails. eauto.
Qed.

Lemma single_insert_uncommitted (trial : Trial.t) (s : state) :
  exists x s', single_insert e trial s = (Raise x, s').
Proof.
  unfold single_insert, bind.
  destruct (values_of_returns e trial s) as (v & s1 & -> & _).
  destruct (Db.cursor e s1) as [[[]|] s2]; [|eauto].
  destruct (execute e v s2) as [[[]|] s3]; [|eauto].
  unfold commit. rewrite call_fails by apply commit_fails. eauto.
Qed.

Lemma fallback_uncommitted (trials : list Trial.t) (k n : Z) (s s' : state) :
  fallback e trials k s = (Ok n, s') -> n = k.
Proof.
  revert s. induction trials as [|trial rest IH]; intros s.
  - cbn. unfold ret. congruence.
  - cbn [fallback]. unfold bind at 1, try_except, bind at 1.
    destruct (single_insert_uncommitted trial s) as (x & s1 & ->).
    unfold bind. destruct (rollback e s1) as [[[]|] s2]; [|discriminate].
    unfold ret. apply IH.
Qed.

Lemma writer_uncommitted (trials : list Trial.t) (s : state) (n : Z) (s' : state) :
  save_trials_to_db e trials s = (Ok n, s') -> n = 0.
Proof.
  destruct trials as [|trial rest]; [cbn; unfold ret; congruence|].
  rewrite save_trials_to_db_nonempty. generalize (trial :: rest). intros trials.
  unfold bind at 1. destruct (connect e s) as [[[|]|x] s1]; cbn [negb];
    [|unfold ret; congruence|discriminate].
  unfold try_finally, try_except.
  destruct (batch_insert_uncommitted trials s1) as (x & s2 & ->).
  unfold bind. destruct (rollback e s2) as [[[]|] s3].
  - destruct (fallback e trials 0 s3) as [[k|y] s4] eqn:Hfb.
    + apply fallback_uncommitted in Hfb. subst k.
      destruct (close e s4) as [[[]|] s5]; congruence.
    + destruct (close e s4) as [[[]|] s5]; congruence.
  - destruct (close e s3) as [[[]|] s4]; congruence.
Qed.

End Uncommitted.

(** X11. On a database that accepts no commit the writer writes nothing:
    the table is after the call what it was before it, and the writer
    reports no record (it returns 0, or raises). *)
Theorem uncommitted_writes_nothing (e : env) (trials : list Trial.t) (s : state) :
  (forall n, faults e Commit n = true) ->
  table (save_trials_to_db e trials s).2 = table s
  /\ ((save_trials_to_db e trials s).1 = Ok 0
      \/ exists x, (save_trials_to_db e trials s).1 = Raise x).
Proof.
  intros Hcommit. split.
  - destruct trials as [|trial rest]; [done|].
    rewrite writer_steps by done. generalize (trial :: rest). intros trials.
    destruct (faults e Connect (tick s)); [done|].
    set (P := fun s1 : state => table s1 = table s).
    enough (HP : keeps P (try_finally
                            (try_except (batch_insert e trials)
                                        (rollback e >> fallback e trials 0))
                            (close e))).
    { apply (HP (discard (logged Connect true s))). done. }
    apply (keeps_connected e P (Trial.id <$> trials)).
    + intros s1 H. exact H.
    + intros o ok s1 _ _ H. exact H.
    + right. intros vs s1 _ H. exact H.
    + right. intros v s1 _ H. exact H.
    + left. exact Hcommit.
    + intros s1 H. exact H.
    + intros ok s1 H. exact H.
    + apply Forall_elem_of_self.
  - destruct (save_trials_to_db e trials s) as [[n|x] s'] eqn:Hsave; [left|right; eauto].
    cbn. f_equal. exact (writer_uncommitted e Hcommit trials s n s' Hsave).
Qed.

Lemma uncommitted_writes_nothing_witness :
  table (save_trials_to_db Cases.uncommitted
           [Cases.dated "NCT01" "COMPLETED" 200; Samples.undated "NCT02"]
           Cases.stocked).2
  = table Cases.stocked
  /\ ((save_trials_to_db Cases.uncommitted
         [Cases.dated "NCT01" "COMPLETED" 200; Samples.undated "NCT02"]
         Cases.stocked).1 = Ok 0
      \/ exists x,
           (save_trials_to_db Cases.uncommitted
              [Cases.dated "NCT01" "COMPLETED" 200; Samples.undated "NCT02"]
              Cases.stocked).1 = Raise x).
Proof.
  apply (uncommitted_writes_nothing Cases.uncommitted
           [Cases.dated "NCT01" "COMPLETED" 200; Samples.undated "NCT02"]
           Cases.stocked).
  intros n. reflexivity.
Defined.

Lemma connects_snoc (l : list event) (o : op) (ok : bool) :
  connects (l ++ [Call o ok])
  = (connects l + match o with Connect => 1 | _ => 0 end)%nat.
Proof.
  unfold connects. rewrite List.filter_app, length_app. destruct o; reflexivity.
Qed.

Lemma closes_snoc (l : list event) (o : op) (ok : bool) :
  closes (l ++ [Call o ok])
  = (closes l + match o with Close => 1 | _ => 0 end)%nat.
Proof.
  unfold closes. rewrite List.filter_app, length_app. destruct o; reflexivity.
Qed.

(** X12. The writer closes the connection that it opens, whatever fails in
    between and whether it returns or raises: called with a batch that is
    not empty it tries to connect once; if that fails nothing else is
    called, and otherwise [close] is called exactly once, as the last call
    of all. *)
Theorem writer_closes_what_it_opens (e : env) (trial : Trial.t)
    (rest : list Trial.t) (s : state) :
  let s' := (save_trials_to_db e (trial :: rest) s).2 in
  if faults e Connect (tick s)
  then log s' = log s ++ [Call Connect false]
  else connects (log s') = S (connects (log s))
       /\ closes (log s') = S (closes (log s))
       /\ exists ok, last (log s') = Some (Call Close ok).
Proof.
  cbn zeta. rewrite writer_steps by done. generalize (trial :: rest). intros trials.
  destruct (faults e Connect (tick s)); [reflexivity|].
  set (s1 := discard (logged Connect true s)).
  set (P := fun s2 : state =>
              connects (log s2) = S (connects (log s))
              /\ closes (log s2) = closes (log s)).
  assert (H1 : P s1).
  { split; unfold s1, discard, logged; cbn [log];
      [rewrite connects_snoc; lia|rewrite closes_snoc; lia]. }
  assert (Hbody : keeps P (try_except (batch_insert e trials)
                                      (rollback e >> fallback e trials 0))).
  { apply (keeps_writer_body e P (Trial.id <$> trials)).
    - intros s2 H. exact H.
    - intros o ok s2 Ho Hc [Hn Hm]. split; unfold logged; cbn [log].
      + rewrite connects_snoc, Hn. destruct o; try lia. done.
      + rewrite closes_snoc, Hm. destruct o; try lia. done.
    - right. intros vs s2 _ H. exact H.
    - right. intros v s2 _ H. exact H.
    - right. intros s2 H. exact H.
    - intros s2 H. exact H.
    - apply Forall_elem_of_self. }
  specialize (Hbody s1 H1). clearbody s1. unfold try_finally.
  destruct (try_except (batch_insert e trials) (rollback e >> fallback e trials 0) s1)
    as [r s2].
  cbn [snd] in Hbody. destruct Hbody as [Hn Hm].
  unfold close, call.
  destruct (faults e Close (tick s2)); cbv beta iota zeta;
    cbn [negb snd discard log];
    rewrite connects_snoc, closes_snoc, last_snoc, Hn, Hm;
    (split; [lia|split; [lia|eauto]]).
Qed.

Lemma values_list_of_rows (e : env) (trials : list Trial.t) (s s' : state)
    (vs : list (string * row)) :
  values_list_of e trials s = (Ok vs, s') ->
  Forall2 (fun trial v =>
             v.1 = Trial.id trial
             /\ forall d, Trial.last_changed trial = Some d -> v.2 = row_of trial d)
          trials vs.
Proof.
  revert s s' vs. induction trials as [|trial rest IH]; intros s s' vs;
    cbn [values_list_of].
  - unfold ret. intros [= <- _]. constructor.
  - unfold bind at 1, values_of, bind at 1, last_updated_value, now, ret at 1.
    destruct (Trial.last_changed trial) as [d|] eqn:Hd; unfold ret at 1, bind at 1.
    + destruct (values_list_of e rest s) as [[more|x] s2] eqn:Hrest; [|discriminate].
      unfold ret. intros [= <- _]. constructor; [|exact (IH _ _ _ Hrest)].
      split; [reflexivity|]. intros d' Heq. rewrite Hd in Heq. injection Heq as <-.
      reflexivity.
    + destruct (values_list_of e rest (bump s)) as [[more|x] s2] eqn:Hrest;
        [|discriminate].
      unfold ret. intros [= <- _]. constructor; [|exact (IH _ _ _ Hrest)].
      split; [reflexivity|]. intros d' Heq. rewrite Hd in Heq. discriminate.
Qed.

Lemma foldl_upsert_last (before : list (string * row)) (v : string * row)
    (after : list (string * row)) (t : gmap string row) :
  v.1 ∉ after.*1 ->
  foldl (fun t v => upsert v t) t (before ++ v :: after) !! v.1 = Some v.2.
Proof.
  intros Hlast. rewrite foldl_app. cbn [foldl].
  rewrite foldl_upsert_other by exact Hlast. unfold upsert. apply lookup_insert_eq.
Qed.

(** On a database where nothing fails the table is, after the call, the
    table before it with the tuples of the batch upserted in order. *)
Lemma writer_healthy_table (e : env) (trial : Trial.t) (rest : list Trial.t)
    (s : state) :
  (forall o n, faults e o n = false) ->
  exists vs s1,
    values_list_of e (trial :: rest) (discard (logged Connect true s)) = (Ok vs, s1)
    /\ table (save_trials_to_db e (trial :: rest) s).2
       = foldl (fun t v => upsert v t) (table s) vs.
Proof.
  intros Hh. rewrite writer_steps by done. generalize (trial :: rest). intros trials.
  rewrite Hh. unfold try_finally, try_except, batch_insert, bind at 1.
  set (s0 := discard (logged Connect true s)).
  assert (Hkeep : keeps (fun s1 => txn s1 = table s) (values_list_of e trials)).
  { apply keeps_values_list_of. intros s1 H. exact H. }
  specialize (Hkeep s0 eq_refl).
  destruct (values_list_of_returns e trials s0) as (vs & s1 & Hvs).
  rewrite Hvs in *. cbn [snd] in Hkeep. exists vs, s1. split; [reflexivity|].
  unfold bind, Db.cursor, executemany, commit, close.
  rewrite call_ok by apply Hh. cbn [id].
  rewrite call_ok by apply Hh.
  rewrite call_ok by apply Hh. unfold ret.
  rewrite call_ok by apply Hh.
  cbn [snd discard publish set_txn table txn]. now rewrite Hkeep.
Qed.

(** X13. On a database where nothing fails the writer reports every record
    of the batch; afterwards the keys of the table are those it had and the
    ids of the batch, and the row of a dated record that is the last of its
    id in the batch is the row of that record, whatever was there before. *)
Theorem healthy_write_upserts (e : env) (trials : list Trial.t) (s : state) :
  (forall o n, faults e o n = false) ->
  let s' := (save_trials_to_db e trials s).2 in
  (save_trials_to_db e trials s).1 = Ok (Z.of_nat (length trials))
  /\ dom (table s') = dom (table s) ∪ list_to_set (Trial.id <$> trials)
  /\ (forall before trial after d,
        trials = before ++ trial :: after ->
        Trial.id trial ∉ Trial.id <$> after ->
        Trial.last_changed trial = Some d ->
        table s' !! Trial.id trial = Some (row_of trial d)).
Proof.
  intros Hh. cbn zeta. split; [|split].
  - destruct (OrchestratorProps.writer_healthy e Hh trials s) as (s' & ->). reflexivity.
  - destruct trials as [|trial rest]; [cbn; set_solver|].
    destruct (writer_healthy_table e trial rest s Hh) as (vs & s1 & Hvs & ->).
    rewrite foldl_upsert_dom. now rewrite (values_list_of_keys e _ _ _ _ Hvs).
  - intros before trial after d Htrials Hlast Hd.
    destruct trials as [|first rest]; [now destruct before|].
    destruct (writer_healthy_table e first rest s Hh) as (vs & s1 & Hvs & ->).
    apply values_list_of_rows in Hvs. rewrite Htrials in Hvs.
    apply Forall2_app_inv_l in Hvs as (vs1 & vs2 & _ & Hvs2 & ->).
    apply Forall2_cons_inv_l in Hvs2 as (v & vs3 & [Hid Hrow] & Hafter & ->).
    rewrite <- Hid, <- (Hrow d Hd). apply foldl_upsert_last.
    rewrite Hid. enough (Hkeys : vs3.*1 = Trial.id <$> after) by now rewrite Hkeys.
    clear -Hafter. induction Hafter as [|t w ts ws [Hw _] _ IH]; [reflexivity|].
    rewrite !fmap_cons. now rewrite Hw, IH.
Qed.

Lemma healthy_write_upserts_witness :
  let trials := [Cases.dated "NCT01" "COMPLETED" 200; Samples.undated "NCT02";
                 Cases.dated "NCT01" "TERMINATED" 300] in
  let s' := (save_trials_to_db Samples.healthy trials Cases.stocked).2 in
  (save_trials_to_db Samples.healthy trials Cases.stocked).1 = Ok 3
  /\ dom (table s') = dom (table Cases.stocked) ∪ list_to_set (Trial.id <$> trials)
  /\ table s' !! "NCT01"
     = Some (row_of (Cases.dated "NCT01" "TERMINATED" 300) (Datetime.mk 300 None)).
Proof.
  intros trials s'.
  destruct (healthy_write_upserts Samples.healthy trials Cases.stocked)
    as (Hcount & Hdom & Hrows); [intros o n; reflexivity|].
  split; [exact Hcount|]. split; [exact Hdom|].
  apply (Hrows [Cases.dated "NCT01" "COMPLETED" 200; Samples.undated "NCT02"]
               (Cases.dated "NCT01" "TERMINATED" 300) [] (Datetime.mk 300 None)).
  - reflexivity.
  - apply not_elem_of_nil.
  - reflexivity.
Defined.

End WriterInvariants.

(** ** The limit and the batches of the orchestrator *)

Module OrchestratorLimit.
Import Db Ctgov WriterProps OrchestratorProps Notions.

Lemma batches_from_nil (batch_size : Z) (buffer : list Trial.t) :
  batches_from batch_size buffer [] = batches_from 0 buffer [].
Proof. reflexivity. Qed.

Section Reliable.

Variable e : env.
Hypothesis rollback_works : forall n, faults e Rollback n = false.
Hypothesis close_works : forall n, faults e Close n = false.

(** With a batch size other than zero the loop hands to the writer, in
    batches, the records up to the limit, and no other; the limit counts as
    1 when it is smaller. *)
Lemma consume_up_to_limit (max_trials batch_size : Z) (ending : option exn)
    (items batch : list Trial.t) (count total_saved : Z) (s : state) :
  batch_size <> 0 ->
  consume e items ending max_trials batch_size batch count total_saved s
  = write_all e
      (batches_from batch_size batch
         (take (Z.to_nat (Z.max 1 (max_trials - count))) items))
      total_saved s.
Proof.
  intros Hsize. apply Z.eqb_neq in Hsize. revert batch count total_saved s.
  induction items as [|trial rest IH]; intros batch count total_saved s.
  - rewrite take_nil. cbn [consume]. rewrite batches_from_nil. destruct ending.
    + apply rescue_eq.
    + rewrite flush_rest_eq by assumption. apply rescue_eq.
  - replace (Z.to_nat (Z.max 1 (max_trials - count)))
      with (S (Z.to_nat (Z.max 1 (max_trials - count)) - 1)) by lia.
    rewrite firstn_cons. cbn [consume batches_from]. rewrite Hsize.
    destruct (max_trials <=? count + 1) eqn:Hstop.
    + apply Z.leb_le in Hstop.
      replace (Z.to_nat (Z.max 1 (max_trials - count)) - 1)%nat with 0%nat by lia.
      rewrite take_0.
      destruct (batch_size <=? Z.of_nat (length (batch ++ [trial]))).
      * cbn [write_all batches_from]. unfold bind.
        destruct (writer_returns e (batch ++ [trial]) s rollback_works close_works)
          as (n & s' & -> & _).
        reflexivity.
      * rewrite batches_from_nil, flush_rest_eq by assumption. apply rescue_eq.
    + apply Z.leb_gt in Hstop.
      replace (Z.to_nat (Z.max 1 (max_trials - count)) - 1)%nat
        with (Z.to_nat (Z.max 1 (max_trials - (count + 1)))) by lia.
      destruct (batch_size <=? Z.of_nat (length (batch ++ [trial]))).
      * cbn [write_all]. unfold bind.
        destruct (writer_returns e (batch ++ [trial]) s rollback_works close_works)
          as (n & s' & -> & _).
        apply IH.
      * apply IH.
Qed.

End Reliable.

Lemma full_but_last_cons {A : Type} (size : nat) (batch : list A)
    (more : list (list A)) :
  (1 <= size)%nat -> length batch = size -> full_but_last size more ->
  full_but_last size (batch :: more).
Proof.
  intros Hsize Hlen Hmore. destruct more as [|next more]; cbn [full_but_last].
  - lia.
  - split; assumption.
Qed.

Lemma batches_from_sizes (batch_size : Z) (buffer items : list Trial.t) :
  (length buffer < Z.to_nat (Z.max 1 batch_size))%nat ->
  full_but_last (Z.to_nat (Z.max 1 batch_size)) (batches_from batch_size buffer items).
Proof.
  revert buffer. induction items as [|trial rest IH]; intros buffer Hbuffer.
  - destruct buffer as [|first buffer]; cbn [batches_from full_but_last]; [done|].
    cbn [length] in *. lia.
  - cbn [batches_from].
    destruct (batch_size <=? Z.of_nat (length (buffer ++ [trial]))) eqn:Hfull.
    + apply Z.leb_le in Hfull. rewrite length_app in Hfull. cbn [length] in Hfull.
      apply full_but_last_cons; [lia|rewrite length_app; cbn [length]; lia|].
      apply IH. cbn [length]. lia.
    + apply Z.leb_gt in Hfull. rewrite length_app in Hfull. cbn [length] in Hfull.
      apply IH. rewrite length_app. cbn [length]. lia.
Qed.

(** X14. Provided that the connection's [rollback] and [close] work and
    that the batch size is not zero, the orchestrator hands to the writer
    the first [max(1, max_trials)] records that the walker yields, in order
    and in batches, and no other record, whether the walker ends or raises,
    and returns the sum of what the writer reports; a limit of zero or less
    still lets one record through. On a database where nothing fails the
    total is the number of these records. *)
Theorem orchestrator_stops_at_limit (e : env) (endpoint : string)
    (parser : string -> option Datetime.t) (condition : string)
    (phase since : option string) (page_size max_trials batch_size : Z)
    (n n' : Requests.net) (s : state) (ys : list Trial.t) (ending : option exn) :
  (forall k, faults e Rollback k = false) ->
  (forall k, faults e Close k = false) ->
  batch_size <> 0 ->
  get_trials endpoint parser condition phase since page_size n
  = Some (Stream ys ending, n') ->
  let limit := Z.to_nat (Z.max 1 max_trials) in
  let outcome :=
    get_trials_and_save e endpoint parser condition phase since page_size
                        max_trials batch_size n s in
  outcome = Some (write_all e (batches_from batch_size [] (take limit ys)) 0 s)
  /\ concat (batches_from batch_size [] (take limit ys)) = take limit ys
  /\ ((forall o k, faults e o k = false) ->
      exists s', outcome = Some (Ok (Z.of_nat (min (length ys) limit)), s')).
Proof.
  intros Hrb Hcl Hsize Hwalk limit outcome.
  assert (Hout : outcome
                 = Some (write_all e (batches_from batch_size [] (take limit ys)) 0 s)).
  { unfold outcome, get_trials_and_save. rewrite Hwalk. cbn [yielded failure].
    f_equal. rewrite consume_up_to_limit by assumption.
    unfold limit. now rewrite Z.sub_0_r. }
  split; [exact Hout|]. split; [apply concat_batches_from|].
  intros Hhealthy.
  destruct (write_all_healthy e Hhealthy (batches_from batch_size [] (take limit ys)) 0 s)
    as (s' & Hs').
  exists s'. rewrite Hout, Hs', concat_batches_from. cbn [app].
  rewrite length_take. do 3 f_equal. lia.
Qed.

Lemma orchestrator_stops_at_limit_witness :
  exists (s' : state),
    get_trials_and_save Samples.healthy Samples.ENDPOINT Samples.calendar "diabetes"
      None None 50 0 5 (Samples.serving [Samples.broken_page]) Samples.fresh
    = Some (Ok 1, s')
    /\ dom (table s') = {["NCT-A"]}.
Proof.
  destruct (get_trials Samples.ENDPOINT Samples.calendar "diabetes" None None 50
              (Samples.serving [Samples.broken_page])) as [[[ys ending] n']|] eqn:Hwalk;
    [|vm_compute in Hwalk; discriminate].
  destruct (orchestrator_stops_at_limit Samples.healthy Samples.ENDPOINT
              Samples.calendar "diabetes" None None 50 0 5
              (Samples.serving [Samples.broken_page]) n' Samples.fresh ys ending)
    as (_ & _ & Hdone).
  - intros k. reflexivity.
  - intros k. reflexivity.
  - discriminate.
  - exact Hwalk.
  - destruct Hdone as (s' & Hs'); [intros o k; reflexivity|].
    exists s'. vm_compute in Hwalk. injection Hwalk as <- _ _.
    split; [exact Hs'|].
    vm_compute in Hs'. injection Hs' as <-. vm_compute. reflexivity.
Defined.

(** X15. Under the same proviso (the connection's [rollback] and [close]
    work, the batch size is not zero) the batches that the orchestrator
    hands to the writer hold [max(1, batch_size)] records each, except the
    last one, which holds between one and that many: no batch is empty, and
    a negative batch size means batches of one record. *)
Theorem orchestrator_batches (e : env) (max_trials batch_size : Z)
    (ending : option exn) (items : list Trial.t) (s : state) :
  (forall k, faults e Rollback k = false) ->
  (forall k, faults e Close k = false) ->
  batch_size <> 0 ->
  exists batches : list (list Trial.t),
    consume e items ending max_trials batch_size [] 0 0 s = write_all e batches 0 s
    /\ concat batches = take (Z.to_nat (Z.max 1 max_trials)) items
    /\ full_but_last (Z.to_nat (Z.max 1 batch_size)) batches.
Proof.
  intros Hrb Hcl Hsize.
  exists (batches_from batch_size [] (take (Z.to_nat (Z.max 1 max_trials)) items)).
  split; [|split].
  - rewrite consume_up_to_limit by assumption. now rewrite Z.sub_0_r.
  - apply concat_batches_from.
  - apply batches_from_sizes. cbn [length]. lia.
Qed.

Lemma orchestrator_batches_witness :
  exists batches : list (list Trial.t),
    consume Samples.healthy
      [Samples.undated "N1"; Samples.undated "N2"; Samples.undated "N3";
       Samples.undated "N4"; Samples.undated "N5"; Samples.undated "N6"]
      None 5 2 [] 0 0 Samples.fresh
    = write_all Samples.healthy batches 0 Samples.fresh
    /\ concat batches
       = [Samples.undated "N1"; Samples.undated "N2"; Samples.undated "N3";
          Samples.undated "N4"; Samples.undated "N5"]
    /\ full_but_last 2 batches.
Proof.
  apply (orchestrator_batches Samples.healthy 5 2 None
           [Samples.undated "N1"; Samples.undated "N2"; Samples.undated "N3";
            Samples.undated "N4"; Samples.undated "N5"; Samples.undated "N6"]
           Samples.fresh); [intros k; reflexivity..|discriminate].
Defined.

(** X23. With a batch size of zero the progress line after the first write
    divides by zero: the exception is caught with the buffer not yet
    cleared, so (the connection's [rollback] and [close] working) the first
    record is handed to the writer twice, no other record is handed over,
    and the total returned counts it twice; on a database where nothing
    fails the total is 2, whatever the walker yields after the first
    record. *)
Theorem zero_batch_size_repeats_first (e : env) (max_trials : Z)
    (ending : option exn) (trial : Trial.t) (rest : list Trial.t) (s : state) :
  (forall k, faults e Rollback k = false) ->
  (forall k, faults e Close k = false) ->
  consume e (trial :: rest) ending max_trials 0 [] 0 0 s
  = write_all e [[trial]; [trial]] 0 s
  /\ ((forall o k, faults e o k = false) ->
      exists s', consume e (trial :: rest) ending max_trials 0 [] 0 0 s = (Ok 2, s')).
Proof.
  intros Hrb Hcl.
  assert (Heq : consume e (trial :: rest) ending max_trials 0 [] 0 0 s
                = write_all e [[trial]; [trial]] 0 s).
  { cbn [consume app length write_all].
    change (0 <=? Z.of_nat 1) with true. change (0 =? 0) with true. cbv beta iota.
    unfold rescue, bind.
    destruct (writer_returns e [trial] s Hrb Hcl) as (n & s' & -> & _).
    destruct (save_trials_to_db e [trial] s') as [[m|x] s'']; reflexivity. }
  split; [exact Heq|]. intros Hhealthy.
  destruct (write_all_healthy e Hhealthy [[trial]; [trial]] 0 s) as (s' & Hs').
  exists s'. rewrite Heq. exact Hs'.
Qed.

Lemma zero_batch_size_repeats_first_witness :
  exists s',
    consume Samples.healthy
      [Samples.undated "N1"; Samples.undated "N2"; Samples.undated "N3"]
      None 100 0 [] 0 0 Samples.fresh
    = (Ok 2, s')
    /\ dom (table s') = {["N1"]}.
Proof.
  destruct (zero_batch_size_repeats_first Samples.healthy 100 None
              (Samples.undated "N1") [Samples.undated "N2"; Samples.undated "N3"]
              Samples.fresh) as [_ Hdone].
  - intros k. reflexivity.
  - intros k. reflexivity.
  - destruct Hdone as (s' & Hs'); [intros o k; reflexivity|].
    exists s'. split; [exact Hs'|].
    vm_compute in Hs'. injection Hs' as <-. vm_compute. reflexivity.
Defined.

End OrchestratorLimit.

(** ** Properties of the generators of [ctis.py] *)

Module CtisProps.
Import Requests Ctgov CtisTrials FetcherProps Notions CtisNotions.

Lemma _fetch_page_script (params : gmap string json) (n : net) :
  let out := Ctis._fetch_page params n in
  raises out.1 = false -> (length (script out.2) < length (script n))%nat.
Proof.
  cbn zeta. unfold Ctis._fetch_page, Tenacity.retry.
  apply (attempts_script Ctis.BASE_URL params Ctis._fetch_page_policy).
Qed.

Lemma ctis_walk_unfold (fuel : nat) (condition : string) (limit page_num records_fetched : Z)
    (n : net) :
  walk (S fuel) condition limit page_num records_fetched n
  = if negb (records_fetched <? limit) then Some (Stream [] None, n)
    else
      let params : gmap string json :=
        <["condition" := JStr condition]> (<["page" := JNum page_num]> ∅) in
      match Ctis._fetch_page params n with
      | (Raise e, n1) => Some (Stream [] (Some e), n1)
      | (Ok (JObj data), n1) =>
          let entries := default (JArr []) (data !! "entries") in
          if negb (truthy entries) then Some (Stream [] None, n1)
          else
            match iterate entries with
            | Raise e => Some (Stream [] (Some e), n1)
            | Ok items =>
                let '(page, fetched) := entries_loop items records_fetched limit in
                match failure page with
                | Some e => Some (page, n1)
                | None =>
                    match walk fuel condition limit (page_num + 1) fetched
                               (record Throttle n1) with
                    | Some (more, n2) =>
                        Some (Stream (yielded page ++ yielded more) (failure more), n2)
                    | None => None
                    end
                end
            end
      | (Ok _, n1) => Some (Stream [] (Some AttributeError), n1)
      end.
Proof. reflexivity. Qed.

(** The loop ends: one unit of fuel per scripted reply, and one more, is
    enough. *)
Lemma ctis_walk_total (fuel : nat) (condition : string) (limit page_num records_fetched : Z)
    (n : net) :
  (length (script n) < fuel)%nat ->
  is_Some (walk fuel condition limit page_num records_fetched n).
Proof.
  revert page_num records_fetched n.
  induction fuel as [|fuel IH]; intros page_num records_fetched n Hfuel; [lia|].
  rewrite ctis_walk_unfold. destruct (negb _); [eauto|]. cbn zeta.
  set (params := <["condition" := _]> _).
  pose proof (_fetch_page_script params n) as Hs. cbn zeta in Hs.
  destruct (Ctis._fetch_page params n) as [[data|x] n1]; [|eauto].
  cbn [fst snd raises] in Hs. specialize (Hs eq_refl).
  destruct data as [| | | | |data]; eauto.
  destruct (negb (truthy _)); [eauto|].
  destruct (iterate _) as [items|x]; [|eauto].
  destruct (entries_loop items records_fetched limit) as [page fetched].
  destruct (failure page); [eauto|].
  destruct (IH (page_num + 1) fetched (record Throttle n1)) as [[more n2] ->];
    [cbn; lia|eauto].
Qed.

(** The page loop counts what it yields and does not pass the limit. *)
Lemma entries_loop_count (items : list json) (records_fetched limit : Z) :
  let out := entries_loop items records_fetched limit in
  Z.of_nat (length (yielded out.1)) = out.2 - records_fetched
  /\ (records_fetched <= limit -> out.2 <= limit).
Proof.
  revert records_fetched. induction items as [|entry rest IH]; intros fetched; cbn zeta.
  - cbn. lia.
  - cbn [entries_loop]. destruct (limit <=? fetched) eqn:Hfull; [cbn; lia|].
    apply Z.leb_gt in Hfull.
    destruct (unified_of_entry "EU CTIS" entry) as [u|x]; [|cbn; lia].
    specialize (IH (fetched + 1)). cbn zeta in IH.
    destruct (entries_loop rest (fetched + 1) limit) as [s fetched'].
    cbn [fst snd yielded length] in *. lia.
Qed.

Lemma walk_bound (fuel : nat) (condition : string) (limit page_num records_fetched : Z)
    (n n' : net) (s : stream UnifiedStudy.t) :
  walk fuel condition limit page_num records_fetched n = Some (s, n') ->
  Z.of_nat (length (yielded s)) <= Z.max 0 (limit - records_fetched).
Proof.
  revert page_num records_fetched n n' s.
  induction fuel as [|fuel IH]; intros page_num fetched n n' s; [discriminate|].
  rewrite ctis_walk_unfold. destruct (fetched <? limit) eqn:Hgo; cbn [negb].
  2:{ intros [= <- _]. cbn. lia. }
  apply Z.ltb_lt in Hgo. cbn zeta.
  destruct (Ctis._fetch_page _ n) as [[data|x] n1]; [|intros [= <- _]; cbn; lia].
  destruct data as [| | | | |data]; try (intros [= <- _]; cbn; lia).
  destruct (negb (truthy _)); [intros [= <- _]; cbn; lia|].
  destruct (iterate _) as [items|x]; [|intros [= <- _]; cbn; lia].
  pose proof (entries_loop_count items fetched limit) as Hcount. cbn zeta in Hcount.
  destruct (entries_loop items fetched limit) as [page fetched'].
  cbn [fst snd] in Hcount. destruct Hcount as [Hlen Hle].
  destruct (failure page); [intros [= <- _]; lia|].
  destruct (walk fuel condition limit (page_num + 1) fetched' (record Throttle n1))
    as [[more n2]|] eqn:Hmore; [|discriminate].
  apply IH in Hmore. intros [= <- _]. cbn [yielded]. rewrite length_app. lia.
Qed.

(** X16. [get_trials] of [ctis.py] always comes to an end, and yields at
    most [limit] records; with a limit of zero or less it yields nothing
    and sends no request. *)
Theorem ctis_get_trials_bounded (condition : string) (limit : Z) (n : net) :
  exists (s : stream UnifiedStudy.t) (n' : net),
    get_trials condition limit n = Some (s, n')
    /\ (length (yielded s) <= Z.to_nat limit)%nat
    /\ (limit <= 0 -> s = Stream [] None /\ n' = n).
Proof.
  destruct (ctis_walk_total (S (length (script n))) condition limit 1 0 n) as [[s n'] Hwalk];
    [lia|].
  exists s, n'. split; [exact Hwalk|]. split.
  - apply walk_bound in Hwalk. lia.
  - intros Hlimit. unfold get_trials in Hwalk. rewrite ctis_walk_unfold in Hwalk.
    assert (Hstop : (0 <? limit) = false) by (apply Z.ltb_ge; lia).
    rewrite Hstop in Hwalk. cbn [negb] in Hwalk. injection Hwalk as <- <-. done.
Qed.

Lemma _fetch_page_good (params : gmap string json) (n : net) (j : json)
    (rest : list reply) :
  script n = Response 200 (Some j) :: rest ->
  Ctis._fetch_page params n
  = (Ok j, Requests.mk rest (log n ++ [Sent Ctis.BASE_URL params])).
Proof.
  intros Hn. unfold Ctis._fetch_page, Tenacity.retry.
  cbn [Tenacity.stop_after_attempt Ctis._fetch_page_policy].
  cbn [Tenacity.attempts_from]. unfold fetch_once, get. rewrite Hn. reflexivity.
Qed.

(** On valid entries the page loop yields their records until the limit is
    reached. *)
Lemma entries_loop_valid (items : list json) (records_fetched limit : Z) :
  Forall (fun entry => raises (unified_of_entry "EU CTIS" entry) = false) items ->
  records_fetched <= limit ->
  entries_loop items records_fetched limit
  = (Stream (records_of "EU CTIS" (take (Z.to_nat (limit - records_fetched)) items)) None,
     Z.min limit (records_fetched + Z.of_nat (length items))).
Proof.
  intros Hvalid. revert records_fetched.
  induction Hvalid as [|entry rest Hentry _ IH]; intros fetched Hle.
  - rewrite take_nil. cbn. do 2 f_equal. lia.
  - cbn [entries_loop]. destruct (limit <=? fetched) eqn:Hfull.
    + apply Z.leb_le in Hfull.
      replace (Z.to_nat (limit - fetched)) with 0%nat by lia. rewrite take_0.
      cbn. do 2 f_equal. lia.
    + apply Z.leb_gt in Hfull.
      replace (Z.to_nat (limit - fetched)) with (S (Z.to_nat (limit - (fetched + 1))))
        by lia.
      rewrite firstn_cons. unfold records_of at 1. cbn [omap list_omap].
      destruct (unified_of_entry "EU CTIS" entry) as [u|x]; [|discriminate].
      rewrite IH by lia. cbn [yielded failure]. f_equal. cbn [length]. lia.
Qed.

Lemma records_of_all (source : string) (items : list json) :
  Forall (fun entry => raises (unified_of_entry source entry) = false) items ->
  length (records_of source items) = length items.
Proof.
  induction 1 as [|entry rest Hentry _ IH]; [reflexivity|].
  unfold records_of. cbn [omap list_omap].
  destruct (unified_of_entry source entry); [|discriminate].
  cbn [length]. f_equal. exact IH.
Qed.

Lemma records_of_app (source : string) (l1 l2 : list json) :
  records_of source (l1 ++ l2) = records_of source l1 ++ records_of source l2.
Proof. unfold records_of. apply omap_app. Qed.

Section Pages.

Variable condition : string.
Variable limit : Z.

(** One page of valid entries: its records are yielded up to the limit, a
    pause follows, and the loop goes on to the next page number. *)
Lemma walk_page (fuel : nat) (page_num records_fetched : Z) (n : net)
    (body : gmap string json) (items : list json) (rest : list reply) :
  script n = Response 200 (Some (JObj body)) :: rest ->
  full_page body items ->
  records_fetched < limit ->
  walk (S fuel) condition limit page_num records_fetched n
  = (fun out : stream UnifiedStudy.t * net =>
       (Stream (records_of "EU CTIS" (take (Z.to_nat (limit - records_fetched)) items)
                ++ yielded out.1)
               (failure out.1), out.2))
      <$> walk fuel condition limit (page_num + 1)
               (Z.min limit (records_fetched + Z.of_nat (length items)))
               (record Throttle
                  (Requests.mk rest (log n ++ [Sent Ctis.BASE_URL (params_of condition page_num)]))).
Proof.
  intros Hn (Hentries & Hne & Hvalid) Hgo. rewrite ctis_walk_unfold.
  apply Z.ltb_lt in Hgo as Hgo'. rewrite Hgo'. cbn [negb]. cbn zeta.
  rewrite (_fetch_page_good _ n (JObj body) rest Hn).
  rewrite Hentries. cbn [default from_option id iterate].
  assert (Htruthy : truthy (JArr items) = true) by (destruct items; [done|reflexivity]).
  rewrite Htruthy. cbn [negb].
  rewrite entries_loop_valid by (assumption || lia). cbn [failure yielded].
  fold (params_of condition page_num).
  destruct (walk fuel _ _ _ _ _) as [[more n2]|]; reflexivity.
Qed.

(** A reply without entries ends the stream. *)
Lemma walk_empty_page (fuel : nat) (page_num records_fetched : Z) (n : net)
    (body : gmap string json) (rest : list reply) :
  script n = Response 200 (Some (JObj body)) :: rest ->
  truthy (default (JArr []) (body !! "entries")) = false ->
  records_fetched < limit ->
  walk (S fuel) condition limit page_num records_fetched n
  = Some (Stream [] None,
          Requests.mk rest (log n ++ [Sent Ctis.BASE_URL (params_of condition page_num)])).
Proof.
  intros Hn Hempty Hgo. rewrite ctis_walk_unfold.
  apply Z.ltb_lt in Hgo. rewrite Hgo. cbn [negb]. cbn zeta.
  rewrite (_fetch_page_good _ n (JObj body) rest Hn).
  now rewrite Hempty.
Qed.

Lemma pages_sent_snoc (l : list event) (url : string) (params : gmap string json) :
  pages_sent (l ++ [Sent url params; Throttle]) = pages_sent l ++ [params !! "page"].
Proof. unfold pages_sent. now rewrite omap_app. Qed.

(** The walk goes through pages of valid entries that do not reach the
    limit: their records are yielded in order, one request and one pause
    per page, with the page numbers counting up. *)
Lemma ctis_walk_through (earlier : list (gmap string json * list json)) :
  Forall (fun page => full_page page.1 page.2) earlier ->
  forall (page_num records_fetched : Z) (n : net) (tail : list reply),
    script n = served earlier ++ tail ->
    records_fetched + Z.of_nat (length (concat earlier.*2)) < limit ->
    exists n' : net,
      script n' = tail
      /\ requests_sent n' = (requests_sent n + length earlier)%nat
      /\ throttles (log n') = (throttles (log n) + length earlier)%nat
      /\ pages_sent (log n')
         = pages_sent (log n)
           ++ ((fun i : nat => Some (JNum (page_num + Z.of_nat i)))
                 <$> seq 0 (length earlier))
      /\ walk (S (length (script n))) condition limit page_num records_fetched n
         = (fun out : stream UnifiedStudy.t * net =>
              (Stream (records_of "EU CTIS" (concat earlier.*2) ++ yielded out.1)
                      (failure out.1), out.2))
             <$> walk (S (length tail)) condition limit
                      (page_num + Z.of_nat (length earlier))
                      (records_fetched + Z.of_nat (length (concat earlier.*2))) n'.
Proof.
  induction 1 as [|[body items] earlier Hpage _ IH];
    intros page_num fetched n tail Hn Hlimit.
  - exists n. cbn [served fmap list_fmap app] in Hn.
    repeat split; [exact Hn|cbn; lia|cbn; lia|cbn; now rewrite app_nil_r|].
    rewrite Hn. cbn [fmap list_fmap concat length]. rewrite !Z.add_0_r.
    destruct (walk _ _ _ _ _ _) as [[[ys f] n1]|]; reflexivity.
  - cbn [fst snd] in Hpage.
    change (served ((body, items) :: earlier) ++ tail)
      with (Response 200 (Some (JObj body)) :: served earlier ++ tail) in Hn.
    rewrite fmap_cons in Hlimit. cbn [concat snd] in Hlimit.
    rewrite length_app in Hlimit.
    set (n1 := Requests.mk (served earlier ++ tail)
                 (log n ++ [Sent Ctis.BASE_URL (params_of condition page_num)])).
    destruct (IH (page_num + 1) (fetched + Z.of_nat (length items))
                 (record Throttle n1) tail)
      as (n' & Hscript & Hreq & Hthr & Hpages & Hwalk); [reflexivity|lia|].
    exists n'. split; [exact Hscript|]. split.
    { rewrite Hreq. unfold record, n1. cbn [script log length].
      rewrite (WalkProps.requests_sent_log _ Throttle _ (script n)).
      rewrite (WalkProps.requests_sent_log (log n) _ _ (script n)). cbn [is_sent].
      destruct n; cbn; lia. }
    split.
    { rewrite Hthr. unfold record, n1. cbn [log]. rewrite !WalkProps.throttles_app.
      cbn. lia. }
    split.
    { rewrite Hpages. unfold record, n1. cbn [log]. rewrite <- app_assoc.
      cbn [app]. rewrite pages_sent_snoc, <- app_assoc. f_equal.
      cbn [length seq fmap list_fmap app]. f_equal.
      - unfold params_of. rewrite lookup_insert_ne by done.
        rewrite lookup_insert_eq. do 2 f_equal. lia.
      - rewrite <- seq_shift, <- list_fmap_compose. apply list_fmap_ext.
        intros i x _. cbn. do 2 f_equal. lia. }
    rewrite Hn. cbn [length].
    rewrite (walk_page _ page_num fetched n body items (served earlier ++ tail) Hn Hpage)
      by lia.
    fold n1.
    replace (Z.min limit (fetched + Z.of_nat (length items)))
      with (fetched + Z.of_nat (length items)) by lia.
    change (S (length (served earlier ++ tail)))
      with (S (length (script (record Throttle n1)))).
    rewrite Hwalk.
    replace (page_num + 1 + Z.of_nat (length earlier))
      with (page_num + Z.of_nat (S (length earlier))) by lia.
    replace (fetched + Z.of_nat (length items) + Z.of_nat (length (concat earlier.*2)))
      with (fetched + Z.of_nat (length (concat ((body, items) :: earlier).*2)))
      by (rewrite fmap_cons; cbn [concat snd]; rewrite length_app; lia).
    rewrite take_ge by lia.
    match goal with
    | |- _ <$> (_ <$> ?w) = _ => destruct w as [[[ys f] n2]|]; [|reflexivity]
    end.
    cbn [fmap option_fmap option_map yielded failure fst snd].
    rewrite fmap_cons. cbn [concat snd]. rewrite records_of_app.
    now rewrite app_assoc.
Qed.

End Pages.

(** X17. When the source serves pages of valid entries that together stay
    below the limit, and then a page without entries, [get_trials] of
    [ctis.py] yields the records of all entries in order and ends; it asks
    for the pages 1, 2, ... one after the other, one request per page and
    one more for the empty page, pauses once after each page with entries,
    and leaves the later replies unread. *)
Theorem ctis_get_trials_all_pages (condition : string) (limit : Z) (n : net)
    (earlier : list (gmap string json * list json)) (body : gmap string json)
    (rest : list reply) :
  Forall (fun page => full_page page.1 page.2) earlier ->
  truthy (default (JArr []) (body !! "entries")) = false ->
  script n = served earlier ++ Response 200 (Some (JObj body)) :: rest ->
  Z.of_nat (length (concat earlier.*2)) < limit ->
  exists n' : net,
    get_trials condition limit n
    = Some (Stream (records_of "EU CTIS" (concat earlier.*2)) None, n')
    /\ length (records_of "EU CTIS" (concat earlier.*2)) = length (concat earlier.*2)
    /\ script n' = rest
    /\ requests_sent n' = (requests_sent n + S (length earlier))%nat
    /\ throttles (log n') = (throttles (log n) + length earlier)%nat
    /\ pages_sent (log n')
       = pages_sent (log n)
         ++ ((fun i : nat => Some (JNum (1 + Z.of_nat i))) <$> seq 0 (S (length earlier))).
Proof.
  intros Hpages Hempty Hn Hlimit.
  destruct (ctis_walk_through condition limit earlier Hpages 1 0 n
              (Response 200 (Some (JObj body)) :: rest) Hn)
    as (n1 & Hscript & Hreq & Hthr & Hsent & Hwalk); [lia|].
  rewrite (walk_empty_page condition limit _ _ _ n1 body rest Hscript Hempty) in Hwalk
    by lia.
  eexists. split.
  { unfold get_trials. rewrite Hwalk.
    cbn [fmap option_fmap option_map yielded failure fst snd]. now rewrite app_nil_r. }
  split; [|split; [reflexivity|split; [|split]]].
  - apply records_of_all. apply Forall_concat, Forall_fmap.
    eapply Forall_impl; [exact Hpages|]. intros [b items] (_ & _ & Hvalid). exact Hvalid.
  - rewrite (WalkProps.requests_sent_log (log n1) _ _ (script n1)). cbn [is_sent].
    destruct n1; cbn in *; lia.
  - cbn [log]. rewrite WalkProps.throttles_app. cbn. lia.
  - cbn [log]. unfold pages_sent at 1. rewrite omap_app. fold (pages_sent (log n1)).
    rewrite Hsent, <- app_assoc. f_equal.
    rewrite seq_S, fmap_app. f_equal.
Qed.

Lemma ctis_get_trials_all_pages_witness :
  exists n' : net,
    get_trials "C90.0" 10
      (Samples.serving
         [JObj (Cases.entries_page [Cases.entry "EU-1" "ACTIVE"; Cases.entry "EU-2" "ENDED"]);
          JObj (Cases.entries_page [Cases.entry "EU-3" "ACTIVE"]);
          JObj ∅; JObj (Cases.entries_page [Cases.entry "EU-4" "ACTIVE"])])
    = Some (Stream (records_of "EU CTIS"
                      [Cases.entry "EU-1" "ACTIVE"; Cases.entry "EU-2" "ENDED";
                       Cases.entry "EU-3" "ACTIVE"]) None, n')
    /\ length (records_of "EU CTIS"
                 [Cases.entry "EU-1" "ACTIVE"; Cases.entry "EU-2" "ENDED";
                  Cases.entry "EU-3" "ACTIVE"]) = 3%nat
    /\ script n'
       = [Response 200 (Some (JObj (Cases.entries_page [Cases.entry "EU-4" "ACTIVE"])))]
    /\ requests_sent n' = 3%nat
    /\ throttles (log n') = 2%nat
    /\ pages_sent (log n') = [Some (JNum 1); Some (JNum 2); Some (JNum 3)].
Proof.
  apply (ctis_get_trials_all_pages "C90.0" 10
           (Samples.serving
              [JObj (Cases.entries_page [Cases.entry "EU-1" "ACTIVE"; Cases.entry "EU-2" "ENDED"]);
               JObj (Cases.entries_page [Cases.entry "EU-3" "ACTIVE"]);
               JObj ∅; JObj (Cases.entries_page [Cases.entry "EU-4" "ACTIVE"])])
           [(Cases.entries_page [Cases.entry "EU-1" "ACTIVE"; Cases.entry "EU-2" "ENDED"],
             [Cases.entry "EU-1" "ACTIVE"; Cases.entry "EU-2" "ENDED"]);
            (Cases.entries_page [Cases.entry "EU-3" "ACTIVE"],
             [Cases.entry "EU-3" "ACTIVE"])]
           ∅
           [Response 200 (Some (JObj (Cases.entries_page [Cases.entry "EU-4" "ACTIVE"])))]).
  - repeat constructor; try discriminate; vm_compute; reflexivity.
  - reflexivity.
  - reflexivity.
  - vm_compute. reflexivity.
Defined.

(** X18. When the limit is reached within a page of valid entries,
    [get_trials] of [ctis.py] yields exactly [limit] records, those of the
    first [limit] entries served, and ends without asking for another
    page: the entries after the limit are dropped and the later replies
    stay unread. *)
Theorem ctis_get_trials_stops_at_limit (condition : string) (limit : Z) (n : net)
    (earlier : list (gmap string json * list json)) (body : gmap string json)
    (items : list json) (rest : list reply) :
  Forall (fun page => full_page page.1 page.2) earlier ->
  full_page body items ->
  script n = served earlier ++ Response 200 (Some (JObj body)) :: rest ->
  Z.of_nat (length (concat earlier.*2)) < limit
  <= Z.of_nat (length (concat earlier.*2)) + Z.of_nat (length items) ->
  let entries := take (Z.to_nat limit) (concat earlier.*2 ++ items) in
  exists n' : net,
    get_trials condition limit n = Some (Stream (records_of "EU CTIS" entries) None, n')
    /\ length (records_of "EU CTIS" entries) = Z.to_nat limit
    /\ script n' = rest
    /\ requests_sent n' = (requests_sent n + S (length earlier))%nat.
Proof.
  intros Hpages Hpage Hn [Hlow Hhigh] entries.
  destruct (ctis_walk_through condition limit earlier Hpages 1 0 n
              (Response 200 (Some (JObj body)) :: rest) Hn)
    as (n1 & Hscript & Hreq & _ & _ & Hwalk); [lia|].
  cbn [length] in Hwalk.
  rewrite (walk_page condition limit _ _ _ n1 body items rest Hscript Hpage) in Hwalk
    by lia.
  rewrite (ctis_walk_unfold (length rest)) in Hwalk.
  replace (Z.min limit (0 + Z.of_nat (length (concat earlier.*2)) + Z.of_nat (length items)))
    with limit in Hwalk by lia.
  rewrite Z.ltb_irrefl in Hwalk. cbn [negb] in Hwalk.
  cbn [fmap option_fmap option_map yielded failure fst snd] in Hwalk.
  assert (Hentries : entries
                     = concat earlier.*2
                       ++ take (Z.to_nat (limit - (0 + Z.of_nat (length (concat earlier.*2)))))
                               items).
  { unfold entries. rewrite take_app_ge by lia. do 2 f_equal. lia. }
  eexists. split.
  { unfold get_trials. rewrite Hwalk, Hentries, records_of_app, !app_nil_r. reflexivity. }
  split; [|split; [reflexivity|]].
  - rewrite records_of_all.
    + unfold entries. rewrite length_take, length_app. lia.
    + unfold entries. apply Forall_take, Forall_app. split.
      * apply Forall_concat, Forall_fmap.
        eapply Forall_impl; [exact Hpages|]. intros [b its] (_ & _ & Hvalid). exact Hvalid.
      * destruct Hpage as (_ & _ & Hvalid). exact Hvalid.
  - unfold record. cbn [log script].
    rewrite (WalkProps.requests_sent_log _ Throttle _ rest).
    rewrite (WalkProps.requests_sent_log (log n1) _ _ (script n1)). cbn [is_sent].
    destruct n1; cbn in *; lia.
Qed.

Lemma ctis_get_trials_stops_at_limit_witness :
  exists n' : net,
    get_trials "C90.0" 3
      (Samples.serving
         [JObj (Cases.entries_page [Cases.entry "EU-1" "ACTIVE"; Cases.entry "EU-2" "ENDED"]);
          JObj (Cases.entries_page [Cases.entry "EU-3" "ACTIVE"; Cases.entry "EU-4" "ACTIVE"]);
          JObj (Cases.entries_page [Cases.entry "EU-5" "ACTIVE"])])
    = Some (Stream (records_of "EU CTIS"
                      [Cases.entry "EU-1" "ACTIVE"; Cases.entry "EU-2" "ENDED";
                       Cases.entry "EU-3" "ACTIVE"]) None, n')
    /\ length (records_of "EU CTIS"
                 [Cases.entry "EU-1" "ACTIVE"; Cases.entry "EU-2" "ENDED";
                  Cases.entry "EU-3" "ACTIVE"]) = 3%nat
    /\ script n'
       = [Response 200 (Some (JObj (Cases.entries_page [Cases.entry "EU-5" "ACTIVE"])))]
    /\ requests_sent n' = 2%nat.
Proof.
  apply (ctis_get_trials_stops_at_limit "C90.0" 3
           (Samples.serving
              [JObj (Cases.entries_page [Cases.entry "EU-1" "ACTIVE"; Cases.entry "EU-2" "ENDED"]);
               JObj (Cases.entries_page [Cases.entry "EU-3" "ACTIVE"; Cases.entry "EU-4" "ACTIVE"]);
               JObj (Cases.entries_page [Cases.entry "EU-5" "ACTIVE"])])
           [(Cases.entries_page [Cases.entry "EU-1" "ACTIVE"; Cases.entry "EU-2" "ENDED"],
             [Cases.entry "EU-1" "ACTIVE"; Cases.entry "EU-2" "ENDED"])]
           (Cases.entries_page [Cases.entry "EU-3" "ACTIVE"; Cases.entry "EU-4" "ACTIVE"])
           [Cases.entry "EU-3" "ACTIVE"; Cases.entry "EU-4" "ACTIVE"]
           [Response 200 (Some (JObj (Cases.entries_page [Cases.entry "EU-5" "ACTIVE"])))]).
  - repeat constructor; try discriminate; vm_compute; reflexivity.
  - repeat constructor; try discriminate; vm_compute; reflexivity.
  - reflexivity.
  - cbn. lia.
Defined.

Lemma fetch_once_good (url : string) (params : gmap string json) (n : net) (st : Z)
    (j : json) (rest : list reply) :
  script n = Response st (Some j) :: rest ->
  failing (Response st (Some j)) = false ->
  fetch_once url params n = (Ok j, Requests.mk rest (log n ++ [Sent url params])).
Proof.
  intros Hn Hgood. unfold fetch_once, get. rewrite Hn.
  unfold raise_for_status, json_body. cbn [fst snd].
  cbn [failing] in Hgood. apply orb_false_elim in Hgood as [-> _]. reflexivity.
Qed.

Lemma register_items_valid (studies : list json) :
  Forall (fun study => raises (unified_of_register study) = false) studies ->
  failure (register_items studies) = None
  /\ length (yielded (register_items studies)) = length studies.
Proof.
  induction 1 as [|study rest Hstudy _ [IHf IHl]]; [done|].
  cbn [register_items]. destruct (unified_of_register study); [|discriminate].
  cbn [yielded failure length]. split; [exact IHf|]. now rewrite IHl.
Qed.

(** X19. [get_trials_from_eu_register] sends exactly one request, without
    any retry, asking for page 1 and for at most 100 records, and never
    raises: whatever goes wrong ends the stream silently, and a request that
    fails yields nothing. The limit is only sent to the server: of a good
    reply every study is yielded, however many there are. *)
Theorem eu_register_single_request (condition : string) (limit : Z) (n : net) :
  let out := get_trials_from_eu_register condition limit n in
  failure out.1 = None
  /\ log out.2
     = log n ++ [Sent eu_register_url
                   (<["query" := JStr condition]>
                      (<["page" := JNum 1]> (<["limit" := JNum (Z.min limit 100)]> ∅)))]
  /\ script out.2 = drop 1 (script n)
  /\ (match script n with [] => true | r :: _ => failing r end = true ->
      yielded out.1 = [])
  /\ (forall st body studies rest,
        script n = Response st (Some (JObj body)) :: rest ->
        failing (Response st (Some (JObj body))) = false ->
        body !! "studies" = Some (JArr studies) ->
        Forall (fun study => raises (unified_of_register study) = false) studies ->
        length (yielded out.1) = length studies).
Proof.
  cbn zeta. unfold get_trials_from_eu_register, register_body.
  set (params := <["query" := _]> _).
  pose proof (fetch_once_script eu_register_url params n) as Hscript.
  pose proof (fetch_once_log eu_register_url params n) as Hlog.
  pose proof (fetch_once_fails eu_register_url params n) as Hfails.
  split; [|split; [|split; [|split]]].
  - destruct (fetch_once eu_register_url params n) as [[[| | | | |data]|x] n1];
      try reflexivity.
    destruct (iterate _); reflexivity.
  - destruct (fetch_once eu_register_url params n) as [[[| | | | |data]|x] n1];
      try exact Hlog.
    destruct (iterate _); exact Hlog.
  - destruct (fetch_once eu_register_url params n) as [[[| | | | |data]|x] n1];
      try exact Hscript.
    destruct (iterate _); exact Hscript.
  - intros Hbad. rewrite Hbad in Hfails.
    destruct (fetch_once eu_register_url params n) as [[j|x] n1]; [discriminate|].
    reflexivity.
  - intros st body studies rest Hn Hgood Hstudies Hvalid.
    rewrite (fetch_once_good _ _ n st (JObj body) rest Hn Hgood).
    rewrite Hstudies. cbn [default from_option id iterate yielded fst].
    now apply register_items_valid.
Qed.

End CtisProps.

(** ** Further properties of the harvester and of its Lambda entry point *)

Module HarvestProps.
Import CtisHarvester HarvestNotions HarvesterProps.

Lemma pauses_snoc (l : list event) (ev : event) :
  pauses (l ++ [ev])
  = pauses l ++ match ev with Backoff secs => [secs] | _ => [] end.
Proof. unfold pauses. rewrite omap_app. f_equal. destruct ev; reflexivity. Qed.

Lemma uploads_snoc (l : list event) (ev : event) :
  uploads (l ++ [ev])
  = uploads l ++ match ev with
                 | Uploaded local bucket key => [(local, bucket, key)]
                 | _ => []
                 end.
Proof. unfold uploads. rewrite omap_app. f_equal. destruct ev; reflexivity. Qed.

Lemma renames_snoc (l : list event) (ev : event) :
  renames (l ++ [ev])
  = (renames l + match ev with Renamed _ _ => 1 | _ => 0 end)%nat.
Proof.
  unfold renames. rewrite List.filter_app, length_app. destruct ev; reflexivity.
Qed.

Section Leads.

Variable e : env.

Lemma leads_call (P Q : state -> Prop) (c : callee) (ev : event)
    (effect : gset string -> gset string) :
  (forall s, P s -> Q (mk (S (tick s)) (files s) (log s ++ [Failed c]))) ->
  (forall s, P s -> Q (mk (S (tick s)) (effect (files s)) (log s ++ [ev]))) ->
  leads P Q (call e c ev effect).
Proof.
  intros Hfail Hok s Hs. unfold call. destruct (faults e c (tick s)); cbn [snd]; auto.
Qed.

Lemma leads_bind {A B : Type} (P Q R : state -> Prop) (c : M A) (k : A -> M B) :
  leads P Q c -> (forall a, leads Q R (k a)) -> (forall s, Q s -> R s) ->
  leads P R (bind c k).
Proof.
  intros Hc Hk Hweak s Hs. unfold bind. specialize (Hc s Hs).
  destruct (c s) as [[a|x] s1]; cbn [snd] in *; [apply Hk, Hc|apply Hweak, Hc].
Qed.

(** One call that keeps [P], followed by the rest. *)
Lemma leads_step {B : Type} (P Q : state -> Prop) (c : callee) (ev : event)
    (effect : gset string -> gset string) (rest : M B) :
  (forall s, P s -> P (mk (S (tick s)) (files s) (log s ++ [Failed c]))) ->
  (forall s, P s -> P (mk (S (tick s)) (effect (files s)) (log s ++ [ev]))) ->
  (forall s, P s -> Q s) ->
  leads P Q rest ->
  leads P Q (call e c ev effect >> rest).
Proof.
  intros Hfail Hok Hweak Hrest s Hs. unfold bind.
  pose proof (leads_call P P c ev effect Hfail Hok s Hs) as Hc.
  destruct (call e c ev effect s) as [[[]|x] s1]; cbn [snd] in *; auto.
Qed.

(** The [with] statement that raises, followed by the rest. *)
Lemma leads_expect_download {B : Type} (P Q : state -> Prop) (rest : M B) :
  (forall s, P s -> Q (mk (S (tick s)) (files s) (log s ++ [Failed Playwright]))) ->
  leads P Q (expect_download >> rest).
Proof. intros Hfail s Hs. unfold bind, expect_download. cbn [snd]. apply Hfail, Hs. Qed.

(** The session makes no pause and no upload. *)
Lemma session_quiet (out_path : path) (p0 : list Z)
    (u0 : list (string * string * string)) :
  leads (fun s => pauses (log s) = p0 /\ uploads (log s) = u0)
        (fun s => pauses (log s) = p0 /\ uploads (log s) = u0)
        (session e out_path).
Proof.
  unfold session.
  repeat (apply leads_step;
          [intros s [Hp Hu]; cbn [log]; rewrite pauses_snoc, uploads_snoc;
           cbn; rewrite !app_nil_r; split; assumption
          |intros s [Hp Hu]; cbn [log]; rewrite pauses_snoc, uploads_snoc;
           cbn; rewrite !app_nil_r; split; assumption
          |intros s H; exact H
          |]).
  apply leads_expect_download. intros s [Hp Hu]. cbn [log].
  rewrite pauses_snoc, uploads_snoc. cbn. rewrite !app_nil_r. split; assumption.
Qed.

(** The session moves the export into place once at most, and then the
    artifact is there. *)
Lemma session_renames (r0 : nat) :
  leads (fun s => renames (log s) = r0)
        (fun s => renames (log s) = r0
                  \/ (renames (log s) = S r0 /\ artifact e ∈ files s))
        (session e (today_path e)).
Proof.
  unfold session.
  do 8 (apply leads_step;
        [intros s Hr; cbn [log]; rewrite renames_snoc; cbn; lia
        |intros s Hr; cbn [log]; rewrite renames_snoc; cbn; lia
        |intros s H; left; exact H
        |]).
  apply leads_expect_download. intros s Hr. cbn [log]. rewrite renames_snoc. cbn.
  left. lia.
Qed.

End Leads.

Section Attempts.

Variable e : env.

Lemma upload_facts (s : state) :
  let out := upload_to_s3 e (today_path e) s in
  files out.2 = files s
  /\ pauses (log out.2) = pauses (log s)
  /\ renames (log out.2) = renames (log s)
  /\ match out.1 with
     | Ok r =>
         asked r = artifact_reference e
         /\ uploads (log out.2) = uploads (log s) ++ [the_upload e]
         /\ last (log out.2)
            = Some (Uploaded (artifact e) (S3_BUCKET e) (key (artifact_reference e)))
     | Raise _ => uploads (log out.2) = uploads (log s)
     end.
Proof.
  cbn zeta. unfold upload_to_s3, generate_presigned_url, bind, call.
  destruct (faults e Boto (tick s)); cbn [fst snd files log id asked];
    rewrite pauses_snoc, uploads_snoc, renames_snoc; cbn [app];
    rewrite ?app_nil_r, ?Nat.add_0_r; repeat split.
  apply last_snoc.
Qed.

(** One attempt: no pause; an upload when it returns and only then; the
    export is moved into place once at most, and not at all when the
    artifact is there already. *)
Lemma run_once_facts (s : state) :
  let out := run_once e s in
  pauses (log out.2) = pauses (log s)
  /\ match out.1 with
     | Ok r =>
         asked r = artifact_reference e
         /\ uploads (log out.2) = uploads (log s) ++ [the_upload e]
         /\ last (log out.2)
            = Some (Uploaded (artifact e) (S3_BUCKET e) (key (artifact_reference e)))
     | Raise _ => uploads (log out.2) = uploads (log s)
     end
  /\ (renames (log out.2) = renames (log s)
      \/ (renames (log out.2) = S (renames (log s)) /\ artifact e ∈ files out.2))
  /\ (artifact e ∈ files s ->
      renames (log out.2) = renames (log s) /\ artifact e ∈ files out.2).
Proof.
  cbn zeta. unfold run_once.
  destruct (bool_decide (path_str (today_path e) ∈ files s)) eqn:Hthere.
  - apply bool_decide_eq_true in Hthere.
    destruct (upload_facts s) as (Hfiles & Hp & Hr & Hu). cbn zeta in *.
    split; [exact Hp|]. split; [exact Hu|]. split; [left; exact Hr|].
    intros _. split; [exact Hr|]. rewrite Hfiles. exact Hthere.
  - apply bool_decide_eq_false in Hthere.
    pose proof (session_quiet e (today_path e) (pauses (log s)) (uploads (log s)) s
                  (conj eq_refl eq_refl)) as [Hp Hu].
    pose proof (session_renames e (renames (log s)) s eq_refl) as Hr.
    destruct (session e (today_path e) s) as [[[]|x] s1]; cbn [snd] in Hp, Hu, Hr.
    + destruct (upload_facts (note PlaywrightStopped s1)) as (Hfiles & Hp' & Hr' & Hu').
      cbn zeta in *.
      assert (Hnote : pauses (log (note PlaywrightStopped s1)) = pauses (log s1)
                      /\ uploads (log (note PlaywrightStopped s1)) = uploads (log s1)
                      /\ renames (log (note PlaywrightStopped s1)) = renames (log s1)).
      { unfold note. cbn [log]. rewrite pauses_snoc, uploads_snoc, renames_snoc.
        cbn. rewrite !app_nil_r. repeat split. lia. }
      destruct Hnote as (Hn1 & Hn2 & Hn3).
      split; [congruence|]. split.
      { destruct (upload_to_s3 e (today_path e) (note PlaywrightStopped s1)) as [[r|y] s2];
          cbn [fst snd] in *.
        - destruct Hu' as (Hr0 & Hu0 & Hl0). split; [exact Hr0|]. split; [congruence|].
          exact Hl0.
        - congruence. }
      split; [|intros Hin; contradiction].
      rewrite Hr', Hn3, Hfiles. unfold note. cbn [files]. exact Hr.
    + cbn [fst snd]. unfold note. cbn [log files].
      rewrite pauses_snoc, uploads_snoc, renames_snoc. cbn. rewrite !app_nil_r.
      split; [exact Hp|]. split; [exact Hu|]. split; [|intros Hin; contradiction].
      rewrite Nat.add_0_r. exact Hr.
Qed.

(** The attempts of one call of [run]. *)
Lemma attempts_facts (left k : nat) (s : state) :
  let out := Tenacity.attempts_from run_policy (run_once e)
               (fun secs => note (Backoff secs)) left k s in
  exists made : nat,
    (made <= left)%nat /\ (1 <= left -> 1 <= made)%nat
    /\ pauses (log out.2)
       = pauses (log s) ++ (Tenacity.wait_exponential run_policy <$> seq k (made - 1))
    /\ match out.1 with
       | Ok r =>
           asked r = artifact_reference e
           /\ uploads (log out.2) = uploads (log s) ++ [the_upload e]
           /\ last (log out.2)
              = Some (Uploaded (artifact e) (S3_BUCKET e) (key (artifact_reference e)))
       | Raise x => x = RetryError /\ made = left /\ uploads (log out.2) = uploads (log s)
       end
    /\ (renames (log out.2) <= S (renames (log s)))%nat
    /\ (artifact e ∈ files s ->
        renames (log out.2) = renames (log s) /\ artifact e ∈ files out.2).
Proof.
  revert k s. induction left as [|left IH]; intros k s; cbn zeta.
  - exists 0%nat. cbn. rewrite app_nil_r. repeat split; try lia. tauto.
  - cbn [Tenacity.attempts_from].
    destruct (run_once_facts s) as (Hp & Hu & Hr & Hthere). cbn zeta in *.
    destruct (run_once e s) as [[r|x] s1]; cbn [fst snd] in *.
    + exists 1%nat. cbn. rewrite app_nil_r.
      split; [lia|]. split; [lia|]. split; [exact Hp|]. split; [exact Hu|].
      split; [destruct Hr as [Hr|[Hr _]]; lia|exact Hthere].
    + destruct left as [|left'].
      * exists 1%nat. cbn. rewrite app_nil_r.
        split; [lia|]. split; [lia|]. split; [exact Hp|]. split; [auto|].
        split; [destruct Hr as [Hr|[Hr _]]; lia|exact Hthere].
      * set (s2 := note (Backoff (Tenacity.wait_exponential run_policy k)) s1).
        destruct (IH (S k) s2) as (made & Hle & Hge & Hp2 & Hu2 & Hr2 & Hthere2).
        cbn zeta in *.
        assert (Hs2 : pauses (log s2)
                      = pauses (log s1) ++ [Tenacity.wait_exponential run_policy k]
                      /\ uploads (log s2) = uploads (log s1)
                      /\ renames (log s2) = renames (log s1)
                      /\ files s2 = files s1).
        { unfold s2, note. cbn [log files]. rewrite pauses_snoc, uploads_snoc, renames_snoc.
          cbn. rewrite app_nil_r. repeat split. lia. }
        destruct Hs2 as (Hs2p & Hs2u & Hs2r & Hs2f).
        exists (S made). split; [lia|]. split; [lia|]. split.
        { rewrite Hp2, Hs2p, Hp, <- app_assoc. f_equal.
          replace (S made - 1)%nat with (S (made - 1)) by lia. reflexivity. }
        split.
        { destruct (Tenacity.attempts_from _ _ _ (S left') (S k) s2) as [[r|y] s3];
            cbn [fst snd] in *.
          - destruct Hu2 as (Hr0 & Hu0 & Hl0). split; [exact Hr0|]. split; [congruence|].
            exact Hl0.
          - destruct Hu2 as (Hy & Hm & Hu0). split; [exact Hy|]. split; [lia|congruence]. }
        split.
        { destruct Hr as [Hr|[Hr Hin]]; [lia|].
          rewrite <- Hs2f in Hin. destruct (Hthere2 Hin) as [Hsame _]. lia. }
        intros Hin. destruct (Hthere Hin) as [Hsame Hin1].
        rewrite <- Hs2f in Hin1. destruct (Hthere2 Hin1) as [Hsame2 Hin2].
        split; [lia|exact Hin2].
Qed.

(** The whole call. *)
Lemma run_facts (s : state) :
  let out := run e s in
  exists made : nat,
    (1 <= made <= 3)%nat
    /\ pauses (log out.2) = pauses (log s) ++ take (made - 1) [4; 4]
    /\ match out.1 with
       | Ok r =>
           asked r = artifact_reference e
           /\ artifact e ∈ files out.2
           /\ uploads (log out.2) = uploads (log s) ++ [the_upload e]
           /\ last (log out.2)
              = Some (Uploaded (artifact e) (S3_BUCKET e) (key (artifact_reference e)))
       | Raise x => x = RetryError /\ made = 3%nat /\ uploads (log out.2) = uploads (log s)
       end
    /\ (renames (log out.2) <= S (renames (log s)))%nat
    /\ (artifact e ∈ files s ->
        renames (log out.2) = renames (log s) /\ artifact e ∈ files out.2).
Proof.
  cbn zeta. pose proof (run_returns e s) as Hret.
  unfold run, Tenacity.retry in *. cbn [Tenacity.stop_after_attempt run_policy] in *.
  destruct (attempts_facts 3 1 s) as (made & Hle & Hge & Hp & Hu & Hr & Hthere).
  cbn zeta in *. exists made. split; [lia|]. split.
  { rewrite Hp. f_equal.
    destruct made as [|[|[|[|made]]]]; [reflexivity..|lia]. }
  split; [|split; assumption].
  destruct (Tenacity.attempts_from _ _ _ 3 1 s) as [[r|x] s1]; cbn [fst snd] in *.
  - destruct Hu as (Hr0 & Hu0 & Hl0). destruct (Hret s1 r eq_refl) as [Hin _].
    repeat split; assumption.
  - exact Hu.
Qed.

End Attempts.

(** X20. A call of [run] that returns has uploaded the artifact of the
    target date exactly once, as the last thing it did, under the key
    [raw/] followed by the file name, the artifact is in place, and what it
    returns is the URL for that object, signed at the moment the call
    ends; a call that raises raises tenacity's [RetryError] and has
    uploaded nothing. *)
Theorem run_uploads_once (e : env) (s : state) :
  let out := run e s in
  match out.1 with
  | Ok r =>
      asked r = artifact_reference e
      /\ signed_at r = tick out.2
      /\ artifact e ∈ files out.2
      /\ uploads (log out.2)
         = uploads (log s)
           ++ [(artifact e, S3_BUCKET e, "raw/" +:+ name (today_path e))]
      /\ last (log out.2)
         = Some (Uploaded (artifact e) (S3_BUCKET e) ("raw/" +:+ name (today_path e)))
  | Raise x => x = RetryError /\ uploads (log out.2) = uploads (log s)
  end.
Proof.
  cbn zeta. destruct (run_facts e s) as (made & _ & _ & Hu & _). cbn zeta in Hu.
  pose proof (run_returns e s) as Hret.
  destruct (run e s) as [[r|x] s1]; cbn [fst snd] in *.
  - destruct (Hret s1 r eq_refl) as (_ & _ & Hat). destruct Hu as (Ha & Hrest).
    split; [exact Ha|]. split; [exact Hat|exact Hrest].
  - destruct Hu as (Hx & _ & Hsame). split; assumption.
Qed.

(** X21. One call of [run] makes between one and three attempts, with
    pauses of 4 and 4 seconds between them, and all three when it raises.
    Over all attempts the export is moved into place once at most: an
    attempt that follows a completed download goes straight to the upload;
    with the artifact in place at the start no attempt moves anything. *)
Theorem run_attempt_budget (e : env) (s : state) :
  let out := run e s in
  exists made : nat,
    (1 <= made <= 3)%nat
    /\ pauses (log out.2) = pauses (log s) ++ take (made - 1) [4; 4]
    /\ (raises out.1 = true -> made = 3%nat)
    /\ (renames (log out.2) <= S (renames (log s)))%nat
    /\ (artifact e ∈ files s -> renames (log out.2) = renames (log s)).
Proof.
  cbn zeta. destruct (run_facts e s) as (made & Hmade & Hp & Hu & Hr & Hthere).
  cbn zeta in *. exists made. split; [exact Hmade|]. split; [exact Hp|]. split.
  - destruct (run e s).1 as [r|x]; [discriminate|]. intros _. apply Hu.
  - split; [exact Hr|]. intros Hin. apply Hthere, Hin.
Qed.

(** X22. The Lambda entry point never raises. It answers 200 with the URL
    of the upload (the URL that [run] returned, for the artifact and signed
    at the end of that call) exactly when [run] returned, and then the artifact is in place and has
    been uploaded once; otherwise it answers 500, the exception it reports
    is tenacity's [RetryError], and nothing has been uploaded. *)
Theorem lambda_handler_outcome (e : env) (s : state) :
  exists (resp : LambdaHandler.response) (s' : state),
    LambdaHandler.lambda_handler e s = (Ok resp, s')
    /\ s' = (run e s).2
    /\ ((LambdaHandler.statusCode resp = 200
         /\ (exists r, LambdaHandler.presigned_url resp = Some r
                       /\ (run e s).1 = Ok r /\ asked r = artifact_reference e
                       /\ signed_at r = tick s')
         /\ LambdaHandler.error resp = None
         /\ raises (run e s).1 = false
         /\ artifact e ∈ files s'
         /\ uploads (log s')
            = uploads (log s)
              ++ [(artifact e, S3_BUCKET e, "raw/" +:+ name (today_path e))])
        \/ (LambdaHandler.statusCode resp = 500
            /\ LambdaHandler.presigned_url resp = None
            /\ LambdaHandler.error resp = Some RetryError
            /\ raises (run e s).1 = true
            /\ uploads (log s') = uploads (log s))).
Proof.
  destruct (run_facts e s) as (made & _ & _ & Hu & _). cbn zeta in Hu.
  pose proof (run_returns e s) as Hret.
  unfold LambdaHandler.lambda_handler.
  destruct (run e s) as [[r|x] s1]; cbn [fst snd] in *.
  - destruct Hu as (Hasked & Hin & Hup & _).
    destruct (Hret s1 r eq_refl) as (_ & _ & Hat).
    eexists _, _. split; [reflexivity|]. split; [reflexivity|]. left.
    split; [reflexivity|]. split; [exists r; repeat split; assumption|].
    repeat split; assumption.
  - destruct Hu as (-> & _ & Hsame).
    eexists _, _. split; [reflexivity|]. split; [reflexivity|]. right.
    repeat split; assumption.
Qed.

End HarvestProps.
